(** * Spectrometer pipeline: calibration, baseline, smoothing, classifier

    A shallow embedding of [processor.py] (class [SpectrometerProcessor]) and
    of [SpectrometerApp.detect_biosignatures] from [spectrometer_app.py].

    Numbers.  The Python code computes on numpy [float64] arrays.  Every
    function below is written once over an interface [Numeric] of the
    arithmetic it uses, and the interface has two instances:
    - [float_numeric]: Rocq's primitive binary64 floats, i.e. the IEEE 754
      arithmetic numpy performs (NaN, infinities and rounding included);
    - [Qc_numeric]: exact rationals, the arithmetic the numeric routines
      approximate, used where a statement is about the mathematical content
      of a fit.
    Interpolation, normalisation and classification are elementwise
    formulas, so their binary64 instance computes what numpy computes.  The
    fits ([np.polyfit], [savgol_filter]) go through LAPACK in numpy, whose
    rounding this model does not reproduce: of the binary64 instance of a
    fit only the accepted and rejected inputs, the shape of the result and
    the samples it depends on are stated; statements about the fitted
    values are made in exact arithmetic and say so.
    Pixel positions, lengths, degrees and window lengths are integers
    ([Z]), as in the source.

    Exceptions.  Python exceptions are values of [exn]; a function that may
    raise returns a [result]. *)

From Stdlib Require Import String.
From Stdlib Require Import ZArith List Bool Lia Permutation Sorted.
From Stdlib Require Import Floats QArith Qcanon Lqa.
Import ListNotations.

Set Implicit Arguments.

(* ------------------------------------------------------------------ *)
(** ** Exceptions and results *)

Inductive exn : Type :=
| ValueError (msg : string)
| TypeError (msg : string).

Inductive result (A : Type) : Type :=
| Ok (a : A)
| Raise (e : exn).

Arguments Ok {A} a.
Arguments Raise {A} e.

Definition bind {A B : Type} (r : result A) (k : A -> result B) : result B :=
  match r with
  | Ok a => k a
  | Raise e => Raise e
  end.

Notation "x <- r ;; k" := (bind r (fun x => k))
  (at level 61, r at next level, right associativity).

Definition is_ok {A : Type} (r : result A) : bool :=
  match r with Ok _ => true | Raise _ => false end.


Definition raises_TypeError {A : Type} (r : result A) : bool :=
  match r with Raise (TypeError _) => true | _ => false end.

(* ------------------------------------------------------------------ *)
(** ** The arithmetic interface *)

Class Numeric (F : Type) : Type := {
  of_int : Z -> F;
  fadd : F -> F -> F;
  fsub : F -> F -> F;
  fmul : F -> F -> F;
  fdiv : F -> F -> F;
  flt : F -> F -> bool;
  feq : F -> F -> bool
}.

(** int -> float64 conversion; exact for |z| < 2^53. *)
Definition float_of_Z (z : Z) : float :=
  if (z <? 0)%Z
  then PrimFloat.opp (PrimFloat.of_uint63 (Uint63.of_Z (- z)))
  else PrimFloat.of_uint63 (Uint63.of_Z z).

#[export] Instance float_numeric : Numeric float := {
  of_int := float_of_Z;
  fadd := PrimFloat.add;
  fsub := PrimFloat.sub;
  fmul := PrimFloat.mul;
  fdiv := PrimFloat.div;
  flt := PrimFloat.ltb;
  feq := PrimFloat.eqb
}.

Definition Qc_ltb (a b : Qc) : bool :=
  match (a ?= b)%Qc with Lt => true | _ => false end.

#[export] Instance Qc_numeric : Numeric Qc := {
  of_int := fun z => Q2Qc (inject_Z z);
  fadd := Qcplus;
  fsub := Qcminus;
  fmul := Qcmult;
  fdiv := Qcdiv;
  flt := Qc_ltb;
  feq := Qc_eq_bool
}.

(* ------------------------------------------------------------------ *)
(** ** [SpectrometerApp.detect_biosignatures] *)

Section Classifier.
Context {F : Type} {num : Numeric F}.

(** Python's chained comparison [lo < p < hi] with integer bounds. *)
Definition between (lo hi : Z) (p : F) : bool :=
  flt (of_int lo) p && flt p (of_int hi).

Record biosignature : Type := {
  chlorophyll : bool;
  carotenoids : bool;
  organics : bool;
  confidence : string;
  interpretation : string
}.

Definition has_chlorophyll (peak_wavelengths : list F) : bool :=
  existsb (between 425 435) peak_wavelengths
  || existsb (between 655 665) peak_wavelengths.

Definition has_carotenoids (peak_wavelengths : list F) : bool :=
  existsb (between 450 550) peak_wavelengths.

Definition has_organics (peak_wavelengths : list F) : bool :=
  existsb (between 400 450) peak_wavelengths.

(** A Python [bool] read as an [int]. *)
Definition Z_of_bool (b : bool) : Z := if b then 1%Z else 0%Z.

(** [sum([b1, b2, b3])]: [True] counts for 1. *)
Definition sum_bools (bs : list bool) : Z :=
  fold_left (fun acc b => (acc + Z_of_bool b)%Z) bs 0%Z.

Definition indicators (peak_wavelengths : list F) : Z :=
  sum_bools [has_chlorophyll peak_wavelengths;
             has_carotenoids peak_wavelengths;
             has_organics peak_wavelengths].

(** The second argument [peak_intensities] is not read by the source. *)
Definition detect_biosignatures (peak_wavelengths peak_intensities : list F)
  : biosignature :=
  let n := indicators peak_wavelengths in
  let '(conf, interp) :=
    (if (n =? 0)%Z then ("none", "No biosignatures detected")
     else if (n =? 1)%Z then ("low", "Weak biosignature detected")
     else if (n =? 2)%Z then ("medium", "Multiple biosignatures detected")
     else ("high", "Strong biosignature pattern detected"))%string in
  {| chlorophyll := has_chlorophyll peak_wavelengths;
     carotenoids := has_carotenoids peak_wavelengths;
     organics := has_organics peak_wavelengths;
     confidence := conf;
     interpretation := interp |}.

End Classifier.

(* ------------------------------------------------------------------ *)
(** ** Array helpers (numpy idioms used by the source) *)

Section Arrays.
Context {F : Type} {num : Numeric F}.

Definition zero : F := of_int 0.
Definition one : F := of_int 1.

(** [np.arange(n)]. *)
Definition arange (n : nat) : list Z := map Z.of_nat (seq 0 n).

(** Elementwise operation on two arrays of the same length. *)
Fixpoint zip_with {A B C : Type} (f : A -> B -> C) (u : list A) (v : list B)
  : list C :=
  match u, v with
  | a :: u', b :: v' => f a b :: zip_with f u' v'
  | _, _ => []
  end.

(** [u - v] on arrays. *)
Definition vsub (u v : list F) : list F := zip_with fsub u v.

(** [a[i]] with Python's negative indices ([a[-1]] is the last element). *)
Definition py_index {A : Type} (d : A) (a : list A) (i : Z) : A :=
  if (i <? 0)%Z
  then nth (Z.to_nat (Z.of_nat (length a) + i)) a d
  else nth (Z.to_nat i) a d.

(** [np.clip(a, lo, hi) = minimum(maximum(a, lo), hi)]. *)
Definition clip (a lo hi : Z) : Z := Z.min (Z.max a lo) hi.

(** A NaN is the only value that differs from itself. *)
Definition isnan (v : F) : bool := negb (feq v v).

(** [np.isfinite]: neither NaN nor an infinity; [v - v] is zero for
    exactly these values. *)
Definition isfinite (v : F) : bool := feq (fsub v v) zero.

End Arrays.

(* ------------------------------------------------------------------ *)
(** ** [scipy.interpolate.interp1d(x, y, kind='linear',
       fill_value='extrapolate')]

    The constructor checks that [x] and [y] have the same length, sorts the
    points by [x] with a stable sort ([assume_sorted=False]:
    [ind = np.argsort(x, kind="mergesort")], [x = x[ind]],
    [y = np.take(y, ind)]), reshapes [y] to two dimensions
    ([_reshape_yi]: [yi.reshape((yi.shape[0], -1))], which numpy refuses
    for an array without elements) and requires at least one point for the
    linear kind.  It checks neither that there are two points nor that the
    abscissae are distinct. *)

Section Interp1d.
Context {F : Type} {num : Numeric F}.

Record interp1d : Type := {
  interp_x : list Z;
  interp_y : list F
}.

(** Insertion of index [i] before the first index whose key is not
    smaller: with indices inserted from the right this is a stable sort. *)
Fixpoint insert_by (key : nat -> Z) (i : nat) (l : list nat) : list nat :=
  match l with
  | [] => [i]
  | j :: l' =>
      if (key i <=? key j)%Z then i :: l else j :: insert_by key i l'
  end.

(** [np.argsort(x, kind="mergesort")]: the indices of [x] in ascending
    order of value, equal values in their original order. *)
Definition argsort (x : list Z) : list nat :=
  fold_right (insert_by (fun i => nth i x 0%Z)) [] (seq 0 (length x)).

(** [a[ind]] / [np.take(a, ind)]. *)
Definition take {A : Type} (d : A) (a : list A) (ind : list nat) : list A :=
  map (fun i => nth i a d) ind.

Definition scipy_interp1d (x : list Z) (y : list F) : result interp1d :=
  if negb (length y =? length x)%nat then
    Raise (ValueError
      "x and y arrays must be equal in length along interpolation axis.")
  else
    let ind := argsort x in
    let xs := take 0%Z x ind in
    let ys := take zero y ind in
    if (length ys =? 0)%nat then
      Raise (ValueError
        "cannot reshape array of size 0 into shape (0,newaxis)")
    else if (length xs <? 1)%nat then
      Raise (ValueError "x and y arrays must have at least 1 entries")
    else Ok {| interp_x := xs; interp_y := ys |}.

(** [np.searchsorted(x, v)] (side ['left']) on an ascending array: the
    number of entries smaller than [v]. *)
Fixpoint searchsorted (x : list Z) (v : Z) : Z :=
  match x with
  | [] => 0
  | a :: x' => if (a <? v)%Z then 1 + searchsorted x' v else 0
  end.

(** [interp1d._call_linear] at one abscissa; with
    [fill_value='extrapolate'] no bounds check follows it. *)
Definition call_linear (f : interp1d) (x_new : Z) : F :=
  let n := Z.of_nat (length (interp_x f)) in
  let x_new_indices := clip (searchsorted (interp_x f) x_new) 1 (n - 1) in
  let lo := (x_new_indices - 1)%Z in
  let hi := x_new_indices in
  let x_lo := py_index 0%Z (interp_x f) lo in
  let x_hi := py_index 0%Z (interp_x f) hi in
  let y_lo := py_index zero (interp_y f) lo in
  let y_hi := py_index zero (interp_y f) hi in
  let slope := fdiv (fsub y_hi y_lo) (of_int (x_hi - x_lo)) in
  fadd (fmul slope (of_int (x_new - x_lo))) y_lo.

(** Calling the interpolator on an array of abscissae. *)
Definition interp1d_call (f : interp1d) (x_new : list Z) : list F :=
  map (call_linear f) x_new.

End Interp1d.

(* ------------------------------------------------------------------ *)
(** ** [SpectrometerProcessor]: calibration *)

Section Calibration.
Context {F : Type} {num : Numeric F}.

(** The object's fields: [self.wavelength_range], [self.calibration]. *)
Record processor : Type := {
  wavelength_range : Z * Z;
  calibration : option (@interp1d F)
}.

(** [__init__]. *)
Definition init (range : Z * Z) : processor :=
  {| wavelength_range := range; calibration := None |}.

(** [wavelength_calibration]: stores the interpolator in
    [self.calibration] and returns it. *)
Definition wavelength_calibration (self : processor)
    (pixel_wavelength_pairs : list (Z * F))
  : result (processor * @interp1d F) :=
  let pixels := map fst pixel_wavelength_pairs in
  let wavelengths := map snd pixel_wavelength_pairs in
  cal <- scipy_interp1d pixels wavelengths ;;
  Ok ({| wavelength_range := wavelength_range self;
         calibration := Some cal |}, cal).

(** [apply_calibration]: returns [(wavelengths, spectrum_raw)]. *)
Definition apply_calibration (self : processor) (spectrum_raw : list F)
  : result (list F * list F) :=
  match calibration self with
  | None =>
      Raise (ValueError
        "No calibration loaded! Call wavelength_calibration() first")
  | Some cal =>
      let pixels := arange (length spectrum_raw) in
      let wavelengths := interp1d_call cal pixels in
      Ok (wavelengths, spectrum_raw)
  end.

(** The interpolator [scipy_interp1d] holds for a non-empty anchor list:
    the anchors reordered by [argsort] of their pixels. *)
Definition built_map (anchors : list (Z * F)) : @interp1d F :=
  let ind := argsort (map fst anchors) in
  {| interp_x := take 0%Z (map fst anchors) ind;
     interp_y := take zero (map snd anchors) ind |}.

(** *** The data model's words

    A calibration map is meant to hold anchors "with strictly increasing
    pixel values"; between two anchors the wavelength is read off the
    straight line through them. *)

Fixpoint strictly_increasing (pixels : list Z) : bool :=
  match pixels with
  | a :: (b :: _) as rest => (a <? b)%Z && strictly_increasing rest
  | _ => true
  end.

(** Value at pixel [p] of the line through [(x0, y0)] and [(x1, y1)]. *)
Definition line_through (x0 : Z) (y0 : F) (x1 : Z) (y1 : F) (p : Z) : F :=
  fadd (fmul (fdiv (fsub y1 y0) (of_int (x1 - x0))) (of_int (p - x0))) y0.

End Calibration.

(* ------------------------------------------------------------------ *)
(** ** [numpy.polyval], [numpy.polyfit]

    [np.polyfit(x, y, deg)] raises [ValueError] for a negative degree and
    [TypeError] for an empty [x] or for [x] and [y] of different lengths;
    it does not compare the degree with the number of points (a degree that
    is too high only produces a [RankWarning]).  It divides every column of
    the Vandermonde matrix by its Euclidean norm before solving
    ([scale = sqrt((lhs*lhs).sum(axis=0))], [lhs /= scale]).  The scaled
    matrix holds an entry that is not finite when a column has norm zero
    (every abscissa zero, power at least 1: [0/0]) or holds a power that is
    itself not finite (an overflow such as [6.0**400]: [inf/inf]);
    [numpy.linalg.lstsq] then raises [LinAlgError], a subclass of
    [ValueError].

    Otherwise it returns the [deg + 1] coefficients, highest power first,
    of a polynomial that minimises the sum of squared residuals, up to
    rounding.  numpy obtains it from LAPACK, whose binary64 rounding is not
    reproduced here; here it is obtained by orthogonalising the
    monomials [x^0 .. x^deg] (Gram-Schmidt, carried out on coefficient
    vectors and on their values at [x] side by side) and projecting [y]; a
    monomial that depends linearly on the earlier ones contributes
    nothing.  When the degree is too high for the number of points the
    minimiser is not unique; its values at [x], which are all the source
    uses, are. *)

Section Polyfit.
Context {F : Type} {num : Numeric F}.

(** [np.polyval(p, x)] at one point: Horner's rule,
    [y = 0; for pv in p: y = y * x + pv]. *)
Definition horner_step (x y pv : F) : F := fadd (fmul y x) pv.

Definition polyval1 (p : list F) (x : F) : F :=
  fold_left (horner_step x) p zero.

Definition np_polyval (p : list F) (x : list F) : list F :=
  map (polyval1 p) x.

Fixpoint fpow (x : F) (k : nat) : F :=
  match k with
  | O => one
  | S k' => fmul x (fpow x k')
  end.

Definition dot (u v : list F) : F :=
  fold_right fadd zero (zip_with fmul u v).

(** [v - a * u]. *)
Definition vaxpy (a : F) (u v : list F) : list F :=
  zip_with (fun ui vi => fsub vi (fmul a ui)) u v.

(** Coefficients (highest power first, [order] of them) of [x^k]. *)
Definition unit_coeff (order k : nat) : list F :=
  repeat zero (order - 1 - k) ++ [one] ++ repeat zero k.

(** The column of the Vandermonde matrix for the power [k]. *)
Definition power_vector (x : list F) (k : nat) : list F :=
  map (fun xi => fpow xi k) x.

(** A polynomial with its values at [x]. *)
Definition poly_vec : Type := (list F * list F)%type.

(** Removes from [cu] its component along the basis element [b]. *)
Definition reduce_step (cu b : poly_vec) : poly_vec :=
  let a := fdiv (dot (snd cu) (snd b)) (dot (snd b) (snd b)) in
  (vaxpy a (fst b) (fst cu), vaxpy a (snd b) (snd cu)).

Definition reduce (basis : list poly_vec) (cu : poly_vec) : poly_vec :=
  fold_left reduce_step basis cu.

Definition extend_basis (x : list F) (order : nat)
    (basis : list poly_vec) (k : nat) : list poly_vec :=
  let cu := reduce basis (unit_coeff order k, power_vector x k) in
  if feq (dot (snd cu) (snd cu)) zero then basis else basis ++ [cu].

Definition orthogonal_basis (x : list F) (order : nat) : list poly_vec :=
  fold_left (extend_basis x order) (seq 0 order) [].

(** The least-squares coefficients: what is left of [y] after removing
    its components along the basis is [y - polyval(c, x)]. *)
Definition lstsq_poly (x y : list F) (order : nat) : list F :=
  let cu := reduce (orthogonal_basis x order) (repeat zero order, y) in
  map (fsub zero) (fst cu).

(** *** Vocabulary for the fit

    [u + v] on arrays, the sum of squares of an array, and what the
    orthogonalisation maintains: a family of polynomials with non-zero,
    pairwise orthogonal value vectors. *)

Definition vadd (u v : list F) : list F := zip_with fadd u v.

Definition sum_squares (u : list F) : F := dot u u.

Inductive orthogonal_family (x : list F) (order : nat)
  : list poly_vec -> Prop :=
| family_nil : orthogonal_family x order []
| family_snoc (basis : list poly_vec) (b : poly_vec) :
    orthogonal_family x order basis ->
    length (fst b) = order ->
    snd b = np_polyval (fst b) x ->
    dot (snd b) (snd b) <> zero ->
    (forall d, In d basis -> dot (snd b) (snd d) = zero) ->
    orthogonal_family x order (basis ++ [b]).

(** Every vector orthogonal to the family is orthogonal to [x^k]. *)
Definition covers (x : list F) (basis : list poly_vec) (k : nat) : Prop :=
  forall r, (forall b, In b basis -> dot r (snd b) = zero) ->
            dot r (power_vector x k) = zero.

(** A column that scaling leaves finite: its squared norm
    [(lhs*lhs).sum(axis=0)] is not zero and none of its entries is an
    infinity or a NaN. *)
Definition column_scales (column : list F) : bool :=
  negb (feq (sum_squares column) zero) && forallb isfinite column.

(** Every column of the Vandermonde matrix of [x] with [order] columns
    scales to finite entries. *)
Definition scaled_matrix_finite (x : list F) (order : nat) : bool :=
  forallb (fun k => column_scales (power_vector x k)) (seq 0 order).

Definition np_polyfit (x y : list F) (deg : Z) : result (list F) :=
  let order := (deg + 1)%Z in
  if (deg <? 0)%Z then Raise (ValueError "expected deg >= 0")
  else if (length x =? 0)%nat then
    Raise (TypeError "expected non-empty vector for x")
  else if negb (length x =? length y)%nat then
    Raise (TypeError "expected x and y to have same length")
  else if negb (scaled_matrix_finite x (Z.to_nat order))
  then Raise (ValueError "SVD did not converge in Linear Least Squares")
  else Ok (lstsq_poly x y (Z.to_nat order)).

End Polyfit.

(* ------------------------------------------------------------------ *)
(** ** [scipy.signal.medfilt]

    [medfilt(volume, kernel_size)] raises [ValueError] unless
    [kernel_size % 2 == 1]; otherwise every output sample is the median of
    the [kernel_size] input samples centred on it, the input being padded
    with zeros. *)

Section Medfilt.
Context {F : Type} {num : Numeric F}.

Fixpoint insert_sorted (v : F) (l : list F) : list F :=
  match l with
  | [] => [v]
  | w :: l' => if flt w v then w :: insert_sorted v l' else v :: l
  end.

Definition sort_values (l : list F) : list F :=
  fold_right insert_sorted [] l.

(** The [k] samples centred on position [i], zeros outside the array. *)
Definition window_at (volume : list F) (k i : nat) : list F :=
  map (fun j =>
         let p := (Z.of_nat i - Z.of_nat (k / 2) + Z.of_nat j)%Z in
         if (p <? 0)%Z || (Z.of_nat (length volume) <=? p)%Z then zero
         else nth (Z.to_nat p) volume zero)
      (seq 0 k).

(** [_order_filterND(volume, ones(k), order)]. *)
Definition order_filter (volume : list F) (k order : nat) : list F :=
  map (fun i => nth order (sort_values (window_at volume k i)) zero)
      (seq 0 (length volume)).

Definition medfilt (volume : list F) (kernel_size : Z) : result (list F) :=
  if negb (kernel_size mod 2 =? 1)%Z then
    Raise (ValueError "Each element of kernel_size should be odd.")
  else if (kernel_size <? 0)%Z then
    Raise (ValueError "negative dimensions are not allowed")
  else
    let k := Z.to_nat kernel_size in
    Ok (order_filter volume k (k / 2)).

End Medfilt.

(* ------------------------------------------------------------------ *)
(** ** [scipy.signal.savgol_filter(x, window_length, polyorder)]
       (default [mode='interp'])

    [savgol_coeffs] raises [ValueError] when
    [polyorder >= window_length]; with [mode='interp'] a window longer than
    the signal raises [ValueError].  For an odd window every output sample
    is the value of the least-squares polynomial of degree [polyorder]
    fitted to [window_length] consecutive samples: the window centred on
    the sample or, within half a window of an end, the first or the last
    [window_length] samples ([_fit_edges_polyfit], which fits a polynomial
    on the abscissae [0 .. window_length-1]).  The fit of the two end
    windows rejects data that are not finite: a NaN or an infinity among
    the first or the last [window_length] samples raises [ValueError].
    SciPy computes the samples in binary64 by a
    convolution and two LAPACK fits; their rounding is not reproduced
    here, where each sample comes from an orthogonalisation of its own
    window.

    An even window that passes the first check is rejected by SciPy
    releases before 1.9 ("window_length must be odd.") and filtered by
    later ones.  The source pins no release, so the model takes the
    release's choice as the parameter [odd_window_required] and, for the
    releases that filter with an even window, the filtered samples as the
    parameter [savgol_even_values]. *)

Section Savgol.
Context {F : Type} {num : Numeric F}.
Variable odd_window_required : bool.
Variable savgol_even_values : list F -> Z -> Z -> list F.

(** First sample of the window used for output position [i]. *)
Definition window_start (n w i : nat) : nat :=
  let h := (w / 2)%nat in
  if (i <? h)%nat then 0%nat
  else if (n - 1 - h <? i)%nat then (n - w)%nat
  else (i - h)%nat.

Definition savgol_value (x : list F) (w order i : nat) : F :=
  let start := window_start (length x) w i in
  let t := map of_int (arange w) in
  let c := lstsq_poly t (firstn w (skipn start x)) order in
  polyval1 c (of_int (Z.of_nat (i - start))).

(** The samples of the two end windows, [x[0:w]] and [x[n-w:n]]. *)
Definition edge_samples (x : list F) (w : nat) : list F :=
  firstn w x ++ skipn (length x - w) x.

Definition savgol_filter (x : list F) (window_length polyorder : Z)
  : result (list F) :=
  if (polyorder >=? window_length)%Z then
    Raise (ValueError "polyorder must be less than window_length.")
  else if (window_length mod 2 =? 0)%Z && odd_window_required then
    Raise (ValueError "window_length must be odd.")
  else if (window_length >? Z.of_nat (length x))%Z then
    Raise (ValueError
      "If mode is 'interp', window_length must be less than or equal to the size of x.")
  else if negb (forallb isfinite (edge_samples x (Z.to_nat window_length)))
  then Raise (ValueError "array must not contain infs or NaNs")
  else if (window_length mod 2 =? 0)%Z then
    Ok (savgol_even_values x window_length polyorder)
  else
    Ok (map (savgol_value x (Z.to_nat window_length)
               (Z.to_nat (polyorder + 1)))
            (seq 0 (length x))).

End Savgol.

(* ------------------------------------------------------------------ *)
(** ** [SpectrometerProcessor]: baseline, normalisation, smoothing *)

Section Processing.
Context {F : Type} {num : Numeric F}.

(** [np.min]: raises on an empty array; a NaN entry makes the result NaN. *)
Definition np_min (a : list F) : result F :=
  match a with
  | [] => Raise (ValueError
      "zero-size array to reduction operation minimum which has no identity")
  | v :: a' =>
      Ok (fold_left (fun m w => if isnan m then m else if isnan w then w
                                else if flt w m then w else m) a' v)
  end.

Definition np_max (a : list F) : result F :=
  match a with
  | [] => Raise (ValueError
      "zero-size array to reduction operation maximum which has no identity")
  | v :: a' =>
      Ok (fold_left (fun m w => if isnan m then m else if isnan w then w
                                else if flt m w then w else m) a' v)
  end.

(** Default value of the parameter [degree]. *)
Definition default_degree : Z := 3.

(** [baseline_correction(spectrum, method, degree)]. *)
Definition baseline_correction (spectrum : list F) (method : string)
    (degree : Z) : result (list F) :=
  if (method =? "polynomial")%string then
    let x := map of_int (arange (length spectrum)) in
    coeffs <- np_polyfit x spectrum degree ;;
    let baseline := np_polyval coeffs x in
    Ok (vsub spectrum baseline)
  else if (method =? "rolling_minimum")%string then
    let window := (Z.of_nat (length spectrum) / 20)%Z in
    baseline <- medfilt spectrum window ;;
    Ok (vsub spectrum baseline)
  else Raise (ValueError ("Unknown baseline method: " ++ method)).

(** [normalize_spectrum]:
    [(spectrum - np.min(spectrum)) / (np.max(spectrum) - np.min(spectrum))]. *)
Definition normalize_spectrum (spectrum : list F) : result (list F) :=
  lo <- np_min spectrum ;;
  let numerator := map (fun v => fsub v lo) spectrum in
  hi <- np_max spectrum ;;
  lo' <- np_min spectrum ;;
  let denominator := fsub hi lo' in
  Ok (map (fun v => fdiv v denominator) numerator).

(** Default value of the parameter [window_length]. *)
Definition default_window_length : Z := 11.

(** [smooth_spectrum]: [signal.savgol_filter(spectrum, window_length, 3)]. *)
Definition smooth_spectrum (odd_window_required : bool)
    (savgol_even_values : list F -> Z -> Z -> list F)
    (spectrum : list F) (window_length : Z) : result (list F) :=
  savgol_filter odd_window_required savgol_even_values
    spectrum window_length 3.

End Processing.

(* ------------------------------------------------------------------ *)
(** ** Reading exact results *)

(** An array of integers as exact rationals. *)
Definition Qc_of_ints (l : list Z) : list Qc :=
  map (fun z => Q2Qc (inject_Z z)) l.

(** The fractions in an exact result (nothing for an exception). *)
Definition result_values (r : result (list Qc)) : list Q :=
  match r with
  | Ok l => map this l
  | Raise _ => []
  end.

(* ------------------------------------------------------------------ *)
(** ** Exceptions beyond [ValueError] and [TypeError]

    Indexing outside an array raises [IndexError] (index and size are kept
    instead of the message text); calling [.get] on a value that is not a
    dict raises [AttributeError]; a missing dict key raises [KeyError];
    a file that cannot be opened for writing raises [OSError]. *)

Inductive exception : Type :=
| Builtin (e : exn)
| IndexError (index size : Z)
| AttributeError (msg : string)
| KeyError (key : string)
| OSError (path : string).

Inductive outcome (A : Type) : Type :=
| Return (a : A)
| Throw (e : exception).

Arguments Return {A} a.
Arguments Throw {A} e.

Definition lift {A : Type} (r : result A) : outcome A :=
  match r with
  | Ok a => Return a
  | Raise e => Throw (Builtin e)
  end.

Definition obind {A B : Type} (r : outcome A) (k : A -> outcome B)
  : outcome B :=
  match r with
  | Return a => k a
  | Throw e => Throw e
  end.

Notation "x <~ r ;; k" := (obind r (fun x => k))
  (at level 61, r at next level, right associativity).

Definition returns {A : Type} (r : outcome A) : bool :=
  match r with Return _ => true | Throw _ => false end.

(* ------------------------------------------------------------------ *)
(** ** [SpectrometerProcessor.extract_spectrum]

    A 2-D numpy array is a number of columns and a list of rows.  numpy
    arrays are rectangular: [rectangular] says every row has [img_width]
    entries.  [np.mean(a, axis=0)] adds the rows up and divides by their
    number; [np.median(a, axis=0)] sorts each column and returns the middle
    entry, or half the sum of the two middle entries when the count is
    even, NaN for a column that contains a NaN or is empty.

    Two details of numpy's binary64 results are outside the model: a
    frame of a single column with 8 rows or more is summed pairwise, not
    row after row, and the sign of a zero (numpy takes the median as the
    mean of the middle entries).  Nothing below states the binary64 value
    of a mean of 8 rows or more, and a median is compared as a number. *)

Section ExtractSpectrum.
Context {F : Type} {num : Numeric F}.

Record image : Type := {
  img_width : nat;
  img_rows : list (list F)
}.

(** [image_2d.shape[0]]. *)
Definition img_height (im : image) : nat := length (img_rows im).

Definition rectangular (im : image) : bool :=
  forallb (fun row => (length row =? img_width im)%nat) (img_rows im).

(** [image_2d[:, j]]. *)
Definition column (im : image) (j : nat) : list F :=
  map (fun row => nth j row zero) (img_rows im).

Definition np_sum (l : list F) : F := fold_left fadd l zero.

Definition np_mean (l : list F) : F :=
  fdiv (np_sum l) (of_int (Z.of_nat (length l))).

Definition np_median (l : list F) : F :=
  let n := length l in
  let s := sort_values l in
  if existsb isnan l || (n =? 0)%nat then fdiv zero zero
  else if Nat.odd n then nth (n / 2) s zero
  else fdiv (fadd (nth (n / 2 - 1) s zero) (nth (n / 2) s zero)) (of_int 2).

Definition extract_spectrum (image_2d : image) (method : string)
  : outcome (list F) :=
  let columns := seq 0 (img_width image_2d) in
  if (method =? "average")%string then
    Return (map (fun j => np_mean (column image_2d j)) columns)
  else if (method =? "median")%string then
    Return (map (fun j => np_median (column image_2d j)) columns)
  else if (method =? "center_row")%string then
    let center_row := (img_height image_2d / 2)%nat in
    match nth_error (img_rows image_2d) center_row with
    | Some row => Return row
    | None =>
        Throw (IndexError (Z.of_nat center_row)
                          (Z.of_nat (img_height image_2d)))
    end
  else Throw (Builtin (ValueError ("Unknown method: " ++ method))).

End ExtractSpectrum.

(* ------------------------------------------------------------------ *)
(** ** [scipy.signal.find_peaks(x, prominence=...)]

    Candidates ([_local_maxima_1d]): a sample, or a run of equal samples,
    whose neighbour on the left and whose neighbour on the right are both
    strictly lower; a run is reported at its middle index, rounded down.
    The first and the last sample are never candidates, and a run that
    reaches the last sample is not one either.  The library resumes its
    scan after a run it has reported; the samples it skips hold no rising
    edge, so looking at every index finds the same candidates.

    Prominence ([_peak_prominences], no window): walking from the peak to
    the left over samples that are not higher than the peak, the lowest
    sample met is the left base; likewise to the right; the prominence is
    the peak's height above the higher of the two bases.  (The library
    starts both walks on the peak itself, which is not lower than itself.)

    Candidates whose prominence is at least the requested one are kept. *)

Section FindPeaks.
Context {F : Type} {num : Numeric F}.

(** [a <= b] on floats. *)
Definition fle (a b : F) : bool := flt a b || feq a b.

Definition sample (x : list F) (i : nat) : F := nth i x zero.

(** Number of leading entries equal to [v]. *)
Fixpoint run_length (v : F) (l : list F) : nat :=
  match l with
  | a :: l' => if feq a v then S (run_length v l') else 0%nat
  | [] => 0%nat
  end.

(** For a rising edge at [i]: the first later index that holds a different
    value or is the last index ([i_ahead] in the library). *)
Definition plateau_stop (x : list F) (i : nat) : nat :=
  (i + 1 + run_length (sample x i)
             (firstn (length x - 2 - i) (skipn (i + 1) x)))%nat.

Definition local_maxima_1d (x : list F) : list nat :=
  flat_map
    (fun i =>
       if flt (sample x (i - 1)) (sample x i) then
         let i_ahead := plateau_stop x i in
         if flt (sample x i_ahead) (sample x i)
         then [((i + (i_ahead - 1)) / 2)%nat]
         else []
       else [])
    (seq 1 (length x - 2)).

(** A run [l..r] of equal samples with strictly lower samples right before
    and right after it. *)
Definition flat_peak (x : list F) (l r : nat) : Prop :=
  (1 <= l <= r)%nat /\ (r + 1 < length x)%nat /\
  flt (sample x (l - 1)) (sample x l) = true /\
  (forall k, (l < k <= r)%nat -> feq (sample x k) (sample x l) = true) /\
  flt (sample x (r + 1)) (sample x l) = true.

(** The walk away from the peak: [best] is the lowest sample so far and
    its index. *)
Fixpoint descend (peak_value : F) (side : list (nat * F)) (best : nat * F)
  : nat * F :=
  match side with
  | [] => best
  | (i, v) :: rest =>
      if fle v peak_value
      then descend peak_value rest (if flt v (snd best) then (i, v) else best)
      else best
  end.

Definition indexed (x : list F) : list (nat * F) :=
  combine (seq 0 (length x)) x.

Definition left_base (x : list F) (peak : nat) : nat * F :=
  descend (sample x peak) (rev (firstn peak (indexed x)))
          (peak, sample x peak).

Definition right_base (x : list F) (peak : nat) : nat * F :=
  descend (sample x peak) (skipn (peak + 1) (indexed x))
          (peak, sample x peak).

Definition peak_prominence (x : list F) (peak : nat) : F :=
  let left_min := snd (left_base x peak) in
  let right_min := snd (right_base x peak) in
  fsub (sample x peak)
       (if flt left_min right_min then right_min else left_min).

(** The dict [properties] that comes with the peaks. *)
Record peak_properties : Type := {
  prominences : list F;
  left_bases : list nat;
  right_bases : list nat
}.

Definition scipy_find_peaks (x : list F) (prominence : F)
  : list nat * peak_properties :=
  let keep :=
    filter (fun peak => fle prominence (peak_prominence x peak))
           (local_maxima_1d x) in
  (keep,
   {| prominences := map (peak_prominence x) keep;
      left_bases := map (fun peak => fst (left_base x peak)) keep;
      right_bases := map (fun peak => fst (right_base x peak)) keep |}).

(** [a[ind]] for an index array: [IndexError] at the first index that is
    out of bounds. *)
Fixpoint fancy_index (a : list F) (ind : list nat) : outcome (list F) :=
  match ind with
  | [] => Return []
  | i :: ind' =>
      match nth_error a i with
      | None => Throw (IndexError (Z.of_nat i) (Z.of_nat (length a)))
      | Some v => rest <~ fancy_index a ind' ;; Return (v :: rest)
      end
  end.

(** Default value of the parameter [prominence]. *)
Definition default_prominence : F := of_int 100.

(** [SpectrometerProcessor.find_peaks]. *)
Definition find_peaks (wavelengths spectrum : list F) (prominence : F)
  : outcome (list F * list F * peak_properties) :=
  let '(peak_indices, properties) := scipy_find_peaks spectrum prominence in
  peak_wavelengths <~ fancy_index wavelengths peak_indices ;;
  peak_intensities <~ fancy_index spectrum peak_indices ;;
  Return (peak_wavelengths, peak_intensities, properties).

End FindPeaks.

(* ------------------------------------------------------------------ *)
(** * The application around the processor

    [datalogger.py], [web_dashboard.py], [spectrometer_app.py] and
    [run_with_dashboard.py] pass Python dicts around, write files and keep
    module-level state.  Below, a Python value is a term of [pyvalue], a
    dict is an association list in insertion order, the files written are
    a list of paths with their contents, and a method that changes an
    object takes the object and returns the changed one together with what
    the call returns or raises.  What is printed, and the matplotlib
    window of [RealtimeSpectrumPlotter], are not part of the model. *)

From Stdlib Require Ascii DecimalString DecimalNat.

Section PythonValues.
Context {F : Type}.

#[local] Set Warnings "-register-all".

Inductive pyvalue : Type :=
| PyNone
| PyBool (b : bool)
| PyInt (z : Z)
| PyFloat (f : F)
| PyStr (s : string)
| PyList (items : list pyvalue)
| PyDict (items : list (string * pyvalue))
| PyArray (a : @image F).

Definition dict : Type := list (string * pyvalue).

(** [d[key]] when the key is present. *)
Fixpoint dict_get (d : dict) (key : string) : option pyvalue :=
  match d with
  | [] => None
  | (k, v) :: d' => if (k =? key)%string then Some v else dict_get d' key
  end.

(** [d[key] = value]: an existing key keeps its place. *)
Fixpoint dict_set (d : dict) (key : string) (value : pyvalue) : dict :=
  match d with
  | [] => [(key, value)]
  | (k, v) :: d' =>
      if (k =? key)%string then (k, value) :: d'
      else (k, v) :: dict_set d' key value
  end.

(** [key in d]. *)
Definition dict_contains (d : dict) (key : string) : bool :=
  match dict_get d key with Some _ => true | None => false end.

Definition type_name (v : pyvalue) : string :=
  match v with
  | PyNone => "NoneType"
  | PyBool _ => "bool"
  | PyInt _ => "int"
  | PyFloat _ => "float"
  | PyStr _ => "str"
  | PyList _ => "list"
  | PyDict _ => "dict"
  | PyArray _ => "numpy.ndarray"
  end.

(** [v.get(key, default)]: only a dict has the method. *)
Definition py_get (v : pyvalue) (key : string) (default : pyvalue)
  : outcome pyvalue :=
  match v with
  | PyDict d =>
      Return (match dict_get d key with Some x => x | None => default end)
  | _ => Throw (AttributeError
           ("'" ++ type_name v ++ "' object has no attribute 'get'"))
  end.

(** [a.size] of a 2-D array. *)
Definition array_size (a : @image F) : nat :=
  (img_height a * img_width a)%nat.

(** [if v == 'text']: the comparison and the truth value of its result.
    A string equals the text or not, and a value of any other Python type
    differs from it.  A numpy array is compared elementwise (numpy 1.25
    and later; earlier releases answered [False] with a warning), and the
    array of booleans that gives has a truth value only when it has
    exactly one element: otherwise [bool()] raises [ValueError] (for an
    array without elements since numpy 2.2). *)
Definition py_eq_str (v : pyvalue) (text : string) : outcome bool :=
  match v with
  | PyStr s => Return (s =? text)%string
  | PyArray a =>
      if (array_size a =? 1)%nat then Return false
      else if (array_size a =? 0)%nat then
        Throw (Builtin (ValueError
          "The truth value of an empty array is ambiguous. Use `array.size > 0` to check that an array is not empty."))
      else
        Throw (Builtin (ValueError
          "The truth value of an array with more than one element is ambiguous. Use a.any() or a.all()"))
  | _ => Return false
  end.

(** What [json.dump] and Flask's [jsonify] can encode: everything here
    but a numpy array, inside lists and dicts as well. *)
Fixpoint json_serializable (v : pyvalue) : bool :=
  match v with
  | PyArray _ => false
  | PyList items => forallb json_serializable items
  | PyDict d => forallb (fun kv => json_serializable (snd kv)) d
  | _ => true
  end.

Definition not_serializable : exception :=
  Builtin (TypeError "Object of type ndarray is not JSON serializable").

End PythonValues.

Arguments pyvalue F : clear implicits.
Arguments dict F : clear implicits.

(* ------------------------------------------------------------------ *)
(** ** Strings the code builds *)

(** [str(n)] for a natural number. *)
Definition str_of_nat (n : nat) : string :=
  DecimalString.NilEmpty.string_of_uint (Nat.to_uint n).

Fixpoint zeros (k : nat) : string :=
  match k with
  | O => EmptyString
  | S k' => ("0" ++ zeros k')%string
  end.

(** [f"{n:03d}"]: at least three digits, zeros in front. *)
Definition format_03d (n : nat) : string :=
  let digits := str_of_nat n in
  (zeros (3 - String.length digits) ++ digits)%string.

Definition starts_with_sep (s : string) : bool := String.prefix "/" s.

Fixpoint ends_with_sep (s : string) : bool :=
  match s with
  | EmptyString => false
  | String c s' =>
      if (s' =? "")%string then (String c EmptyString =? "/")%string
      else ends_with_sep s'
  end.

(** One step of [os.path.join] (POSIX): an absolute component replaces
    what came before it. *)
Definition join_step (path b : string) : string :=
  if starts_with_sep b then b
  else if (path =? "")%string || ends_with_sep path then (path ++ b)%string
  else (path ++ "/" ++ b)%string.

Definition path_join (a : string) (p : list string) : string :=
  fold_left join_step p a.

Definition newline : string := String (Ascii.ascii_of_nat 10) EmptyString.

(* ------------------------------------------------------------------ *)
(** ** [datalogger.SpectroscopyLogger]

    A file is opened for writing before anything is written to it:
    [writable path] says whether that succeeds ([OSError] otherwise).
    [np.save] and [np.savez] then turn what they are given into arrays:
    [savable v] says whether numpy can do that with [v] ([ValueError]
    otherwise, for a ragged nested list say).  A write that completes
    leaves [Written content]; one that fails half-way leaves the file
    [Truncated].  The times come from the clock and are arguments. *)

Section Logger.
Context {F : Type}.
Variable writable : string -> bool.
Variable savable : pyvalue F -> bool.

Inductive file_content : Type :=
| Written (content : pyvalue F)
| Truncated.

Definition files : Type := list (string * file_content).

(** [self.session_log]: the three keys [__init__] sets, followed by the
    keys added later ('notes', 'end_time'), in insertion order. *)
Record session : Type := {
  log_session_id : string;
  start_time : string;
  measurements : list (dict F);
  later_keys : dict F
}.

Definition session_dict (s : session) : pyvalue F :=
  PyDict ([("session_id", PyStr (log_session_id s));
           ("start_time", PyStr (start_time s));
           ("measurements", PyList (map PyDict (measurements s)))]%string
          ++ later_keys s).

Record SpectroscopyLogger : Type := {
  log_dir : string;
  session_id : string;
  session_dir : string;
  session_log : session
}.

(** [__init__(log_dir)]; [stamp] is [now().strftime("%Y%m%d_%H%M%S")],
    [now] is [now().isoformat()].  The three directories it creates are
    not recorded. *)
Definition logger_init (log_dir stamp now : string) : SpectroscopyLogger :=
  {| log_dir := log_dir;
     session_id := stamp;
     session_dir := path_join log_dir ["session_" ++ stamp]%string;
     session_log := {| log_session_id := stamp;
                       start_time := now;
                       measurements := [];
                       later_keys := [] |} |}.

(** [np.save(path, value)], and [np.savez(path, **value)] for a dict of
    named values. *)
Definition np_save (fs : files) (path : string) (values : list (pyvalue F))
    (content : pyvalue F)
  : files * outcome unit :=
  if negb (writable path) then (fs, Throw (OSError path))
  else if forallb savable values
  then (fs ++ [(path, Written content)], Return tt)
  else (fs ++ [(path, Truncated)],
        Throw (Builtin (ValueError
          "setting an array element with a sequence."))).

(** [_save_session_log]. *)
Definition _save_session_log (self : SpectroscopyLogger) (fs : files)
  : files * outcome unit :=
  let log_file := path_join (session_dir self) ["session_log.json"]%string in
  if negb (writable log_file) then (fs, Throw (OSError log_file))
  else if json_serializable (session_dict (session_log self))
  then (fs ++ [(log_file, Written (session_dict (session_log self)))],
        Return tt)
  else (fs ++ [(log_file, Truncated)], Throw not_serializable).

Definition with_measurement (self : SpectroscopyLogger) (record : dict F)
  : SpectroscopyLogger :=
  {| log_dir := log_dir self;
     session_id := session_id self;
     session_dir := session_dir self;
     session_log :=
       {| log_session_id := log_session_id (session_log self);
          start_time := start_time (session_log self);
          measurements := measurements (session_log self) ++ [record];
          later_keys := later_keys (session_log self) |} |}.

Definition with_later_keys (self : SpectroscopyLogger) (later : dict F)
  : SpectroscopyLogger :=
  {| log_dir := log_dir self;
     session_id := session_id self;
     session_dir := session_dir self;
     session_log :=
       {| log_session_id := log_session_id (session_log self);
          start_time := start_time (session_log self);
          measurements := measurements (session_log self);
          later_keys := later |} |}.

(** [d.get(key, default)] on a dict. *)
Definition dict_get_default (d : dict F) (key : string)
    (default : pyvalue F) : pyvalue F :=
  match dict_get d key with Some x => x | None => default end.

(** [log_measurement(measurement_data, sample_id)] at clock time [now]. *)
Definition log_measurement (self : SpectroscopyLogger) (fs : files)
    (now : string) (measurement_data : pyvalue F)
    (sample_id : option string)
  : (SpectroscopyLogger * files) * outcome nat :=
  let measurement_id := (length (measurements (session_log self)) + 1)%nat in
  let timestamp := now in
  let sample_id :=
    match sample_id with
    | None => ("sample_" ++ format_03d measurement_id)%string
    | Some s => s
    end in
  match measurement_data with
  | PyDict data =>
      let record :=
        [("measurement_id", PyInt (Z.of_nat measurement_id));
         ("sample_id", PyStr sample_id);
         ("timestamp", PyStr timestamp);
         ("peaks_detected",
          dict_get_default data "peaks_detected" (PyInt 0));
         ("biosignature_analysis",
          dict_get_default data "biosignature_analysis" (PyDict []))
        ]%string in
      (* spectrum data, saved separately *)
      let spectrum_step : (dict F * files) * outcome unit :=
        match dict_get data "wavelengths", dict_get data "spectrum" with
        | Some wavelengths, Some spectrum =>
            let spectrum_file :=
              path_join (session_dir self)
                ["spectra"; sample_id ++ "_spectrum.npz"]%string in
            let peaks :=
              dict_get_default data "peak_wavelengths" (PyList []) in
            let '(fs1, r) :=
              np_save fs spectrum_file [wavelengths; spectrum; peaks]
                (PyDict [("wavelengths", wavelengths);
                         ("spectrum", spectrum);
                         ("peaks", peaks)]%string) in
            match r with
            | Throw e => ((record, fs1), Throw e)
            | Return _ =>
                ((dict_set record "spectrum_file" (PyStr spectrum_file),
                  fs1), Return tt)
            end
        | _, _ => ((record, fs), Return tt)
        end in
      match spectrum_step with
      | (_, fs1, Throw e) => ((self, fs1), Throw e)
      | (record1, fs1, Return _) =>
          (* raw image, if provided *)
          let image_step : (dict F * files) * outcome unit :=
            match dict_get data "raw_image" with
            | Some raw_image =>
                let image_file :=
                  path_join (session_dir self)
                    ["images"; sample_id ++ "_raw.npy"]%string in
                let '(fs2, r) :=
                  np_save fs1 image_file [raw_image] raw_image in
                match r with
                | Throw e => ((record1, fs2), Throw e)
                | Return _ =>
                    ((dict_set record1 "image_file" (PyStr image_file),
                      fs2), Return tt)
                end
            | None => ((record1, fs1), Return tt)
            end in
          match image_step with
          | (_, fs2, Throw e) => ((self, fs2), Throw e)
          | (record2, fs2, Return _) =>
              (* add to the session log, save it *)
              let self' := with_measurement self record2 in
              let '(fs3, r) := _save_session_log self' fs2 in
              match r with
              | Throw e => ((self', fs3), Throw e)
              | Return _ => ((self', fs3), Return measurement_id)
              end
          end
      end
  | other =>
      ((self, fs),
       Throw (AttributeError
         ("'" ++ type_name other ++ "' object has no attribute 'get'")))
  end.

(** [add_note(note)]. *)
Definition add_note (self : SpectroscopyLogger) (fs : files)
    (now : string) (note : pyvalue F)
  : (SpectroscopyLogger * files) * outcome unit :=
  let later := later_keys (session_log self) in
  let later1 :=
    if negb (dict_contains later "notes")
    then dict_set later "notes" (PyList []) else later in
  let entry := PyDict [("timestamp", PyStr now); ("note", note)]%string in
  match dict_get later1 "notes" with
  | Some (PyList notes) =>
      let self' :=
        with_later_keys self
          (dict_set later1 "notes" (PyList (notes ++ [entry]))) in
      let '(fs1, r) := _save_session_log self' fs in
      ((self', fs1), r)
  | Some other =>
      ((with_later_keys self later1, fs),
       Throw (AttributeError
         ("'" ++ type_name other ++ "' object has no attribute 'append'")))
  | None => ((with_later_keys self later1, fs), Throw (KeyError "notes"))
  end.

(** [end_session()]. *)
Definition end_session (self : SpectroscopyLogger) (fs : files)
    (now : string)
  : (SpectroscopyLogger * files) * outcome unit :=
  let self' :=
    with_later_keys self
      (dict_set (later_keys (session_log self)) "end_time" (PyStr now)) in
  let '(fs1, r) := _save_session_log self' fs in
  ((self', fs1), r).

(** [m['biosignature_analysis'].get('confidence') == level]. *)
Definition has_confidence (level : string) (m : dict F) : outcome bool :=
  match dict_get m "biosignature_analysis" with
  | None => Throw (KeyError "biosignature_analysis")
  | Some analysis =>
      c <~ py_get analysis "confidence" PyNone ;;
      py_eq_str c level
  end.

(** [sum(1 for m in measurements if ... == level)]. *)
Fixpoint count_confidence (level : string) (ms : list (dict F))
  : outcome nat :=
  match ms with
  | [] => Return 0%nat
  | m :: ms' =>
      hit <~ has_confidence level m ;;
      rest <~ count_confidence level ms' ;;
      Return ((if hit then 1 else 0) + rest)%nat
  end.

(** [get_summary()]. *)
Definition get_summary (self : SpectroscopyLogger) : outcome string :=
  let total := length (measurements (session_log self)) in
  if (total =? 0)%nat then Return "No measurements recorded"%string
  else
    high_conf <~ count_confidence "high"
                   (measurements (session_log self)) ;;
    medium_conf <~ count_confidence "medium"
                     (measurements (session_log self)) ;;
    Return (newline
            ++ "Session Summary:" ++ newline
            ++ "- Total measurements: " ++ str_of_nat total ++ newline
            ++ "- High confidence biosignatures: "
            ++ str_of_nat high_conf ++ newline
            ++ "- Medium confidence biosignatures: "
            ++ str_of_nat medium_conf ++ newline
            ++ "- Session ID: " ++ session_id self ++ newline
            ++ "- Log directory: " ++ session_dir self ++ newline
            ++ "        ")%string.

(** *** A client's calls

    A call of one of the three methods that change the logger; a client
    that catches exceptions goes on with the logger and the files as the
    call left them. *)

Inductive logger_call : Type :=
| LogMeasurement (now : string) (measurement_data : pyvalue F)
                 (sample_id : option string)
| AddNote (now : string) (note : pyvalue F)
| EndSession (now : string).

Definition perform (state : SpectroscopyLogger * files) (call : logger_call)
  : SpectroscopyLogger * files :=
  match call with
  | LogMeasurement now measurement_data sample_id =>
      fst (log_measurement (fst state) (snd state) now measurement_data
             sample_id)
  | AddNote now note => fst (add_note (fst state) (snd state) now note)
  | EndSession now => fst (end_session (fst state) (snd state) now)
  end.

(** The 'measurement_id' entries of the logged records, in order. *)
Definition measurement_ids (self : SpectroscopyLogger)
  : list (option (pyvalue F)) :=
  map (fun m => dict_get m "measurement_id")
      (measurements (session_log self)).

(** Some logged record cannot be encoded as JSON. *)
Definition unserializable_log (self : SpectroscopyLogger) : bool :=
  existsb (fun m => negb (json_serializable (PyDict m)))
          (measurements (session_log self)).

End Logger.

(* ------------------------------------------------------------------ *)
(** ** [web_dashboard]: the module's state and [update_results] *)

Section Dashboard.
Context {F : Type}.

(** The dict [session_stats]. *)
Record session_stats : Type := {
  total_measurements : Z;
  high_confidence : Z;
  medium_confidence : Z;
  low_confidence : Z
}.

(** The globals [latest_results] and [session_stats]. *)
Record dashboard : Type := {
  latest_results : pyvalue F;
  stats : session_stats
}.

Definition dashboard_start : dashboard :=
  {| latest_results := PyNone;
     stats := {| total_measurements := 0; high_confidence := 0;
                 medium_confidence := 0; low_confidence := 0 |} |}.

(** The [if]/[elif] chain on the confidence: the counters after it, or
    what a comparison raised. *)
Definition count_level (s1 : session_stats) (confidence : pyvalue F)
  : outcome session_stats :=
  is_high <~ py_eq_str confidence "high" ;;
  if is_high then
    Return {| total_measurements := total_measurements s1;
              high_confidence := high_confidence s1 + 1;
              medium_confidence := medium_confidence s1;
              low_confidence := low_confidence s1 |}
  else
    is_medium <~ py_eq_str confidence "medium" ;;
    if is_medium then
      Return {| total_measurements := total_measurements s1;
                high_confidence := high_confidence s1;
                medium_confidence := medium_confidence s1 + 1;
                low_confidence := low_confidence s1 |}
    else
      is_low <~ py_eq_str confidence "low" ;;
      if is_low then
        Return {| total_measurements := total_measurements s1;
                  high_confidence := high_confidence s1;
                  medium_confidence := medium_confidence s1;
                  low_confidence := low_confidence s1 + 1 |}
      else Return s1.

(** [update_results(results)]: the two assignments come first, so they
    stay when the look-up of the confidence, or its comparison with a
    level, raises. *)
Definition update_results (d : dashboard) (results : pyvalue F)
  : dashboard * outcome unit :=
  let s := stats d in
  let s1 := {| total_measurements := total_measurements s + 1;
               high_confidence := high_confidence s;
               medium_confidence := medium_confidence s;
               low_confidence := low_confidence s |} in
  let d1 := {| latest_results := results; stats := s1 |} in
  match (analysis <~ py_get results "biosignature_analysis" (PyDict []) ;;
         confidence <~ py_get analysis "confidence" (PyStr "none") ;;
         count_level s1 confidence) with
  | Throw e => (d1, Throw e)
  | Return s2 => ({| latest_results := results; stats := s2 |}, Return tt)
  end.

(** *** Vocabulary for the counters

    The confidence [update_results] reads from a result, whether a result
    reports a given level, and how many results of a list do. *)

Definition reported_confidence (results : pyvalue F) : outcome (pyvalue F) :=
  analysis <~ py_get results "biosignature_analysis" (PyDict []) ;;
  py_get analysis "confidence" (PyStr "none").

Definition reports (level : string) (results : pyvalue F) : bool :=
  match (c <~ reported_confidence results ;; py_eq_str c level) with
  | Return b => b
  | Throw _ => false
  end.

Definition Z_count (level : string) (rs : list (pyvalue F)) : Z :=
  Z.of_nat (length (filter (reports level) rs)).

(** [jsonify(v)]: the body of the response, or [TypeError]. *)
Definition jsonify (v : pyvalue F) : outcome (pyvalue F) :=
  if json_serializable v then Return v else Throw not_serializable.

(** [get_latest()], the handler of [/api/latest]. *)
Definition get_latest (d : dashboard) : outcome (pyvalue F) :=
  match latest_results d with
  | PyNone => jsonify (PyDict [("status", PyStr "no_data")]%string)
  | results =>
      jsonify (PyDict [("status", PyStr "ok"); ("data", results)]%string)
  end.

(** [get_stats()], the handler of [/api/stats]. *)
Definition get_stats (d : dashboard) : outcome (pyvalue F) :=
  let s := stats d in
  jsonify (PyDict
    [("total_measurements", PyInt (total_measurements s));
     ("high_confidence", PyInt (high_confidence s));
     ("medium_confidence", PyInt (medium_confidence s));
     ("low_confidence", PyInt (low_confidence s))]%string).

End Dashboard.

Arguments dashboard F : clear implicits.

(** The logger's record count and its counts of "high" and "medium"
    verdicts are the dashboard's counters. *)
Definition counts_agree {F : Type} (self : @SpectroscopyLogger F)
    (board : dashboard F) : Prop :=
  let logged := measurements (session_log self) in
  let s := stats board in
  Z.of_nat (length logged) = total_measurements s /\
  (exists high, count_confidence "high" logged = Return high /\
                Z.of_nat high = high_confidence s) /\
  (exists medium, count_confidence "medium" logged = Return medium /\
                  Z.of_nat medium = medium_confidence s).

(* ------------------------------------------------------------------ *)
(** ** [SpectrometerApp] and [SpectrometerAppWithDashboard]

    [time.time()] and the logger's clock reading are the arguments
    [timestamp] and [now]. *)

Section Apps.
Context {F : Type} {num : Numeric F}.
Variable odd_window_required : bool.
Variable savgol_even_values : list F -> Z -> Z -> list F.
Variable writable : string -> bool.
Variable savable : pyvalue F -> bool.

(** The dict [detect_biosignatures] returns. *)
Definition analysis_dict (b : biosignature) : pyvalue F :=
  PyDict [("chlorophyll", PyBool (chlorophyll b));
          ("carotenoids", PyBool (carotenoids b));
          ("organics", PyBool (organics b));
          ("confidence", PyStr (confidence b));
          ("interpretation", PyStr (interpretation b))]%string.

(** [array.tolist()]. *)
Definition tolist (a : list F) : pyvalue F := PyList (map PyFloat a).

Definition py_sample_id (sample_id : option string) : pyvalue F :=
  match sample_id with
  | None => PyNone
  | Some s => PyStr s
  end.

(** The calibration points of [load_default_calibration]. *)
Definition calibration_points : list (Z * F) :=
  [(0%Z, of_int 400); (640%Z, of_int 550); (1279%Z, of_int 700)].

Record SpectrometerApp : Type := {
  app_processor : @processor F;
  app_logger : option (@SpectroscopyLogger F)
}.

Definition load_default_calibration (self : SpectrometerApp)
  : result SpectrometerApp :=
  r <- wavelength_calibration (app_processor self) calibration_points ;;
  Ok {| app_processor := fst r; app_logger := app_logger self |}.

(** [SpectrometerApp.__init__(enable_realtime, enable_logging)]; [stamp]
    and [now] are the logger's two clock readings. *)
Definition app_init (enable_logging : bool) (stamp now : string)
  : result SpectrometerApp :=
  self <- load_default_calibration
            {| app_processor := init (400, 700)%Z; app_logger := None |} ;;
  Ok {| app_processor := app_processor self;
        app_logger :=
          if enable_logging
          then Some (logger_init "spectroscopy_logs" stamp now)
          else None |}.

(** [SpectrometerApp.analyze_sample(image_2d, sample_id)]. *)
Definition analyze_sample (self : SpectrometerApp) (fs : @files F)
    (timestamp : F) (now : string) (image_2d : @image F)
    (sample_id : option string)
  : (SpectrometerApp * @files F) * outcome (pyvalue F) :=
  let processed :=
    (* process spectrum *)
    spectrum_raw <~ extract_spectrum image_2d "average" ;;
    calibrated <~ lift (apply_calibration (app_processor self)
                          spectrum_raw) ;;
    let '(wavelengths, spectrum) := calibrated in
    spectrum_corrected <~ lift (baseline_correction spectrum "polynomial"
                                  default_degree) ;;
    spectrum_smooth <~ lift (smooth_spectrum odd_window_required
                               savgol_even_values spectrum_corrected
                               default_window_length) ;;
    (* find peaks *)
    found <~ find_peaks wavelengths spectrum_smooth default_prominence ;;
    let '(peak_wl, peak_int, _) := found in
    (* analyse for biosignatures *)
    let analysis := detect_biosignatures peak_wl peak_int in
    Return (PyDict
      [("timestamp", PyFloat timestamp);
       ("sample_id", py_sample_id sample_id);
       ("peaks_detected", PyInt (Z.of_nat (length peak_wl)));
       ("peak_wavelengths", tolist peak_wl);
       ("wavelengths", tolist wavelengths);
       ("spectrum", tolist spectrum_smooth);
       ("raw_image", PyArray image_2d);
       ("biosignature_analysis", analysis_dict analysis)]%string) in
  match processed with
  | Throw e => ((self, fs), Throw e)
  | Return results =>
      match app_logger self with
      | None => ((self, fs), Return results)
      | Some logger =>
          let '(logger', fs', r) :=
            log_measurement writable savable logger fs now results
              sample_id in
          (({| app_processor := app_processor self;
               app_logger := Some logger' |}, fs'),
           _ <~ r ;; Return results)
      end
  end.

End Apps.

(** [run_with_dashboard.py] has its own copies of the methods. *)
Module RunWithDashboard.
Section App.
Context {F : Type} {num : Numeric F}.
Variable odd_window_required : bool.
Variable savgol_even_values : list F -> Z -> Z -> list F.
Variable writable : string -> bool.
Variable savable : pyvalue F -> bool.

(** [SpectrometerAppWithDashboard]: the logger is always there. *)
Record SpectrometerAppWithDashboard : Type := {
  app_processor : @processor F;
  app_logger : @SpectroscopyLogger F
}.

Definition load_default_calibration (self : SpectrometerAppWithDashboard)
  : result SpectrometerAppWithDashboard :=
  let calibration_points : list (Z * F) :=
    [(0%Z, of_int 400); (640%Z, of_int 550); (1279%Z, of_int 700)] in
  r <- wavelength_calibration (app_processor self) calibration_points ;;
  Ok {| app_processor := fst r; app_logger := app_logger self |}.

Definition detect_biosignatures (peak_wavelengths peak_intensities : list F)
  : biosignature :=
  let has_chlorophyll :=
    existsb (fun p => flt (of_int 425) p && flt p (of_int 435))
            peak_wavelengths
    || existsb (fun p => flt (of_int 655) p && flt p (of_int 665))
               peak_wavelengths in
  let has_carotenoids :=
    existsb (fun p => flt (of_int 450) p && flt p (of_int 550))
            peak_wavelengths in
  let has_organics :=
    existsb (fun p => flt (of_int 400) p && flt p (of_int 450))
            peak_wavelengths in
  let indicators :=
    sum_bools [has_chlorophyll; has_carotenoids; has_organics] in
  let '(confidence, interpretation) :=
    (if (indicators =? 0)%Z then ("none", "No biosignatures detected")
     else if (indicators =? 1)%Z then ("low", "Weak biosignature detected")
     else if (indicators =? 2)%Z
          then ("medium", "Multiple biosignatures detected")
     else ("high", "Strong biosignature pattern detected"))%string in
  {| chlorophyll := has_chlorophyll;
     carotenoids := has_carotenoids;
     organics := has_organics;
     confidence := confidence;
     interpretation := interpretation |}.

(** [analyze_sample(image_2d, sample_id)]; [board] holds the globals of
    [web_dashboard]. *)
Definition analyze_sample (self : SpectrometerAppWithDashboard)
    (fs : @files F) (board : dashboard F)
    (timestamp : F) (now : string) (image_2d : @image F)
    (sample_id : option string)
  : (SpectrometerAppWithDashboard * @files F * dashboard F)
    * outcome (pyvalue F) :=
  let processed :=
    spectrum_raw <~ extract_spectrum image_2d "average" ;;
    calibrated <~ lift (apply_calibration (app_processor self)
                          spectrum_raw) ;;
    let '(wavelengths, spectrum) := calibrated in
    spectrum_corrected <~ lift (baseline_correction spectrum "polynomial"
                                  default_degree) ;;
    spectrum_smooth <~ lift (smooth_spectrum odd_window_required
                               savgol_even_values spectrum_corrected
                               default_window_length) ;;
    found <~ find_peaks wavelengths spectrum_smooth default_prominence ;;
    let '(peak_wl, peak_int, _) := found in
    let analysis := detect_biosignatures peak_wl peak_int in
    Return (PyDict
      [("timestamp", PyFloat timestamp);
       ("sample_id", py_sample_id sample_id);
       ("peaks_detected", PyInt (Z.of_nat (length peak_wl)));
       ("peak_wavelengths", tolist peak_wl);
       ("wavelengths", tolist wavelengths);
       ("spectrum", tolist spectrum_smooth);
       ("raw_image", PyArray image_2d);
       ("biosignature_analysis", analysis_dict analysis)]%string) in
  match processed with
  | Throw e => ((self, fs, board), Throw e)
  | Return results =>
      (* update all displays *)
      let '(logger', fs', logged) :=
        log_measurement writable savable (app_logger self) fs now results
          sample_id in
      let self' := {| app_processor := app_processor self;
                      app_logger := logger' |} in
      match logged with
      | Throw e => ((self', fs', board), Throw e)
      | Return _ =>
          let '(board', updated) := update_results board results in
          ((self', fs', board'), _ <~ updated ;; Return results)
      end
  end.

End App.
End RunWithDashboard.
(* ================================================================== *)
(** * Properties *)

Unset Implicit Arguments.
(** ** Order of binary64 values against the classifier's bounds *)

(** Both bounds of a pair below have the same binary exponent, so comparing
    a float with them comes down to comparing mantissas. *)
Lemma SFltb_lower_weaken (m1 m2 : positive) (e : Z) (p : spec_float) :
  (m1 <= m2)%positive ->
  SFltb (S754_finite false m2 e) p = true ->
  SFltb (S754_finite false m1 e) p = true.
Proof.
  intros Hm. unfold SFltb, SFcompare.
  destruct p as [s | s | | s m e']; try discriminate; try (destruct s; auto; fail).
  destruct s; [discriminate |].
  destruct (e ?= e')%Z; auto.
  change (PosDef.Pos.compare_cont Eq m2 m) with (m2 ?= m)%positive.
  change (PosDef.Pos.compare_cont Eq m1 m) with (m1 ?= m)%positive.
  destruct (m2 ?= m)%positive eqn:H2; intros Hlt; try discriminate Hlt.
  assert (H2' : (m2 < m)%positive) by exact H2.
  assert (H1 : (m1 < m)%positive) by lia.
  unfold Pos.lt in H1. now rewrite H1.
Qed.

Lemma SFltb_upper_weaken (m1 m2 : positive) (e : Z) (p : spec_float) :
  (m1 <= m2)%positive ->
  SFltb p (S754_finite false m1 e) = true ->
  SFltb p (S754_finite false m2 e) = true.
Proof.
  intros Hm. unfold SFltb, SFcompare.
  destruct p as [s | s | | s m e']; try discriminate; try (destruct s; auto; fail).
  destruct s; [auto |].
  destruct (e' ?= e)%Z; auto.
  change (PosDef.Pos.compare_cont Eq m m2) with (m ?= m2)%positive.
  change (PosDef.Pos.compare_cont Eq m m1) with (m ?= m1)%positive.
  destruct (m ?= m1)%positive eqn:H1; intros Hlt; try discriminate Hlt.
  assert (H1' : (m < m1)%positive) by exact H1.
  assert (H2 : (m < m2)%positive) by lia.
  unfold Pos.lt in H2. now rewrite H2.
Qed.

Lemma float_gt_425_gt_400 (p : float) :
  flt (of_int 425) p = true -> flt (of_int 400) p = true.
Proof.
  cbn [flt of_int float_numeric].
  rewrite !ltb_spec.
  change (Prim2SF (float_of_Z 425)) with (S754_finite false 7476679068876800 (-44)).
  change (Prim2SF (float_of_Z 400)) with (S754_finite false 7036874417766400 (-44)).
  apply SFltb_lower_weaken. lia.
Qed.

Lemma float_lt_435_lt_450 (p : float) :
  flt p (of_int 435) = true -> flt p (of_int 450) = true.
Proof.
  cbn [flt of_int float_numeric].
  rewrite !ltb_spec.
  change (Prim2SF (float_of_Z 435)) with (S754_finite false 7652600929320960 (-44)).
  change (Prim2SF (float_of_Z 450)) with (S754_finite false 7916483719987200 (-44)).
  apply SFltb_upper_weaken. lia.
Qed.

(** ** A binary64 value minus itself, divided by itself

    [v - v] is [+0] for a finite [v] and NaN otherwise; either way the
    quotient of two such differences is NaN. *)
Lemma SFsub_diag (s : spec_float) :
  SF64sub s s = S754_zero false \/ SF64sub s s = S754_nan.
Proof.
  unfold SF64sub. destruct s as [[|] | [|] | | sx m e]; cbn; auto.
  rewrite Z.sub_diag. cbn. auto.
Qed.

Lemma float_flat_quotient (v : float) :
  ((v - v) / (v - v))%float = nan.
Proof.
  apply Prim2SF_inj. rewrite div_spec, sub_spec.
  destruct (SFsub_diag (Prim2SF v)) as [-> | ->]; reflexivity.
Qed.

(** ** NaN in binary64

    Rocq's binary64 has one NaN; it is the only value that is not equal
    to itself, and it is neither below nor above nor equal to anything. *)
Lemma SFeqb_refl_nan (s : spec_float) : SFeqb s s = false -> s = S754_nan.
Proof.
  unfold SFeqb, SFcompare.
  destruct s as [[|] | [|] | | [|] m e]; try discriminate; try reflexivity.
  - rewrite Z.compare_refl.
    change (PosDef.Pos.compare_cont Eq m m) with (m ?= m)%positive.
    rewrite Pos.compare_refl. discriminate.
  - rewrite Z.compare_refl.
    change (PosDef.Pos.compare_cont Eq m m) with (m ?= m)%positive.
    rewrite Pos.compare_refl. discriminate.
Qed.

Lemma float_isnan_nan (v : float) : isnan v = true -> v = nan.
Proof.
  unfold isnan. cbn [feq float_numeric]. rewrite FloatAxioms.eqb_spec.
  intros H. apply negb_true_iff, SFeqb_refl_nan in H.
  apply Prim2SF_inj. rewrite H. reflexivity.
Qed.

Lemma float_nan_unordered (a v : float) :
  isnan v = true -> fle a v = false /\ fle v a = false.
Proof.
  intros H. apply float_isnan_nan in H. subst v.
  unfold fle. cbn [flt feq float_numeric].
  rewrite !FloatAxioms.ltb_spec, !FloatAxioms.eqb_spec.
  change (Prim2SF nan) with S754_nan.
  unfold SFltb, SFeqb, SFcompare.
  destruct (Prim2SF a) as [[|] | [|] | | [|] m e]; split; reflexivity.
Qed.
(** ** Classifier *)

Section ClassifierFacts.
Context {F : Type} {num : Numeric F}.

Lemma detect_chlorophyll (l i : list F) :
  chlorophyll (detect_biosignatures l i) = has_chlorophyll l.
Proof.
  unfold detect_biosignatures.
  repeat match goal with |- context [if ?c then _ else _] => destruct c end;
    reflexivity.
Qed.

Lemma detect_carotenoids (l i : list F) :
  carotenoids (detect_biosignatures l i) = has_carotenoids l.
Proof.
  unfold detect_biosignatures.
  repeat match goal with |- context [if ?c then _ else _] => destruct c end;
    reflexivity.
Qed.

Lemma detect_organics (l i : list F) :
  organics (detect_biosignatures l i) = has_organics l.
Proof.
  unfold detect_biosignatures.
  repeat match goal with |- context [if ?c then _ else _] => destruct c end;
    reflexivity.
Qed.

Lemma indicators_count (l : list F) :
  indicators l =
  (Z_of_bool (has_chlorophyll l) + Z_of_bool (has_carotenoids l)
   + Z_of_bool (has_organics l))%Z.
Proof. unfold indicators, sum_bools. cbn [fold_left]. reflexivity. Qed.

Lemma detect_verdict (l i : list F) :
  (confidence (detect_biosignatures l i),
   interpretation (detect_biosignatures l i)) =
  (match indicators l with
   | 0%Z => ("none", "No biosignatures detected")
   | 1%Z => ("low", "Weak biosignature detected")
   | 2%Z => ("medium", "Multiple biosignatures detected")
   | _ => ("high", "Strong biosignature pattern detected")
   end)%string.
Proof.
  unfold detect_biosignatures.
  destruct (indicators l) as [| [p | p |] | p]; try reflexivity;
    destruct p; reflexivity.
Qed.

Lemma existsb_skip (f : F -> bool) (b : F) (pre post : list F) :
  f b = false -> existsb f (pre ++ b :: post) = existsb f (pre ++ post).
Proof.
  intros Hb. rewrite !existsb_app. cbn [existsb]. now rewrite Hb.
Qed.

End ClassifierFacts.

Ltac flags_norm :=
  rewrite ?detect_chlorophyll, ?detect_carotenoids, ?detect_organics in *.

(** C6.  Every window bound is exclusive: inserting a peak that sits exactly
    on a bound of a flag's window anywhere in a peak list leaves that flag
    unchanged, for each of the bounds 425, 435, 655, 665 (chlorophyll),
    450, 550 (carotenoids) and 400, 450 (organics).  A single peak at 425.0
    does not set chlorophyll; a single peak at 425.0001 (the nearest
    binary64 value) does. *)
Theorem C6_window_bounds_exclusive :
  (forall pre post ints : list float,
     let flags := fun l => detect_biosignatures l ints in
     chlorophyll (flags (pre ++ 425%float :: post)) = chlorophyll (flags (pre ++ post)) /\
     chlorophyll (flags (pre ++ 435%float :: post)) = chlorophyll (flags (pre ++ post)) /\
     chlorophyll (flags (pre ++ 655%float :: post)) = chlorophyll (flags (pre ++ post)) /\
     chlorophyll (flags (pre ++ 665%float :: post)) = chlorophyll (flags (pre ++ post)) /\
     carotenoids (flags (pre ++ 450%float :: post)) = carotenoids (flags (pre ++ post)) /\
     carotenoids (flags (pre ++ 550%float :: post)) = carotenoids (flags (pre ++ post)) /\
     organics (flags (pre ++ 400%float :: post)) = organics (flags (pre ++ post)) /\
     organics (flags (pre ++ 450%float :: post)) = organics (flags (pre ++ post))) /\
  chlorophyll (detect_biosignatures [425%float] []) = false /\
  chlorophyll (detect_biosignatures [0x1.a900068db8bacp+8%float] []) = true.
Proof.
  split; [| split; vm_compute; reflexivity].
  intros pre post ints flags. subst flags. cbv beta.
  flags_norm.
  unfold has_chlorophyll, has_carotenoids, has_organics.
  repeat split;
    repeat (rewrite existsb_skip by (vm_compute; reflexivity)); reflexivity.
Qed.

(** C7, scenario B as the specification states it: the peak at 430 nm lies
    in the organics window (400, 450) as well, so the claimed outcome
    (organics false, confidence "medium") is not what the classifier
    returns. *)
Lemma C7_scenario_B_not_medium :
  let r := detect_biosignatures [430%float; 500%float] [] in
  ~ (chlorophyll r = true /\ carotenoids r = true /\ organics r = false /\
     confidence r = "medium"%string /\
     interpretation r = "Multiple biosignatures detected"%string).
Proof.
  cbv zeta. intros (_ & _ & H & _). vm_compute in H. discriminate H.
Qed.

(** C7 (amended).  For every peak list the number of indicators is the
    number of true flags among chlorophyll, carotenoids and organics, it
    lies between 0 and 3, and confidence and interpretation are read from
    the fixed table 0: none, 1: low, 2: medium, 3: high.  Peaks [430, 500]
    set all three flags (430 is in the organics window too) and give "high"
    with "Strong biosignature pattern detected"; the empty list sets no flag
    and gives "none". *)
Theorem C7_confidence_table :
  (forall peaks ints : list float,
     let r := detect_biosignatures peaks ints in
     let n := (Z_of_bool (chlorophyll r) + Z_of_bool (carotenoids r)
               + Z_of_bool (organics r))%Z in
     indicators peaks = n /\ (0 <= n <= 3)%Z /\
     (confidence r, interpretation r) =
     (match n with
      | 0%Z => ("none", "No biosignatures detected")
      | 1%Z => ("low", "Weak biosignature detected")
      | 2%Z => ("medium", "Multiple biosignatures detected")
      | 3%Z => ("high", "Strong biosignature pattern detected")
      | _ => (EmptyString, EmptyString)
      end)%string) /\
  detect_biosignatures [430%float; 500%float] [] =
    {| chlorophyll := true; carotenoids := true; organics := true;
       confidence := "high";
       interpretation := "Strong biosignature pattern detected" |} /\
  detect_biosignatures (F := float) [] [] =
    {| chlorophyll := false; carotenoids := false; organics := false;
       confidence := "none";
       interpretation := "No biosignatures detected" |}.
Proof.
  split; [| split; vm_compute; reflexivity].
  intros peaks ints r n. subst r n.
  rewrite detect_verdict. flags_norm.
  rewrite indicators_count.
  destruct (has_chlorophyll peaks), (has_carotenoids peaks),
    (has_organics peaks); cbn; repeat split; lia.
Qed.

(** C10.  The chlorophyll blue window (425, 435) lies inside the organics
    window (400, 450): a peak list containing a peak strictly between 425
    and 435 nm sets both flags, so at least two indicators are counted and
    the confidence is "medium" or "high", never "low". *)
Theorem C10_blue_window_inside_organics :
  forall (peaks ints : list float) (p : float),
    In p peaks ->
    (425 <? p)%float = true -> (p <? 435)%float = true ->
    let r := detect_biosignatures peaks ints in
    chlorophyll r = true /\ organics r = true /\
    (2 <= indicators peaks)%Z /\
    confidence r <> "low"%string /\ confidence r <> "none"%string /\
    (confidence r = "medium"%string \/ confidence r = "high"%string).
Proof.
  intros peaks ints p Hin Hlo Hhi r. subst r.
  assert (Hc : has_chlorophyll peaks = true).
  { unfold has_chlorophyll. apply orb_true_iff. left.
    apply existsb_exists. exists p. split; [exact Hin |].
    unfold between. apply andb_true_iff. split; [exact Hlo | exact Hhi]. }
  assert (Ho : has_organics peaks = true).
  { unfold has_organics. apply existsb_exists. exists p.
    split; [exact Hin |]. unfold between. apply andb_true_iff. split.
    - apply float_gt_425_gt_400. exact Hlo.
    - apply float_lt_435_lt_450. exact Hhi. }
  pose proof (detect_verdict peaks ints) as Hv.
  flags_norm. rewrite indicators_count in *.
  rewrite Hc, Ho in *.
  destruct (has_carotenoids peaks); cbn in Hv |- *;
    injection Hv as Hconf _; rewrite Hconf;
    repeat split; try lia; try discriminate; auto.
Qed.

Lemma C10_blue_window_inside_organics_witness :
  let r := detect_biosignatures [430%float] [] in
  chlorophyll r = true /\ organics r = true /\
  (2 <= indicators [430%float])%Z /\
  confidence r <> "low"%string /\ confidence r <> "none"%string /\
  (confidence r = "medium"%string \/ confidence r = "high"%string).
Proof.
  apply (C10_blue_window_inside_organics [430%float] [] 430%float).
  - simpl. left. reflexivity.
  - vm_compute. reflexivity.
  - vm_compute. reflexivity.
Defined.

(** ** Lists: index sorting and searching *)

Lemma map_nth_seq {A : Type} (d : A) (l : list A) :
  map (fun i => nth i l d) (seq 0 (length l)) = l.
Proof.
  induction l as [| a l IH]; [reflexivity |].
  cbn [length seq map nth]. f_equal.
  rewrite <- seq_shift, map_map. exact IH.
Qed.

Lemma insert_by_perm (key : nat -> Z) (i : nat) (l : list nat) :
  Permutation (insert_by key i l) (i :: l).
Proof.
  induction l as [| j l IH]; cbn [insert_by]; [reflexivity |].
  destruct (key i <=? key j)%Z; [reflexivity |].
  rewrite IH. apply perm_swap.
Qed.

Lemma sort_indices_perm (key : nat -> Z) (l : list nat) :
  Permutation (fold_right (insert_by key) [] l) l.
Proof.
  induction l as [| i l IH]; cbn [fold_right]; [reflexivity |].
  rewrite insert_by_perm. now constructor.
Qed.

Lemma argsort_perm (x : list Z) :
  Permutation (argsort x) (seq 0 (length x)).
Proof. apply sort_indices_perm. Qed.

Lemma argsort_length (x : list Z) : length (argsort x) = length x.
Proof.
  rewrite (Permutation_length (argsort_perm x)). apply length_seq.
Qed.

(** Index lists ordered by the value they point to. *)
Definition key_le (key : nat -> Z) (i j : nat) : Prop := (key i <= key j)%Z.

Lemma insert_by_sorted (key : nat -> Z) (i : nat) (l : list nat) :
  Sorted (key_le key) l -> Sorted (key_le key) (insert_by key i l).
Proof.
  induction l as [| j l IH]; intros Hs; cbn [insert_by].
  - repeat constructor.
  - destruct (key i <=? key j)%Z eqn:Hij.
    + constructor; [exact Hs |]. constructor. unfold key_le. lia.
    + inversion Hs as [| ? ? Hs' Hhd]; subst.
      constructor; [apply IH; exact Hs' |].
      destruct l as [| k l]; cbn [insert_by].
      * constructor. unfold key_le. lia.
      * destruct (key i <=? key k)%Z; constructor; unfold key_le.
        -- lia.
        -- inversion Hhd; subst. assumption.
Qed.

Lemma sort_indices_sorted (key : nat -> Z) (l : list nat) :
  Sorted (key_le key) (fold_right (insert_by key) [] l).
Proof.
  induction l as [| i l IH]; cbn [fold_right]; [constructor |].
  apply insert_by_sorted. exact IH.
Qed.

Lemma Sorted_map_key (key : nat -> Z) (l : list nat) :
  Sorted (key_le key) l -> Sorted Z.le (map key l).
Proof.
  induction 1 as [| i l Hs IH Hhd]; cbn [map]; constructor; [exact IH |].
  destruct Hhd; cbn [map]; constructor. assumption.
Qed.

Lemma take_argsort_sorted (x : list Z) :
  Sorted Z.le (take 0%Z x (argsort x)).
Proof.
  unfold take, argsort.
  apply (Sorted_map_key (fun i => nth i x 0%Z)), sort_indices_sorted.
Qed.

Lemma take_argsort_perm (x : list Z) :
  Permutation (take 0%Z x (argsort x)) x.
Proof.
  unfold take.
  eapply perm_trans; [apply Permutation_map, argsort_perm |].
  rewrite map_nth_seq. reflexivity.
Qed.

(** An ascending array without a repeated value is strictly increasing. *)
Lemma sorted_distinct_increasing (x : list Z) :
  Sorted Z.le x -> NoDup x -> strictly_increasing x = true.
Proof.
  induction x as [| a x IH]; intros Hs Hd; [reflexivity |].
  destruct x as [| b x]; [reflexivity |].
  cbn [strictly_increasing].
  apply Sorted_inv in Hs as [Hs Hhd]. apply HdRel_inv in Hhd.
  pose proof (NoDup_cons_iff a (b :: x)) as Hcons.
  apply Hcons in Hd as [Hnotin Hd].
  apply andb_true_iff. split; [| apply IH; assumption].
  apply Z.ltb_lt.
  assert (a <> b) by (intros ->; apply Hnotin; now left).
  lia.
Qed.

(** An array that is already in ascending order is left in place. *)
Lemma sort_indices_id (key : nat -> Z) (k s : nat) :
  (forall j, s <= j -> S j < s + k -> (key j <= key (S j))%Z)%nat ->
  fold_right (insert_by key) [] (seq s k) = seq s k.
Proof.
  revert s. induction k as [| k IH]; intros s Hmono; [reflexivity |].
  cbn [seq fold_right]. rewrite IH by (intros j ? ?; apply Hmono; lia).
  destruct k as [| k]; [reflexivity |].
  cbn [seq insert_by].
  assert (H : (key s <= key (S s))%Z) by (apply Hmono; lia).
  apply Z.leb_le in H. now rewrite H.
Qed.

Lemma strictly_increasing_nth (x : list Z) :
  strictly_increasing x = true ->
  forall j, (S j < length x)%nat -> (nth j x 0 < nth (S j) x 0)%Z.
Proof.
  induction x as [| a x IH]; intros Hs j Hj; [cbn in Hj; lia |].
  destruct x as [| b x]; [cbn in Hj; lia |].
  cbn [strictly_increasing] in Hs. apply andb_true_iff in Hs as [Hab Hs].
  destruct j as [| j].
  - cbn [nth]. apply Z.ltb_lt. exact Hab.
  - change (nth (S j) (a :: b :: x) 0%Z) with (nth j (b :: x) 0%Z).
    change (nth (S (S j)) (a :: b :: x) 0%Z) with (nth (S j) (b :: x) 0%Z).
    apply IH; [exact Hs | cbn [length] in *; lia].
Qed.

Lemma increasing_nth_lt (x : list Z) :
  strictly_increasing x = true ->
  forall i j, (i < j)%nat -> (j < length x)%nat -> (nth i x 0 < nth j x 0)%Z.
Proof.
  intros Hs i j Hij. induction Hij as [| j Hij IH]; intros Hj.
  - apply strictly_increasing_nth; assumption.
  - pose proof (strictly_increasing_nth x Hs j Hj). specialize (IH ltac:(lia)). lia.
Qed.

Lemma argsort_increasing (x : list Z) :
  strictly_increasing x = true -> argsort x = seq 0 (length x).
Proof.
  intros Hs. unfold argsort. apply sort_indices_id.
  intros j _ Hj. apply Z.lt_le_incl, strictly_increasing_nth; [exact Hs | lia].
Qed.

(** [searchsorted] on an ascending array: everything before the returned
    position is smaller than [v], the entry at it (if any) is not. *)
Lemma searchsorted_range (x : list Z) (v : Z) :
  (0 <= searchsorted x v <= Z.of_nat (length x))%Z.
Proof.
  induction x as [| a x IH]; cbn [searchsorted length]; [lia |].
  destruct (a <? v)%Z; lia.
Qed.

Lemma searchsorted_below (x : list Z) (v : Z) (j : nat) :
  (Z.of_nat j < searchsorted x v)%Z -> (nth j x 0 < v)%Z.
Proof.
  revert j. induction x as [| a x IH]; intros j Hj; cbn [searchsorted] in Hj.
  - lia.
  - destruct (a <? v)%Z eqn:Hav; [| lia].
    destruct j as [| j]; cbn [nth]; [apply Z.ltb_lt; exact Hav |].
    apply IH. lia.
Qed.

Lemma searchsorted_at (x : list Z) (v : Z) :
  strictly_increasing x = true ->
  forall j, (searchsorted x v <= Z.of_nat j)%Z -> (j < length x)%nat ->
            (v <= nth j x 0)%Z.
Proof.
  intros Hs j Hj Hlen.
  pose proof (searchsorted_range x v) as Hr.
  set (s := Z.to_nat (searchsorted x v)).
  assert (Hsx : (v <= nth s x 0)%Z).
  { assert (Hsl : (s < length x)%nat) by lia.
    clear Hj Hlen j Hs. subst s. induction x as [| a x IH]; cbn [length] in *; [lia |].
    cbn [searchsorted] in *. destruct (a <? v)%Z eqn:Hav.
    - pose proof (searchsorted_range x v).
      replace (Z.to_nat (1 + searchsorted x v)) with (S (Z.to_nat (searchsorted x v))) in * by lia.
      cbn [nth]. apply IH; lia.
    - cbn. apply Z.ltb_ge. exact Hav. }
  destruct (Nat.eq_dec s j) as [-> | Hne]; [exact Hsx |].
  pose proof (increasing_nth_lt x Hs s j ltac:(lia) Hlen). lia.
Qed.

(** ** Calibration *)

Section CalibrationFacts.
Context {F : Type} {num : Numeric F}.

Lemma nth_map_fst (anchors : list (Z * F)) (i : nat) :
  nth i (map fst anchors) 0%Z = fst (nth i anchors (0%Z, zero)).
Proof. exact (map_nth fst anchors (0%Z, zero) i). Qed.

Lemma nth_map_snd (anchors : list (Z * F)) (i : nat) :
  nth i (map snd anchors) zero = snd (nth i anchors (0%Z, zero)).
Proof. exact (map_nth snd anchors (0%Z, zero) i). Qed.

Lemma wavelength_calibration_nonempty (self : processor)
    (a : Z * F) (anchors : list (Z * F)) :
  wavelength_calibration self (a :: anchors) =
  Ok ({| wavelength_range := wavelength_range self;
         calibration := Some (built_map (a :: anchors)) |},
      built_map (a :: anchors)).
Proof.
  unfold wavelength_calibration, scipy_interp1d.
  rewrite !length_map, Nat.eqb_refl. cbn [negb].
  unfold take at 1 2. rewrite !length_map, argsort_length, length_map.
  cbn [length Nat.eqb Nat.ltb Nat.leb bind]. reflexivity.
Qed.

Lemma built_map_perm (anchors : list (Z * F)) :
  Permutation
    (combine (interp_x (built_map anchors)) (interp_y (built_map anchors)))
    anchors.
Proof.
  unfold built_map, take. cbn [interp_x interp_y].
  set (ind := argsort (map fst anchors)).
  assert (Hc : combine (map (fun i => nth i (map fst anchors) 0%Z) ind)
                       (map (fun i => nth i (map snd anchors) zero) ind)
               = map (fun i => nth i anchors (0%Z, zero)) ind).
  { induction ind as [| i ind IH]; [reflexivity |].
    cbn [map combine]. rewrite IH. f_equal.
    rewrite nth_map_fst, nth_map_snd.
    now destruct (nth i anchors (0%Z, zero)). }
  rewrite Hc. subst ind.
  eapply perm_trans; [apply Permutation_map, argsort_perm |].
  rewrite length_map, map_nth_seq. reflexivity.
Qed.

Lemma built_map_increasing (anchors : list (Z * F)) :
  strictly_increasing (map fst anchors) = true ->
  built_map anchors =
  {| interp_x := map fst anchors; interp_y := map snd anchors |}.
Proof.
  intros Hs. unfold built_map, take.
  rewrite (argsort_increasing _ Hs). rewrite map_nth_seq.
  replace (length (map fst anchors)) with (length (map snd anchors))
    by now rewrite !length_map.
  now rewrite map_nth_seq.
Qed.

Lemma combine_fst_snd (anchors : list (Z * F)) :
  combine (map fst anchors) (map snd anchors) = anchors.
Proof.
  induction anchors as [| [x y] l IH]; [reflexivity |].
  cbn [map combine fst snd]. now rewrite IH.
Qed.

Lemma nth_interp1d_call (cal : @interp1d F) (n p : nat) (d : F) :
  (p < n)%nat ->
  nth p (interp1d_call cal (arange n)) d = call_linear cal (Z.of_nat p).
Proof.
  intros Hp. unfold interp1d_call, arange. rewrite map_map.
  rewrite (nth_indep _ d (call_linear cal (Z.of_nat 0)))
    by (rewrite length_map, length_seq; exact Hp).
  rewrite (map_nth (fun i => call_linear cal (Z.of_nat i))).
  now rewrite seq_nth.
Qed.

Lemma apply_calibration_built (self : processor) (cal : @interp1d F)
    (spectrum : list F) :
  calibration self = Some cal ->
  apply_calibration self spectrum =
  Ok (interp1d_call cal (arange (length spectrum)), spectrum).
Proof. intros H. unfold apply_calibration. now rewrite H. Qed.

(** The segment [call_linear] picks on strictly increasing anchors. *)
Lemma call_linear_segment (anchors : list (Z * F)) (p : Z) :
  (2 <= length anchors)%nat ->
  strictly_increasing (map fst anchors) = true ->
  exists i, (S i < length anchors)%nat /\
    call_linear {| interp_x := map fst anchors;
                   interp_y := map snd anchors |} p =
    line_through (fst (nth i anchors (0%Z, zero)))
                 (snd (nth i anchors (0%Z, zero)))
                 (fst (nth (S i) anchors (0%Z, zero)))
                 (snd (nth (S i) anchors (0%Z, zero))) p /\
    (i = 0%nat \/ (fst (nth i anchors (0%Z, zero)) < p)%Z) /\
    (S (S i) = length anchors
     \/ (p <= fst (nth (S i) anchors (0%Z, zero)))%Z).
Proof.
  intros Hn Hs.
  set (xs := map fst anchors) in *.
  assert (Hlen : length xs = length anchors) by apply length_map.
  pose proof (searchsorted_range xs p) as Hr.
  set (idx := clip (searchsorted xs p) 1 (Z.of_nat (length xs) - 1)).
  assert (Hidx : (1 <= idx <= Z.of_nat (length anchors) - 1)%Z)
    by (subst idx; unfold clip; lia).
  exists (Z.to_nat (idx - 1)).
  assert (Hfst : forall j, fst (nth j anchors (0%Z, zero)) = nth j xs 0%Z)
    by (intros j; symmetry; apply nth_map_fst).
  rewrite !Hfst, <- !nth_map_snd.
  replace (S (Z.to_nat (idx - 1))) with (Z.to_nat idx) by lia.
  split; [lia |]. split.
  - unfold call_linear, line_through. cbn [interp_x interp_y].
    fold xs. fold idx. unfold py_index.
    destruct (idx - 1 <? 0)%Z eqn:H1; [apply Z.ltb_lt in H1; lia |].
    destruct (idx <? 0)%Z eqn:H2; [apply Z.ltb_lt in H2; lia |].
    reflexivity.
  - split.
    + destruct (Z.eq_dec idx 1) as [-> | Hne]; [left; reflexivity | right].
      apply searchsorted_below. subst idx. unfold clip in *. lia.
    + destruct (Z.eq_dec idx (Z.of_nat (length anchors) - 1)) as [He | Hne];
        [left; lia | right].
      apply searchsorted_at; [exact Hs | | lia].
      subst idx. unfold clip in *. lia.
Qed.

End CalibrationFacts.


(** ** The interpolant passes through the anchors (exact arithmetic) *)

Lemma Qc_of_int_nonzero (d : Z) : d <> 0%Z -> of_int (F := Qc) d <> 0%Qc.
Proof.
  intros Hd H. apply Hd.
  apply (f_equal this) in H. cbn [of_int Qc_numeric Q2Qc this] in H.
  assert (E : (inject_Z d == 0)%Q)
    by (rewrite <- (Qred_correct (inject_Z d)), H; reflexivity).
  unfold Qeq in E. cbn in E. lia.
Qed.

Lemma line_through_right (x0 x1 : Z) (y0 y1 : Qc) :
  x0 <> x1 -> line_through x0 y0 x1 y1 x1 = y1.
Proof.
  intros Hx. unfold line_through. cbn [fadd fsub fmul fdiv Qc_numeric].
  pose proof (Qc_of_int_nonzero (x1 - x0) ltac:(lia)) as Hnz.
  generalize dependent (of_int (F := Qc) (x1 - x0)). intros d Hd.
  field. exact Hd.
Qed.

Lemma line_through_left (x0 x1 : Z) (y0 y1 : Qc) :
  line_through x0 y0 x1 y1 x0 = y0.
Proof.
  unfold line_through. rewrite Z.sub_diag.
  cbn [fadd fsub fmul fdiv Qc_numeric].
  change (of_int (F := Qc) 0) with 0%Qc.
  generalize (of_int (F := Qc) (x1 - x0)). intros d.
  unfold Qcdiv. ring.
Qed.

Lemma increasing_nth_index (x : list Z) (i j : nat) :
  strictly_increasing x = true ->
  (i < length x)%nat -> (j < length x)%nat ->
  (nth i x 0 < nth j x 0)%Z -> (i < j)%nat.
Proof.
  intros Hs Hi Hj Hlt.
  destruct (Nat.lt_trichotomy i j) as [H | [-> | H]]; [exact H | lia |].
  pose proof (increasing_nth_lt x Hs j i H Hi). lia.
Qed.

Lemma call_linear_at_anchor (anchors : list (Z * Qc)) (k : nat) :
  (2 <= length anchors)%nat ->
  strictly_increasing (map fst anchors) = true ->
  (k < length anchors)%nat ->
  call_linear {| interp_x := map fst anchors; interp_y := map snd anchors |}
              (fst (nth k anchors (0%Z, zero)))
  = snd (nth k anchors (0%Z, zero)).
Proof.
  intros Hn Hs Hk.
  set (xs := map fst anchors) in *.
  assert (Hlen : length xs = length anchors) by apply length_map.
  assert (Hfst : forall j, fst (nth j anchors (0%Z, zero)) = nth j xs 0%Z)
    by (intros j; symmetry; apply nth_map_fst).
  destruct (call_linear_segment anchors (fst (nth k anchors (0%Z, zero)))
              Hn Hs) as (i & Hi & Hval & Hleft & Hright).
  fold xs in Hval. rewrite Hval. clear Hval.
  rewrite !Hfst in *.
  assert (Hstep : (nth i xs 0 < nth (S i) xs 0)%Z)
    by (apply strictly_increasing_nth; [exact Hs | lia]).
  destruct (Nat.eq_dec k (S i)) as [-> | Hne1].
  - apply line_through_right. lia.
  - destruct (Nat.eq_dec k i) as [-> | Hne2].
    + apply line_through_left.
    + exfalso.
      destruct Hleft as [-> | Hleft].
      * (* first segment: the pixel is right of anchor 1 *)
        destruct Hright as [Hlast | Hright]; [lia |].
        assert (0 < k)%nat by lia.
        pose proof (increasing_nth_lt xs Hs 1 k ltac:(lia) ltac:(lia)).
        lia.
      * pose proof (increasing_nth_index xs i k Hs ltac:(lia) ltac:(lia)
                      Hleft).
        destruct Hright as [Hlast | Hright]; [lia |].
        pose proof (increasing_nth_lt xs Hs (S i) k ltac:(lia) ltac:(lia)).
        lia.
Qed.

(** ** Order and equality tests in exact arithmetic *)

Ltac qc_ops :=
  cbn [fadd fsub fmul fdiv feq flt of_int Qc_numeric] in *;
  change (@zero Qc Qc_numeric) with 0%Qc in *;
  change (@one Qc Qc_numeric) with 1%Qc in *.

Lemma Qc_ltb_lt (a b : Qc) : Qc_ltb a b = true <-> (a < b)%Qc.
Proof.
  unfold Qc_ltb. rewrite Qclt_alt.
  destruct (a ?= b)%Qc; split; intros H; try discriminate; reflexivity.
Qed.

Lemma Qc_ltb_ge (a b : Qc) : Qc_ltb a b = false <-> (b <= a)%Qc.
Proof.
  split; intros H.
  - apply Qcnot_lt_le. intros Hlt. apply Qc_ltb_lt in Hlt. congruence.
  - apply not_true_is_false. intros Hlt. apply Qc_ltb_lt in Hlt.
    now apply Qcle_not_lt in H.
Qed.

Lemma Qc_eq_bool_refl (a : Qc) : Qc_eq_bool a a = true.
Proof. unfold Qc_eq_bool. now destruct (Qc_eq_dec a a). Qed.

Lemma Qc_eq_bool_eq (a b : Qc) : Qc_eq_bool a b = true <-> a = b.
Proof.
  split; [apply Qc_eq_bool_correct | intros ->; apply Qc_eq_bool_refl].
Qed.

(** C1, as the specification states it, fails: a decreasing anchor list, a
    list with a duplicate pixel and a single anchor are each accepted and
    produce a map. *)
Lemma C1_invalid_anchors_accepted :
  let build := wavelength_calibration (F := float) (init (400, 700)%Z) in
  (strictly_increasing [640; 0]%Z = false /\
   build [(640%Z, 550%float); (0%Z, 400%float)] =
     Ok ({| wavelength_range := (400, 700)%Z;
            calibration := Some {| interp_x := [0; 640]%Z;
                                   interp_y := [400; 550]%float |} |},
         {| interp_x := [0; 640]%Z; interp_y := [400; 550]%float |})) /\
  (strictly_increasing [0; 0]%Z = false /\
   is_ok (build [(0%Z, 550%float); (0%Z, 400%float)]) = true) /\
  ((length [(5%Z, 550%float)] < 2)%nat /\
   is_ok (build [(5%Z, 550%float)]) = true).
Proof.
  cbv zeta. repeat split; try (vm_compute; reflexivity); cbn; lia.
Qed.

(** C1 (amended).  Building a calibration map has no check of its own on
    the anchors; it sorts them.  The empty list raises [ValueError] and
    stores nothing.  Every list of at least two anchors with pairwise
    distinct pixel values, in whatever order they are given (decreasing
    included), produces a map that is stored in the processor and returned;
    the map holds exactly the given anchors (a permutation of them) in
    strictly increasing pixel order, and a list that is already strictly
    increasing is stored as given.  A single anchor and a repeated pixel
    value are left out of the statement. *)
Theorem C1_build_sorts_distinct_anchors :
  forall (F : Type) (num : Numeric F) (self : processor),
    wavelength_calibration self [] =
    Raise (ValueError
      "cannot reshape array of size 0 into shape (0,newaxis)") /\
    forall anchors : list (Z * F),
      (2 <= length anchors)%nat ->
      NoDup (map fst anchors) ->
      exists cal,
        wavelength_calibration self anchors =
        Ok ({| wavelength_range := wavelength_range self;
               calibration := Some cal |}, cal) /\
        Permutation (combine (interp_x cal) (interp_y cal)) anchors /\
        strictly_increasing (interp_x cal) = true /\
        (strictly_increasing (map fst anchors) = true ->
         combine (interp_x cal) (interp_y cal) = anchors).
Proof.
  intros F num self. split; [reflexivity |].
  intros [| a anchors] Hn Hd; [cbn in Hn; lia |].
  exists (built_map (a :: anchors)).
  split; [apply wavelength_calibration_nonempty |].
  split; [apply built_map_perm |].
  split.
  - unfold built_map. cbn [interp_x].
    apply sorted_distinct_increasing; [apply take_argsort_sorted |].
    eapply Permutation_NoDup; [| exact Hd].
    symmetry. apply take_argsort_perm.
  - intros Hs. rewrite (built_map_increasing _ Hs). apply combine_fst_snd.
Qed.

Lemma C1_build_sorts_distinct_anchors_witness :
  exists cal,
    wavelength_calibration (init (400, 700)%Z)
      [(640%Z, 550%float); (0%Z, 400%float)] =
    Ok ({| wavelength_range := (400, 700)%Z; calibration := Some cal |},
        cal) /\
    Permutation (combine (interp_x cal) (interp_y cal))
      [(640%Z, 550%float); (0%Z, 400%float)] /\
    strictly_increasing (interp_x cal) = true /\
    (strictly_increasing [640; 0]%Z = true ->
     combine (interp_x cal) (interp_y cal) =
     [(640%Z, 550%float); (0%Z, 400%float)]).
Proof.
  apply (proj2 (C1_build_sorts_distinct_anchors float float_numeric
                  (init (400, 700)%Z))
           [(640%Z, 550%float); (0%Z, 400%float)]).
  - cbn [length]. lia.
  - cbn [map fst]. constructor.
    + intros [H | []]. discriminate H.
    + constructor; [intros [] | constructor].
Defined.

(** C8.  A map built from at least two anchors with strictly increasing
    pixels can be applied to every spectrum: [apply_calibration] returns one
    wavelength per pixel, and the wavelength at pixel [p] is the value at
    [p] of the line through two consecutive anchors [i], [i+1], where the
    segment contains [p] (anchor [i] lies left of [p] unless it is the first
    anchor, and anchor [i+1] lies at or right of [p] unless it is the last):
    interpolation inside the anchor range, extrapolation of the end segment
    outside.  With anchors [(0,400),(640,550),(1279,700)] and a spectrum of
    length 1280, binary64 arithmetic gives exactly 400.0 at pixel 0, 550.0
    at pixel 640 and 700.0 at pixel 1279.  In exact arithmetic the
    interpolant passes through every anchor whose pixel lies on the
    spectrum. *)
Theorem C8_apply_defined_piecewise_linear :
  (forall (F : Type) (num : Numeric F) (self0 : processor)
          (anchors : list (Z * F)),
     (2 <= length anchors)%nat ->
     strictly_increasing (map fst anchors) = true ->
     exists self cal,
       wavelength_calibration self0 anchors = Ok (self, cal) /\
       calibration self = Some cal /\
       forall spectrum : list F,
       exists wavelengths,
         apply_calibration self spectrum = Ok (wavelengths, spectrum) /\
         length wavelengths = length spectrum /\
         forall p, (p < length spectrum)%nat ->
           exists i, (S i < length anchors)%nat /\
             let a0 := nth i anchors (0%Z, zero) in
             let a1 := nth (S i) anchors (0%Z, zero) in
             nth p wavelengths zero =
               line_through (fst a0) (snd a0) (fst a1) (snd a1) (Z.of_nat p) /\
             (i = 0%nat \/ (fst a0 < Z.of_nat p)%Z) /\
             (S (S i) = length anchors \/ (Z.of_nat p <= fst a1)%Z)) /\
  (forall spectrum : list float,
     length spectrum = 1280%nat ->
     exists self cal wavelengths,
       wavelength_calibration (init (400, 700)%Z)
         [(0%Z, 400%float); (640%Z, 550%float); (1279%Z, 700%float)]
         = Ok (self, cal) /\
       apply_calibration self spectrum = Ok (wavelengths, spectrum) /\
       nth 0 wavelengths 0%float = 400%float /\
       nth 640 wavelengths 0%float = 550%float /\
       nth 1279 wavelengths 0%float = 700%float) /\
  (forall (self0 : processor) (anchors : list (Z * Qc)) (spectrum : list Qc)
          (k : nat),
     (2 <= length anchors)%nat ->
     strictly_increasing (map fst anchors) = true ->
     (k < length anchors)%nat ->
     let pixel := fst (nth k anchors (0%Z, zero)) in
     (0 <= pixel < Z.of_nat (length spectrum))%Z ->
     exists self cal wavelengths,
       wavelength_calibration self0 anchors = Ok (self, cal) /\
       apply_calibration self spectrum = Ok (wavelengths, spectrum) /\
       nth (Z.to_nat pixel) wavelengths zero
         = snd (nth k anchors (0%Z, zero))).
Proof.
  split; [| split].
  - intros F num self0 anchors Hn Hs.
    destruct anchors as [| a anchors]; [cbn in Hn; lia |].
    rewrite wavelength_calibration_nonempty.
    do 2 eexists. split; [reflexivity |]. split; [reflexivity |].
    intros spectrum. eexists. split; [reflexivity |].
    split; [unfold interp1d_call, arange; now rewrite !length_map, length_seq |].
    intros p Hp. rewrite nth_interp1d_call by exact Hp.
    rewrite (built_map_increasing _ Hs).
    destruct (call_linear_segment (a :: anchors) (Z.of_nat p) Hn Hs)
      as (i & Hi & Hval & Hleft & Hright).
    exists i. cbv zeta. auto.
  - intros spectrum Hlen.
    do 3 eexists. split; [vm_compute; reflexivity |].
    split; [unfold apply_calibration; cbn [calibration]; reflexivity |].
    rewrite Hlen.
    rewrite !nth_interp1d_call by lia.
    repeat split; vm_compute; reflexivity.
  - intros self0 anchors spectrum k Hn Hs Hk pixel Hpix.
    destruct anchors as [| a anchors]; [cbn in Hn; lia |].
    rewrite wavelength_calibration_nonempty.
    do 3 eexists. split; [reflexivity |]. split; [reflexivity |].
    rewrite nth_interp1d_call by lia.
    rewrite (built_map_increasing _ Hs), Z2Nat.id by lia.
    apply call_linear_at_anchor; assumption.
Qed.

Lemma C8_apply_defined_piecewise_linear_witness :
  let anchors := [(0%Z, 400%float); (640%Z, 550%float); (1279%Z, 700%float)] in
  (exists self cal,
     wavelength_calibration (init (400, 700)%Z) anchors = Ok (self, cal) /\
     calibration self = Some cal /\
     forall spectrum : list float,
     exists wavelengths,
       apply_calibration self spectrum = Ok (wavelengths, spectrum) /\
       length wavelengths = length spectrum /\
       forall p, (p < length spectrum)%nat ->
         exists i, (S i < length anchors)%nat /\
           let a0 := nth i anchors (0%Z, zero) in
           let a1 := nth (S i) anchors (0%Z, zero) in
           nth p wavelengths zero =
             line_through (fst a0) (snd a0) (fst a1) (snd a1) (Z.of_nat p) /\
           (i = 0%nat \/ (fst a0 < Z.of_nat p)%Z) /\
           (S (S i) = length anchors \/ (Z.of_nat p <= fst a1)%Z)) /\
  (exists self cal wavelengths,
     wavelength_calibration (init (400, 700)%Z) anchors = Ok (self, cal) /\
     apply_calibration self (repeat 0%float 1280)
       = Ok (wavelengths, repeat 0%float 1280) /\
     nth 0 wavelengths 0%float = 400%float /\
     nth 640 wavelengths 0%float = 550%float /\
     nth 1279 wavelengths 0%float = 700%float) /\
  (let exact_anchors :=
     combine [0; 2; 4]%Z (Qc_of_ints [400; 550; 700]%Z) in
   exists self cal wavelengths,
     wavelength_calibration (init (400, 700)%Z) exact_anchors
       = Ok (self, cal) /\
     apply_calibration self (Qc_of_ints [7; 1; 3; 9; 2]%Z)
       = Ok (wavelengths, Qc_of_ints [7; 1; 3; 9; 2]%Z) /\
     nth 2 wavelengths zero = snd (nth 1 exact_anchors (0%Z, zero))).
Proof.
  cbv zeta. split; [| split].
  - apply (proj1 C8_apply_defined_piecewise_linear float float_numeric
             (init (400, 700)%Z)
             [(0%Z, 400%float); (640%Z, 550%float); (1279%Z, 700%float)]).
    + cbn. lia.
    + reflexivity.
  - apply (proj1 (proj2 C8_apply_defined_piecewise_linear)
             (repeat 0%float 1280)).
    vm_compute. reflexivity.
  - apply (proj2 (proj2 C8_apply_defined_piecewise_linear)
             (init (400, 700)%Z)
             (combine [0; 2; 4]%Z (Qc_of_ints [400; 550; 700]%Z))
             (Qc_of_ints [7; 1; 3; 9; 2]%Z) 1%nat).
    + cbn. lia.
    + reflexivity.
    + cbn. lia.
    + cbn. lia.
Defined.

(** C9.  Applying a calibration map leaves the intensities untouched: for
    every map that was built and every spectrum, [apply_calibration]
    succeeds and the second component of its result is the input spectrum
    itself; only the wavelength axis, one value per pixel, is computed. *)
Theorem C9_apply_keeps_intensities :
  forall (F : Type) (num : Numeric F) (self0 self : processor)
         (anchors : list (Z * F)) (cal : interp1d) (spectrum : list F),
    wavelength_calibration self0 anchors = Ok (self, cal) ->
    exists wavelengths,
      apply_calibration self spectrum = Ok (wavelengths, spectrum) /\
      length wavelengths = length spectrum.
Proof.
  intros F num self0 self anchors cal spectrum Hbuild.
  destruct anchors as [| a anchors]; [discriminate Hbuild |].
  rewrite wavelength_calibration_nonempty in Hbuild.
  injection Hbuild as <- <-.
  eexists. split; [reflexivity |].
  unfold interp1d_call, arange. now rewrite !length_map, length_seq.
Qed.

Lemma C9_apply_keeps_intensities_witness :
  exists wavelengths,
    apply_calibration
      {| wavelength_range := (400, 700)%Z;
         calibration := Some {| interp_x := [0; 2; 4]%Z;
                                interp_y := [400; 550; 700]%float |} |}
      [7; 1; 3; 9; 2]%float
    = Ok (wavelengths, [7; 1; 3; 9; 2]%float) /\
    length wavelengths = 5%nat.
Proof.
  apply (C9_apply_keeps_intensities float float_numeric (init (400, 700)%Z) _
           [(0%Z, 400%float); (2%Z, 550%float); (4%Z, 700%float)]
           {| interp_x := [0; 2; 4]%Z; interp_y := [400; 550; 700]%float |}).
  vm_compute. reflexivity.
Defined.

(** ** Baseline correction and normalisation: which inputs are accepted *)

Section ProcessingGuards.
Context {F : Type} {num : Numeric F}.

Lemma baseline_rolling_minimum (spectrum : list F) (degree : Z) :
  baseline_correction spectrum "rolling_minimum" degree =
  (baseline <- medfilt spectrum (Z.of_nat (length spectrum) / 20) ;;
   Ok (vsub spectrum baseline)).
Proof. reflexivity. Qed.

Lemma baseline_polynomial (spectrum : list F) (degree : Z) :
  baseline_correction spectrum "polynomial" degree =
  (let x := map of_int (arange (length spectrum)) in
   coeffs <- np_polyfit x spectrum degree ;;
   Ok (vsub spectrum (np_polyval coeffs x))).
Proof. reflexivity. Qed.

Lemma medfilt_cases (volume : list F) (k : Z) :
  (0 <= k)%Z ->
  medfilt volume k =
  if Z.odd k
  then Ok (order_filter volume (Z.to_nat k) (Z.to_nat k / 2))
  else Raise (ValueError "Each element of kernel_size should be odd.").
Proof.
  intros Hk. unfold medfilt. rewrite Zmod_odd.
  destruct (Z.odd k); cbn [Z.eqb negb]; [| reflexivity].
  destruct (k <? 0)%Z eqn:Hneg; [apply Z.ltb_lt in Hneg; lia | reflexivity].
Qed.

Lemma np_polyfit_cases (x y : list F) (deg : Z) :
  length x = length y ->
  np_polyfit x y deg =
  if (deg <? 0)%Z then Raise (ValueError "expected deg >= 0")
  else match x with
       | [] => Raise (TypeError "expected non-empty vector for x")
       | _ :: _ =>
           if scaled_matrix_finite x (Z.to_nat (deg + 1))
           then Ok (lstsq_poly x y (Z.to_nat (deg + 1)))
           else Raise (ValueError
                  "SVD did not converge in Linear Least Squares")
       end.
Proof.
  intros Hlen. unfold np_polyfit. destruct (deg <? 0)%Z; [reflexivity |].
  destruct x as [| a x]; [reflexivity |].
  rewrite <- Hlen, Nat.eqb_refl.
  destruct (scaled_matrix_finite _ _); reflexivity.
Qed.


End ProcessingGuards.

(** C2.  The source passes [len(spectrum) // 20] to the median filter as it
    is, with no clamp to 1 and no adjustment of parity: the correction is
    computed exactly when that quotient is odd and raises [ValueError]
    otherwise.  So a spectrum of 5 samples (window 0) and one of 1280
    samples, the sensor width (window 64), are both rejected. *)
Theorem C2_rolling_minimum_window_unclamped :
  (forall (F : Type) (num : Numeric F) (spectrum : list F) (degree : Z),
     let window := (Z.of_nat (length spectrum) / 20)%Z in
     baseline_correction spectrum "rolling_minimum" degree =
     if Z.odd window
     then Ok (vsub spectrum
                (order_filter spectrum (Z.to_nat window)
                              (Z.to_nat window / 2)))
     else Raise (ValueError "Each element of kernel_size should be odd.")) /\
  baseline_correction [1; 2; 3; 4; 5]%float "rolling_minimum" 3 =
    Raise (ValueError "Each element of kernel_size should be odd.") /\
  baseline_correction (repeat 100%float 1280) "rolling_minimum" 3 =
    Raise (ValueError "Each element of kernel_size should be odd.").
Proof.
  split; [| split; vm_compute; reflexivity].
  intros F num spectrum degree window. subst window.
  rewrite baseline_rolling_minimum.
  rewrite medfilt_cases by (apply Z.div_pos; lia).
  destruct (Z.odd _); reflexivity.
Qed.

(** C5.  Normalising a flat spectrum is not guarded.  For every binary64
    value [v] and every length, the spectrum whose samples all equal [v] is
    returned as an array of NaN: each sample is computed as
    [(v - v) / (v - v)], the division of zero by zero, and no exception is
    raised. *)
Theorem C5_flat_spectrum_gives_nan :
  forall (v : float) (n : nat),
    normalize_spectrum (repeat v (S n)) = Ok (repeat nan (S n)) /\
    forallb PrimFloat.is_nan (repeat nan (S n)) = true.
Proof.
  intros v n.
  assert (Hfold_min :
    forall k, fold_left (fun m w : float =>
                if isnan m then m else if isnan w then w
                else if flt w m then w else m) (repeat v k) v = v).
  { induction k as [| k IH]; [reflexivity |]. cbn [repeat fold_left].
    replace (if isnan v then v else if isnan v then v
             else if flt v v then v else v) with v
      by (destruct (isnan v), (flt v v); reflexivity).
    exact IH. }
  assert (Hfold_max :
    forall k, fold_left (fun m w : float =>
                if isnan m then m else if isnan w then w
                else if flt m w then w else m) (repeat v k) v = v).
  { induction k as [| k IH]; [reflexivity |]. cbn [repeat fold_left].
    replace (if isnan v then v else if isnan v then v
             else if flt v v then v else v) with v
      by (destruct (isnan v), (flt v v); reflexivity).
    exact IH. }
  split.
  - unfold normalize_spectrum, np_min, np_max.
    cbn [repeat]. rewrite Hfold_min, Hfold_max. cbn [bind].
    change (v :: repeat v n) with (repeat v (S n)).
    rewrite !map_repeat. cbn [fsub fdiv float_numeric].
    now rewrite float_flat_quotient.
  - induction n as [| n IH]; [reflexivity | exact IH].
Qed.


(** ** Least squares in exact arithmetic

    Over the rationals the coefficients [lstsq_poly] returns minimise the
    sum of squared residuals.  The development follows the computation:
    vector identities, Horner's rule, one reduction step, the family built
    by [orthogonal_basis], and the projection of the data on it. *)

Section ExactLeastSquares.
Local Open Scope Qc_scope.

Ltac qc :=
  cbn [fadd fsub fmul fdiv feq flt of_int Qc_numeric] in *;
  change (@zero Qc Qc_numeric) with 0 in *;
  change (@one Qc Qc_numeric) with 1 in *.

(** [ring] with the vector expressions abstracted. *)
Ltac vring :=
  repeat match goal with
         | |- context [@dot Qc ?n ?u ?v] =>
             let q := fresh "q" in generalize (@dot Qc n u v); intro q
         | |- context [@polyval1 Qc ?n ?p ?x] =>
             let q := fresh "q" in generalize (@polyval1 Qc n p x); intro q
         | |- context [@fpow Qc ?n ?x ?k] =>
             let q := fresh "q" in generalize (@fpow Qc n x k); intro q
         end;
  ring.

Lemma length_zip_with {A B C : Type} (f : A -> B -> C) (u : list A)
    (v : list B) :
  length u = length v -> length (zip_with f u v) = length v.
Proof.
  revert v. induction u as [| a u IH]; intros [| b v] H;
    cbn in *; try lia. now rewrite IH by lia.
Qed.

Lemma dot_cons (a b : Qc) (u v : list Qc) :
  dot (a :: u) (b :: v) = a * b + dot u v.
Proof. reflexivity. Qed.

Lemma dot_nil_r (u : list Qc) : dot u [] = 0.
Proof. now destruct u. Qed.

Lemma dot_comm (u v : list Qc) : dot u v = dot v u.
Proof.
  revert v. induction u as [| a u IH]; intros [| b v]; try reflexivity.
  rewrite !dot_cons, IH. vring.
Qed.

Lemma vaxpy_cons (a x y : Qc) (u v : list Qc) :
  vaxpy a (x :: u) (y :: v) = (y - a * x) :: vaxpy a u v.
Proof. reflexivity. Qed.

Lemma dot_vaxpy_r (a : Qc) (r u v : list Qc) :
  length u = length v ->
  dot r (vaxpy a u v) = dot r v - a * dot r u.
Proof.
  revert u v. induction r as [| x r IH]; intros [| p u] [| q v] H;
    cbn [length] in H; try lia.
  - change (0 = 0 - a * 0). ring.
  - change (0 = 0 - a * 0). ring.
  - change (vaxpy a [] []) with (@nil Qc). rewrite !dot_nil_r. ring.
  - rewrite vaxpy_cons, !dot_cons, IH by lia. vring.
Qed.

Lemma dot_vaxpy_l (a : Qc) (r u v : list Qc) :
  length u = length v ->
  dot (vaxpy a u v) r = dot v r - a * dot u r.
Proof.
  intros H. rewrite (dot_comm _ r), dot_vaxpy_r by exact H.
  now rewrite (dot_comm r v), (dot_comm r u).
Qed.

(** Sums of squares. *)
Lemma Qc_square_nonneg (a : Qc) : 0 <= a * a.
Proof.
  unfold Qcle, Qcmult, Q2Qc. cbn [this]. rewrite !Qred_correct. nra.
Qed.

Lemma sum_squares_nonneg (u : list Qc) : 0 <= dot u u.
Proof.
  induction u as [| a u IH]; [apply Qcle_refl |].
  rewrite dot_cons. replace 0 with (0 + 0) by vring.
  apply Qcplus_le_compat; [apply Qc_square_nonneg | exact IH].
Qed.

Lemma Qc_sum_zero (a b : Qc) : 0 <= a -> 0 <= b -> a + b = 0 -> a = 0.
Proof.
  intros Ha Hb H. apply Qcle_antisym; [| exact Ha].
  rewrite <- H. replace a with (a + 0) at 1 by vring.
  apply Qcplus_le_compat; [apply Qcle_refl | exact Hb].
Qed.

Lemma Qc_square_zero (a : Qc) : a * a = 0 -> a = 0.
Proof.
  intros H. destruct (Qc_eq_dec a 0) as [E | N]; [exact E |].
  exfalso. apply N. replace a with (a * a / a) by (field; exact N).
  rewrite H. field. exact N.
Qed.

Lemma sum_squares_zero (u r : list Qc) : dot u u = 0 -> dot r u = 0.
Proof.
  revert r. induction u as [| a u IH]; intros r H; [apply dot_nil_r |].
  rewrite dot_cons in H.
  assert (Ha : a * a = 0)
    by (eapply Qc_sum_zero; [apply Qc_square_nonneg
                            | apply sum_squares_nonneg | exact H]).
  assert (Hu : dot u u = 0) by (rewrite Ha in H; rewrite <- H; ring).
  apply Qc_square_zero in Ha. subst a.
  destruct r as [| x r]; [reflexivity |].
  rewrite dot_cons, IH by exact Hu. vring.
Qed.


(** Horner's rule. *)
Lemma horner_shift (x : Qc) (c : list Qc) (acc : Qc) :
  fold_left (horner_step x) c acc
  = acc * fpow x (length c) + fold_left (horner_step x) c 0.
Proof.
  revert acc. induction c as [| a c IH]; intros acc.
  - cbn [fold_left length fpow]. qc. ring.
  - cbn [fold_left length fpow]. rewrite IH, (IH (horner_step x 0 a)).
    unfold horner_step. qc. vring.
Qed.

Lemma polyval1_cons (a x : Qc) (c : list Qc) :
  polyval1 (a :: c) x = a * fpow x (length c) + polyval1 c x.
Proof.
  unfold polyval1. cbn [fold_left]. rewrite horner_shift.
  unfold horner_step. qc.
  replace (0 * x + a) with a by ring. reflexivity.
Qed.

Lemma polyval1_nil (x : Qc) : polyval1 [] x = 0.
Proof. reflexivity. Qed.

Lemma polyval1_zeros (x : Qc) (k : nat) : polyval1 (repeat zero k) x = 0.
Proof.
  induction k as [| k IH]; [reflexivity |].
  cbn [repeat]. rewrite polyval1_cons, IH. qc. ring.
Qed.

Lemma polyval1_unit (x : Qc) (order k : nat) :
  polyval1 (unit_coeff order k) x = fpow x k.
Proof.
  unfold unit_coeff.
  change ([one] ++ repeat zero k) with (@one Qc _ :: repeat zero k).
  induction (order - 1 - k)%nat as [| j IH].
  - cbn [repeat app]. rewrite polyval1_cons, polyval1_zeros, repeat_length.
    qc. vring.
  - cbn [repeat app]. rewrite polyval1_cons, IH. qc. vring.
Qed.

Lemma length_unit_coeff (order k : nat) :
  (k < order)%nat -> length (@unit_coeff Qc _ order k) = order.
Proof.
  intros H. unfold unit_coeff. rewrite !length_app, !repeat_length.
  cbn [length]. lia.
Qed.

Lemma np_polyval_unit (xs : list Qc) (order k : nat) :
  np_polyval (unit_coeff order k) xs = power_vector xs k.
Proof.
  unfold np_polyval, power_vector. apply map_ext.
  intros x. apply polyval1_unit.
Qed.

Lemma horner_vaxpy (a x : Qc) (c1 c2 : list Qc) (acc1 acc2 : Qc) :
  length c1 = length c2 ->
  fold_left (horner_step x) (vaxpy a c1 c2) (acc2 - a * acc1)
  = fold_left (horner_step x) c2 acc2 - a * fold_left (horner_step x) c1 acc1.
Proof.
  revert c2 acc1 acc2.
  induction c1 as [| p c1 IH]; intros [| q c2] acc1 acc2 H;
    cbn [length] in H; try lia.
  - reflexivity.
  - rewrite vaxpy_cons. cbn [fold_left].
    replace (horner_step x (acc2 - a * acc1) (q - a * p))
      with (horner_step x acc2 q - a * horner_step x acc1 p)
      by (unfold horner_step; qc; ring).
    apply IH. lia.
Qed.

Lemma polyval1_vaxpy (a x : Qc) (c1 c2 : list Qc) :
  length c1 = length c2 ->
  polyval1 (vaxpy a c1 c2) x = polyval1 c2 x - a * polyval1 c1 x.
Proof.
  intros H. pose proof (horner_vaxpy a x c1 c2 0 0 H) as E.
  replace (0 - a * 0) with 0 in E by ring. exact E.
Qed.

Lemma np_polyval_vaxpy (a : Qc) (c1 c2 xs : list Qc) :
  length c1 = length c2 ->
  np_polyval (vaxpy a c1 c2) xs
  = vaxpy a (np_polyval c1 xs) (np_polyval c2 xs).
Proof.
  intros H. unfold np_polyval.
  induction xs as [| x xs IH]; [reflexivity |].
  cbn [map]. rewrite vaxpy_cons, IH. f_equal.
  now apply polyval1_vaxpy.
Qed.

Lemma length_np_polyval (c xs : list Qc) :
  length (np_polyval c xs) = length xs.
Proof. apply length_map. Qed.


(** One pass of [reduce] over an orthogonal family. *)
Lemma family_member (xs : list Qc) (m : nat) (basis : list poly_vec) :
  orthogonal_family xs m basis ->
  forall b, In b basis ->
    length (fst b) = m /\ snd b = np_polyval (fst b) xs /\
    dot (snd b) (snd b) <> 0.
Proof.
  induction 1 as [| basis b Hfam IH Hlen Hval Hnz Horth]; intros d Hd.
  - destruct Hd.
  - apply in_app_or in Hd as [Hd | [<- | []]]; [now apply IH |].
    repeat split; assumption.
Qed.

Lemma reduce_snoc (basis : list (@poly_vec Qc)) (b cu : poly_vec) :
  reduce (basis ++ [b]) cu = reduce_step (reduce basis cu) b.
Proof. unfold reduce. now rewrite fold_left_app. Qed.

Lemma reduce_lengths (xs : list Qc) (m : nat) (basis : list poly_vec)
    (cu : poly_vec) :
  orthogonal_family xs m basis ->
  length (fst cu) = m -> length (snd cu) = length xs ->
  length (fst (reduce basis cu)) = m /\
  length (snd (reduce basis cu)) = length xs.
Proof.
  intros Hfam Hc Hu.
  induction Hfam as [| basis b Hfam IH Hlen Hval Hnz Horth];
    [split; assumption |].
  destruct IH as [IHc IHu]. rewrite reduce_snoc. unfold reduce_step.
  cbn [fst snd]. unfold vaxpy. split.
  - rewrite length_zip_with; congruence.
  - rewrite length_zip_with; [exact IHu |].
    rewrite Hval, length_np_polyval. now symmetry.
Qed.

Lemma reduce_orthogonal (xs : list Qc) (m : nat) (basis : list poly_vec)
    (cu : poly_vec) :
  orthogonal_family xs m basis ->
  length (fst cu) = m -> length (snd cu) = length xs ->
  forall d, In d basis -> dot (snd (reduce basis cu)) (snd d) = 0.
Proof.
  intros Hfam Hc Hu.
  induction Hfam as [| basis b Hfam IH Hlen Hval Hnz Horth]; intros d Hd;
    [destruct Hd |].
  destruct (reduce_lengths xs m basis cu Hfam Hc Hu) as [_ Hu1].
  assert (Hub : length (snd b) = length (snd (reduce basis cu)))
    by (rewrite Hval, length_np_polyval; now symmetry).
  rewrite reduce_snoc. unfold reduce_step. cbn [fst snd].
  rewrite dot_vaxpy_l by exact Hub.
  apply in_app_or in Hd as [Hd | [<- | []]].
  - rewrite (IH d Hd), (Horth d Hd). qc. ring.
  - qc. generalize dependent (dot (snd b) (snd b)).
    generalize (dot (snd (reduce basis cu)) (snd b)).
    intros p q Hq. field. exact Hq.
Qed.

Lemma reduce_polynomial (xs : list Qc) (m : nat) (basis : list poly_vec)
    (cu : poly_vec) :
  orthogonal_family xs m basis ->
  length (fst cu) = m -> snd cu = np_polyval (fst cu) xs ->
  snd (reduce basis cu) = np_polyval (fst (reduce basis cu)) xs.
Proof.
  intros Hfam Hc Hu.
  induction Hfam as [| basis b Hfam IH Hlen Hval Hnz Horth]; [exact Hu |].
  assert (Hlu : length (snd cu) = length xs)
    by (rewrite Hu; apply length_np_polyval).
  destruct (reduce_lengths xs m basis cu Hfam Hc Hlu) as [Hc1 _].
  rewrite reduce_snoc. unfold reduce_step. cbn [fst snd].
  rewrite np_polyval_vaxpy by congruence.
  now rewrite <- IH, <- Hval.
Qed.

Lemma reduce_dot (xs : list Qc) (m : nat) (basis : list poly_vec)
    (cu : poly_vec) (r : list Qc) :
  orthogonal_family xs m basis ->
  length (fst cu) = m -> length (snd cu) = length xs ->
  (forall b, In b basis -> dot r (snd b) = 0) ->
  dot r (snd (reduce basis cu)) = dot r (snd cu).
Proof.
  intros Hfam Hc Hu.
  induction Hfam as [| basis b Hfam IH Hlen Hval Hnz Horth]; intros Hr;
    [reflexivity |].
  destruct (reduce_lengths xs m basis cu Hfam Hc Hu) as [_ Hu1].
  rewrite reduce_snoc. unfold reduce_step. cbn [fst snd].
  rewrite dot_vaxpy_r
    by (rewrite Hval, length_np_polyval; now symmetry).
  rewrite IH by (intros d Hd; apply Hr, in_or_app; now left).
  rewrite (Hr b) by (apply in_or_app; right; now left).
  qc. vring.
Qed.


(** The family built by [orthogonal_basis]. *)
Lemma Qc_eq_bool_false (a b : Qc) : Qc_eq_bool a b = false -> a <> b.
Proof. unfold Qc_eq_bool. now destruct (Qc_eq_dec a b). Qed.

Lemma length_power_vector (xs : list Qc) (k : nat) :
  length (power_vector xs k) = length xs.
Proof. apply length_map. Qed.

Lemma extend_basis_incl (xs : list Qc) (m k : nat) (basis : list poly_vec)
    (b : poly_vec) :
  In b basis -> In b (extend_basis xs m basis k).
Proof.
  intros Hb. unfold extend_basis.
  destruct (feq _ _); [exact Hb | apply in_or_app; now left].
Qed.

Lemma extend_basis_family (xs : list Qc) (m k : nat)
    (basis : list poly_vec) :
  orthogonal_family xs m basis -> (k < m)%nat ->
  orthogonal_family xs m (extend_basis xs m basis k).
Proof.
  intros Hfam Hk. unfold extend_basis.
  set (cu := reduce basis (unit_coeff m k, power_vector xs k)).
  destruct (feq (dot (snd cu) (snd cu)) zero) eqn:Hz; [exact Hfam |].
  assert (Hc : length (fst (@unit_coeff Qc _ m k, power_vector xs k)) = m)
    by (apply length_unit_coeff; exact Hk).
  assert (Hu : length (snd (@unit_coeff Qc _ m k, power_vector xs k))
               = length xs) by apply length_power_vector.
  apply family_snoc.
  - exact Hfam.
  - apply (reduce_lengths xs m basis _ Hfam Hc Hu).
  - apply (reduce_polynomial xs m basis _ Hfam Hc).
    cbn [fst snd]. symmetry. apply np_polyval_unit.
  - apply Qc_eq_bool_false. exact Hz.
  - apply (reduce_orthogonal xs m basis _ Hfam Hc Hu).
Qed.

Lemma covers_mono (xs : list Qc) (k : nat) (basis basis' : list poly_vec) :
  (forall b, In b basis -> In b basis') ->
  covers xs basis k -> covers xs basis' k.
Proof. intros Hincl Hcov r Hr. apply Hcov. intros b Hb. auto. Qed.

Lemma extend_basis_covers (xs : list Qc) (m k : nat)
    (basis : list poly_vec) :
  orthogonal_family xs m basis -> (k < m)%nat ->
  covers xs (extend_basis xs m basis k) k.
Proof.
  intros Hfam Hk r Hr.
  assert (Hc : length (fst (@unit_coeff Qc _ m k, power_vector xs k)) = m)
    by (apply length_unit_coeff; exact Hk).
  assert (Hu : length (snd (@unit_coeff Qc _ m k, power_vector xs k))
               = length xs) by apply length_power_vector.
  assert (Hr0 : forall b, In b basis -> dot r (snd b) = 0)
    by (intros b Hb; apply Hr, extend_basis_incl, Hb).
  pose proof (reduce_dot xs m basis _ r Hfam Hc Hu Hr0) as Hdot.
  change (snd (@unit_coeff Qc _ m k, power_vector xs k))
    with (power_vector xs k) in Hdot.
  rewrite <- Hdot. clear Hdot.
  unfold extend_basis in Hr.
  set (cu := reduce basis (unit_coeff m k, power_vector xs k)) in *.
  destruct (feq (dot (snd cu) (snd cu)) zero) eqn:Hz.
  - apply sum_squares_zero. apply Qc_eq_bool_correct. exact Hz.
  - apply Hr. apply in_or_app. right. now left.
Qed.

Lemma fold_extend_basis (xs : list Qc) (m : nat) (ks : list nat) :
  forall basis,
    orthogonal_family xs m basis ->
    (forall k, In k ks -> (k < m)%nat) ->
    let final := fold_left (extend_basis xs m) ks basis in
    orthogonal_family xs m final /\
    (forall b, In b basis -> In b final) /\
    (forall k, In k ks -> covers xs final k).
Proof.
  induction ks as [| k ks IH]; intros basis Hfam Hks; cbn [fold_left].
  - repeat split; [exact Hfam | auto | intros k []].
  - assert (Hk : (k < m)%nat) by (apply Hks; now left).
    destruct (IH (extend_basis xs m basis k)
                 (extend_basis_family xs m k basis Hfam Hk)
                 (fun j Hj => Hks j (or_intror Hj)))
      as (Hfam' & Hincl & Hcov).
    split; [exact Hfam' |]. split.
    + intros b Hb. apply Hincl, extend_basis_incl, Hb.
    + intros j [<- | Hj]; [| now apply Hcov].
      eapply covers_mono; [exact Hincl |].
      apply extend_basis_covers; assumption.
Qed.

Lemma orthogonal_basis_spec (xs : list Qc) (m : nat) :
  orthogonal_family xs m (orthogonal_basis xs m) /\
  (forall k, (k < m)%nat -> covers xs (orthogonal_basis xs m) k).
Proof.
  destruct (fold_extend_basis xs m (seq 0 m) [] (family_nil xs m))
    as (Hfam & _ & Hcov).
  - intros k Hk. apply in_seq in Hk. lia.
  - split; [exact Hfam |]. intros k Hk. apply Hcov, in_seq. lia.
Qed.


(** The projection of the data. *)
Lemma vaxpy_vadd (a : Qc) (w y v : list Qc) :
  vaxpy a w (vadd y v) = vadd y (vaxpy a w v).
Proof.
  revert y v. induction w as [| p w IH]; intros [| q y] [| t v];
    try reflexivity.
  unfold vadd in *. cbn [zip_with]. rewrite vaxpy_cons.
  unfold vaxpy at 2. cbn [zip_with]. fold (vaxpy a w v).
  rewrite IH. f_equal. qc. ring.
Qed.

Lemma reduce_residual (xs y : list Qc) (m : nat) (basis : list poly_vec)
    (cu : poly_vec) :
  orthogonal_family xs m basis ->
  length (fst cu) = m -> length y = length xs ->
  snd cu = vadd y (np_polyval (fst cu) xs) ->
  snd (reduce basis cu) = vadd y (np_polyval (fst (reduce basis cu)) xs).
Proof.
  intros Hfam Hc Hy Hu.
  induction Hfam as [| basis b Hfam IH Hlen Hval Hnz Horth]; [exact Hu |].
  assert (Hlu : length (snd cu) = length xs).
  { rewrite Hu. unfold vadd. rewrite length_zip_with;
      rewrite length_np_polyval; [reflexivity | exact Hy]. }
  destruct (reduce_lengths xs m basis cu Hfam Hc Hlu) as [Hc1 _].
  rewrite reduce_snoc. unfold reduce_step. cbn [fst snd].
  rewrite np_polyval_vaxpy by congruence.
  rewrite IH at 2. rewrite vaxpy_vadd. now rewrite <- Hval.
Qed.

Lemma zip_with_map_ext {A : Type} (op1 op2 : Qc -> Qc -> Qc)
    (f g : A -> Qc) (y : list Qc) (xs : list A) :
  (forall q x, op1 q (f x) = op2 q (g x)) ->
  zip_with op1 y (map f xs) = zip_with op2 y (map g xs).
Proof.
  intros H. revert xs. induction y as [| q y IH]; intros [| x xs];
    try reflexivity.
  cbn [map zip_with]. now rewrite H, IH.
Qed.

Lemma polyval1_negate (c : list Qc) (x : Qc) :
  polyval1 (map (fsub zero) c) x = - polyval1 c x.
Proof.
  induction c as [| a c IH]; [change (0 = - 0); ring |].
  cbn [map]. rewrite !polyval1_cons, IH, length_map. qc. vring.
Qed.

Lemma vadd_zero_polynomial (xs y : list Qc) (m : nat) :
  length y = length xs ->
  y = vadd y (np_polyval (repeat zero m) xs).
Proof.
  revert xs. induction y as [| q y IH]; intros [| x xs] H;
    cbn [length] in H; try lia; [reflexivity |].
  unfold vadd, np_polyval in *. cbn [map zip_with].
  rewrite <- IH by lia. rewrite polyval1_zeros. f_equal. qc. ring.
Qed.

(** The residual [y - polyval(c, x)] of the fitted coefficients is what
    [reduce] leaves of [y]. *)
Lemma lstsq_residual (xs y : list Qc) (m : nat) :
  length y = length xs ->
  vsub y (np_polyval (lstsq_poly xs y m) xs)
  = snd (reduce (orthogonal_basis xs m) (repeat zero m, y)).
Proof.
  intros Hy. destruct (orthogonal_basis_spec xs m) as [Hfam _].
  rewrite (reduce_residual xs y m _ (repeat zero m, y) Hfam
             (repeat_length _ _) Hy (vadd_zero_polynomial xs y m Hy)).
  unfold lstsq_poly, vsub, vadd, np_polyval.
  apply zip_with_map_ext. intros q x. rewrite polyval1_negate. qc. ring.
Qed.

Lemma length_lstsq_poly (xs y : list Qc) (m : nat) :
  length y = length xs -> length (lstsq_poly xs y m) = m.
Proof.
  intros Hy. destruct (orthogonal_basis_spec xs m) as [Hfam _].
  unfold lstsq_poly. rewrite length_map.
  apply (reduce_lengths xs m _ (repeat zero m, y) Hfam
           (repeat_length _ _) Hy).
Qed.

Lemma dot_map_linear {A : Type} (a : Qc) (f g : A -> Qc) (r : list Qc)
    (xs : list A) :
  dot r (map (fun x => a * f x + g x) xs)
  = a * dot r (map f xs) + dot r (map g xs).
Proof.
  revert xs. induction r as [| q r IH]; intros [| x xs];
    try (change (0 = a * 0 + 0); ring).
  cbn [map]. rewrite !dot_cons, IH. vring.
Qed.

Lemma dot_map_zero {A : Type} (r : list Qc) (xs : list A) :
  dot r (map (fun _ => 0) xs) = 0.
Proof.
  revert xs. induction r as [| q r IH]; intros [| x xs]; try reflexivity.
  cbn [map]. rewrite dot_cons, IH. ring.
Qed.

(** Normal equations: the residual is orthogonal to the values of every
    polynomial with at most [m] coefficients. *)
Lemma lstsq_normal_equations (xs y : list Qc) (m : nat) :
  length y = length xs ->
  forall c, (length c <= m)%nat ->
    dot (vsub y (np_polyval (lstsq_poly xs y m) xs)) (np_polyval c xs) = 0.
Proof.
  intros Hy. rewrite (lstsq_residual xs y m Hy).
  destruct (orthogonal_basis_spec xs m) as [Hfam Hcov].
  set (r := snd (reduce (orthogonal_basis xs m) (repeat zero m, y))).
  assert (Hr : forall b, In b (orthogonal_basis xs m) -> dot r (snd b) = 0)
    by (apply (reduce_orthogonal xs m _ (repeat zero m, y) Hfam
                 (repeat_length _ _) Hy)).
  induction c as [| a c IH]; intros Hlen.
  - unfold np_polyval. rewrite (map_ext _ (fun _ => 0)) by reflexivity.
    apply dot_map_zero.
  - cbn [length] in Hlen. unfold np_polyval.
    rewrite (map_ext _ (fun x => a * fpow x (length c) + polyval1 c x))
      by (intros x; apply polyval1_cons).
    rewrite dot_map_linear.
    change (map (fun x => fpow x (length c)) xs)
      with (power_vector xs (length c)).
    rewrite (Hcov (length c) ltac:(lia) r Hr).
    change (map (polyval1 c) xs) with (np_polyval c xs).
    rewrite IH by lia. qc. ring.
Qed.


(** Minimality. *)
Lemma residual_split {A : Type} (f g : A -> Qc) (y : list Qc)
    (xs : list A) :
  vsub y (map g xs)
  = vadd (vsub y (map f xs)) (vaxpy 1 (map g xs) (map f xs)).
Proof.
  revert xs. induction y as [| q y IH]; intros [| x xs]; try reflexivity.
  unfold vsub, vadd in *. cbn [map zip_with]. rewrite vaxpy_cons.
  cbn [zip_with]. rewrite IH. f_equal. qc. ring.
Qed.

Lemma sum_squares_vadd (r q : list Qc) :
  length r = length q ->
  dot (vadd r q) (vadd r q) = dot r r + (dot r q + dot r q) + dot q q.
Proof.
  revert q. induction r as [| a r IH]; intros [| b q] H;
    cbn [length] in H; try lia.
  - change (0 = 0 + (0 + 0) + 0). ring.
  - unfold vadd in *. cbn [zip_with]. rewrite !dot_cons, IH by lia.
    qc. vring.
Qed.

Lemma lstsq_minimal (xs y : list Qc) (m : nat) :
  length y = length xs ->
  forall c, (length c <= m)%nat ->
    sum_squares (vsub y (np_polyval (lstsq_poly xs y m) xs))
    <= sum_squares (vsub y (np_polyval c xs)).
Proof.
  intros Hy c Hc. unfold sum_squares.
  set (fit := lstsq_poly xs y m).
  set (r := vsub y (np_polyval fit xs)).
  set (q := vaxpy 1 (np_polyval c xs) (np_polyval fit xs)).
  assert (Hsplit : vsub y (np_polyval c xs) = vadd r q)
    by apply residual_split.
  assert (Hlq : length q = length xs).
  { subst q. unfold vaxpy. rewrite length_zip_with;
      now rewrite !length_np_polyval. }
  assert (Hlr : length r = length xs).
  { subst r. unfold vsub. rewrite length_zip_with;
      now rewrite length_np_polyval. }
  assert (Hrq : dot r q = 0).
  { subst q. rewrite dot_vaxpy_r by now rewrite !length_np_polyval.
    subst r fit.
    rewrite !(lstsq_normal_equations xs y m Hy); try lia; [ring | ].
    rewrite length_lstsq_poly by exact Hy. lia. }
  rewrite Hsplit, sum_squares_vadd, Hrq by congruence.
  replace (dot r r) with (dot r r + 0) at 1 by ring.
  replace (dot r r + (0 + 0) + dot q q) with (dot r r + dot q q) by ring.
  apply Qcplus_le_compat; [apply Qcle_refl | apply sum_squares_nonneg].
Qed.

End ExactLeastSquares.

(** ** Polynomial baseline and smoothing *)


Lemma window_start_bounds (n w i : nat) :
  Nat.odd w = true -> (w <= n)%nat -> (i < n)%nat ->
  let start := window_start n w i in
  (start <= i < start + w)%nat /\ (start + w <= n)%nat /\
  ((w / 2 <= i <= n - 1 - w / 2)%nat -> start = (i - w / 2)%nat).
Proof.
  intros Hodd Hw Hi.
  assert (Hh : w = (2 * (w / 2) + 1)%nat).
  { pose proof (Nat.div_mod_eq w 2) as E.
    rewrite <- Nat.bit0_mod in E. unfold Nat.testbit in E.
    rewrite Hodd in E. cbn [Nat.b2n] in E. exact E. }
  unfold window_start. cbv zeta.
  destruct (i <? w / 2)%nat eqn:H1;
    [apply Nat.ltb_lt in H1 | apply Nat.ltb_ge in H1].
  - repeat split; lia.
  - destruct (n - 1 - w / 2 <? i)%nat eqn:H2;
      [apply Nat.ltb_lt in H2 | apply Nat.ltb_ge in H2];
      repeat split; lia.
Qed.

Lemma length_window {A : Type} (x : list A) (start w : nat) :
  (start + w <= length x)%nat ->
  length (firstn w (skipn start x)) = w.
Proof. intros H. rewrite length_firstn, length_skipn. lia. Qed.

Lemma length_abscissae {F : Type} {num : Numeric F} (n : nat) :
  length (map (of_int (F := F)) (arange n)) = n.
Proof. unfold arange. now rewrite !length_map, length_seq. Qed.

Lemma fpow_one (k : nat) : fpow (of_int (F := Qc) 1) k = 1%Qc.
Proof.
  induction k as [| k IH]; [reflexivity |].
  cbn [fpow]. rewrite IH. reflexivity.
Qed.

Lemma Qc_isfinite (v : Qc) : isfinite v = true.
Proof.
  unfold isfinite. cbn [fsub feq Qc_numeric].
  replace (v - v)%Qc with (@zero Qc Qc_numeric)
    by (change (@zero Qc Qc_numeric) with 0%Qc; ring).
  unfold Qc_eq_bool. now destruct (Qc_eq_dec zero zero).
Qed.

(** With at least two pixels no column of the Vandermonde matrix of the
    pixel indices vanishes in exact arithmetic: the entry for pixel 1 is
    1. *)
Lemma pixel_columns_nonzero (n m : nat) :
  scaled_matrix_finite (map (of_int (F := Qc)) (arange (S (S n)))) m = true.
Proof.
  unfold scaled_matrix_finite. apply forallb_forall. intros k _.
  unfold column_scales. apply andb_true_iff. split.
  - apply negb_true_iff, not_true_is_false. intros Hz.
    apply Qc_eq_bool_correct in Hz. unfold sum_squares in Hz.
    pose proof (sum_squares_zero _ [0%Qc; 1%Qc] Hz) as H1.
    unfold arange in H1. cbn [seq map power_vector] in H1.
    rewrite !dot_cons, fpow_one in H1.
    change (dot [] _) with 0%Qc in H1.
    replace (0 * fpow (of_int 0) k + (1 * 1 + 0))%Qc with 1%Qc in H1
      by (generalize (fpow (of_int (F := Qc) 0) k); intro; ring).
    discriminate H1.
  - apply forallb_forall. intros v _. apply Qc_isfinite.
Qed.

(** ** The shape of a fit, in every arithmetic *)

Section FitShape.
Context {F : Type} {num : Numeric F}.














End FitShape.

Lemma firstn_seq_le (n : nat) :
  forall s len, (n <= len)%nat -> firstn n (seq s len) = seq s n.
Proof.
  induction n as [| n IH]; intros s len Hn; [reflexivity |].
  destruct len as [| len]; [lia |].
  cbn [seq firstn]. f_equal. apply IH. lia.
Qed.





(** In exact arithmetic the polynomial the baseline correction subtracts
    from a spectrum of at least two samples is a least-squares fit: no
    polynomial of that degree leaves a smaller sum of squared residuals.
    The binary64 computation approximates it. *)
Lemma polynomial_baseline_least_squares (spectrum : list Qc) (degree : Z) :
  (0 <= degree)%Z -> (2 <= length spectrum)%nat ->
  let x := map of_int (arange (length spectrum)) in
  exists coeffs corrected,
    baseline_correction spectrum "polynomial" degree = Ok corrected /\
    corrected = vsub spectrum (np_polyval coeffs x) /\
    length coeffs = Z.to_nat (degree + 1) /\
    length corrected = length spectrum /\
    forall c, length c = Z.to_nat (degree + 1) ->
      (sum_squares corrected
       <= sum_squares (vsub spectrum (np_polyval c x)))%Qc.
Proof.
  intros Hdeg Hlen x.
  assert (Hx : length spectrum = length x)
    by (subst x; now rewrite length_abscissae).
  exists (lstsq_poly x spectrum (Z.to_nat (degree + 1))).
  eexists. split; [| split; [reflexivity |]].
  - rewrite baseline_polynomial. cbv zeta. fold x.
    rewrite np_polyfit_cases by (symmetry; exact Hx).
    destruct (degree <? 0)%Z eqn:Hneg; [apply Z.ltb_lt in Hneg; lia |].
    subst x.
    destruct spectrum as [| a [| b spectrum]]; [cbn in Hlen; lia .. |].
    cbn [length]. rewrite pixel_columns_nonzero. reflexivity.
  - split; [apply length_lstsq_poly; exact Hx |]. split.
    + unfold vsub. rewrite length_zip_with; rewrite length_np_polyval;
        congruence.
    + intros c Hc. apply lstsq_minimal; [exact Hx | lia].
Qed.




(** In exact arithmetic the value the filter gives sample [i] is the value
    at [i] of a least-squares cubic of its window: no cubic leaves a
    smaller sum of squared residuals on the window.  The binary64
    computation approximates it. *)
Lemma savgol_value_least_squares (spectrum : list Qc) (window_length : Z)
    (i : nat) :
  (3 < window_length)%Z -> Z.odd window_length = true ->
  (window_length <= Z.of_nat (length spectrum))%Z ->
  (i < length spectrum)%nat ->
  let w := Z.to_nat window_length in
  let start := window_start (length spectrum) w i in
  let window := firstn w (skipn start spectrum) in
  let t := map of_int (arange w) in
  length window = w /\
  exists coeffs,
    length coeffs = 4%nat /\
    savgol_value spectrum w 4 i
      = polyval1 coeffs (of_int (Z.of_nat (i - start))) /\
    forall c, length c = 4%nat ->
      (sum_squares (vsub window (np_polyval coeffs t))
       <= sum_squares (vsub window (np_polyval c t)))%Qc.
Proof.
  intros H3 Hodd Hlen Hi w start window t.
  assert (Hoddn : Nat.odd w = true).
  { subst w. apply Z.odd_spec in Hodd as [k Hk].
    apply Nat.odd_spec. exists (Z.to_nat k). lia. }
  destruct (window_start_bounds (length spectrum) w i Hoddn
              ltac:(subst w; lia) Hi) as (Hin & Hfit & Hcentre).
  fold start in Hin, Hfit, Hcentre.
  assert (Hwin : length window = w)
    by (subst window; apply length_window; exact Hfit).
  assert (Ht : length window = length t)
    by (subst t; rewrite length_abscissae; exact Hwin).
  split; [exact Hwin |].
  exists (lstsq_poly t window 4). split; [| split].
  - apply length_lstsq_poly. exact Ht.
  - reflexivity.
  - intros c Hc. apply lstsq_minimal; [exact Ht | lia].
Qed.

(** ** Worked values of the model *)

(** Interpolation between three anchors and extrapolation past the last. *)
Example apply_three_anchors :
  (p <- wavelength_calibration (init (400, 700)%Z)
         [(0%Z, 400%float); (2%Z, 550%float); (4%Z, 700%float)] ;;
   apply_calibration (fst p) [1; 2; 3; 4; 5; 6]%float)
  = Ok ([400; 475; 550; 625; 700; 775]%float, [1; 2; 3; 4; 5; 6]%float).
Proof. vm_compute. reflexivity. Qed.

(** A map built from a single anchor yields NaN at every pixel. *)
Example apply_single_anchor :
  (p <- wavelength_calibration (init (400, 700)%Z) [(5%Z, 550%float)] ;;
   apply_calibration (fst p) [1; 2; 3]%float)
  = Ok ([nan; nan; nan]%float, [1; 2; 3]%float).
Proof. vm_compute. reflexivity. Qed.

(** Residuals of the least-squares line through five points. *)
Example baseline_line_residuals :
  result_values
    (baseline_correction (Qc_of_ints [1; 2; 4; 4; 5]%Z) "polynomial" 1)
  = [-1 # 5; -1 # 5; 4 # 5; -1 # 5; -1 # 5]%Q.
Proof. vm_compute. reflexivity. Qed.

(** Window 5, order 3: interior samples are the convolution with the
    Savitzky-Golay weights (-3, 12, 17, 12, -3)/35, e.g.
    (-3*1 + 12*2 + 17*3 + 12*9 - 3*5)/35 = 33/7. *)
Example smooth_window_5 :
  result_values
    (smooth_spectrum true (fun _ _ _ => [])
       (Qc_of_ints [1; 2; 3; 9; 5; 6; 7]%Z) 5)
  = [9 # 7; 6 # 7; 33 # 7; 45 # 7; 47 # 7; 34 # 7; 51 # 7]%Q.
Proof. vm_compute. reflexivity. Qed.

(** Median filter of width 3 on 0..60 (61 // 20 = 3): the zero padding
    shows at the last sample only. *)
Example rolling_minimum_61 :
  baseline_correction (map float_of_Z (arange 61)) "rolling_minimum" 3
  = Ok (repeat 0%float 60 ++ [1%float]).
Proof. vm_compute. reflexivity. Qed.

(* ================================================================== *)
(** * Further properties of the code *)

(** ** [extract_spectrum] *)

Section ExtractFacts.
Context {F : Type} {num : Numeric F}.

Lemma rectangular_row (im : @image F) (row : list F) :
  rectangular im = true -> In row (img_rows im) ->
  length row = img_width im.
Proof.
  unfold rectangular. rewrite forallb_forall. intros H Hin.
  apply Nat.eqb_eq. now apply H.
Qed.

Lemma center_row_exists (im : @image F) :
  (1 <= img_height im)%nat ->
  exists row, nth_error (img_rows im) (img_height im / 2) = Some row
              /\ In row (img_rows im).
Proof.
  intros Hh. unfold img_height in *.
  destruct (nth_error (img_rows im) (length (img_rows im) / 2)) as [row |]
    eqn:Hn.
  - exists row. split; [reflexivity |]. eapply nth_error_In. exact Hn.
  - apply nth_error_None in Hn.
    pose proof (Nat.div_lt (length (img_rows im)) 2 ltac:(lia) ltac:(lia)).
    lia.
Qed.

Lemma insert_sorted_perm (v : F) (l : list F) :
  Permutation (insert_sorted v l) (v :: l).
Proof.
  induction l as [| w l IH]; cbn [insert_sorted]; [reflexivity |].
  destruct (flt w v); [| reflexivity].
  rewrite IH. apply perm_swap.
Qed.

Lemma sort_values_perm (l : list F) : Permutation (sort_values l) l.
Proof.
  induction l as [| v l IH]; [reflexivity |].
  unfold sort_values in *. cbn [fold_right].
  rewrite insert_sorted_perm. now constructor.
Qed.

Lemma length_column (im : @image F) (j : nat) :
  length (column im j) = img_height im.
Proof. unfold column. apply length_map. Qed.

Lemma insert_sorted_repeat (v : F) (k : nat) :
  insert_sorted v (repeat v k) = repeat v (S k).
Proof.
  induction k as [| k IH]; [reflexivity |].
  cbn [repeat insert_sorted]. destruct (flt v v); [| reflexivity].
  rewrite IH. reflexivity.
Qed.

Lemma sort_values_repeat (v : F) (h : nat) :
  sort_values (repeat v h) = repeat v h.
Proof.
  induction h as [| h IH]; [reflexivity |].
  unfold sort_values in *. cbn [repeat fold_right]. rewrite IH.
  apply insert_sorted_repeat.
Qed.

Lemma nth_repeat_lt {A : Type} (v d : A) (h k : nat) :
  (k < h)%nat -> nth k (repeat v h) d = v.
Proof.
  revert k. induction h as [| h IH]; intros [| k] Hk; cbn; try lia; auto.
  apply IH. lia.
Qed.

Lemma column_repeat (row : list F) (h j : nat) :
  column {| img_width := length row; img_rows := repeat row h |} j
  = repeat (nth j row zero) h.
Proof. unfold column. cbn [img_rows]. apply map_repeat. Qed.

Lemma nth_sorted_in (l : list F) (k : nat) :
  (k < length l)%nat -> In (nth k (sort_values l) zero) l.
Proof.
  intros Hk. apply (Permutation_in _ (sort_values_perm l)).
  apply nth_In. now rewrite (Permutation_length (sort_values_perm l)).
Qed.

Lemma column_in (im : @image F) (j : nat) (v : F) :
  rectangular im = true -> (j < img_width im)%nat ->
  In v (column im j) ->
  exists row, In row (img_rows im) /\ In v row.
Proof.
  intros Hrect Hj Hv. unfold column in Hv.
  apply in_map_iff in Hv as (row & <- & Hrow).
  exists row. split; [exact Hrow |]. apply nth_In.
  now rewrite (rectangular_row im row Hrect Hrow).
Qed.

End ExtractFacts.

(** X1.  On a rectangular image [extract_spectrum] returns exactly when the
    method is one of "average", "median", "center_row" (and, for
    "center_row", the image has at least one row), and the spectrum then
    has one sample per column.  Any other method name raises [ValueError]
    with the name in the message; "center_row" on an image without rows
    raises [IndexError]. *)
Theorem extract_spectrum_outcome :
  forall (F : Type) (num : Numeric F) (im : image) (method : string),
    rectangular im = true ->
    match extract_spectrum im method with
    | Return spectrum =>
        length spectrum = img_width im /\
        (method = "average"%string \/ method = "median"%string \/
         (method = "center_row"%string /\ (1 <= img_height im)%nat))
    | Throw e =>
        (method <> "average"%string /\ method <> "median"%string /\
         method <> "center_row"%string /\
         e = Builtin (ValueError ("Unknown method: " ++ method))) \/
        (method = "center_row"%string /\ img_height im = 0%nat /\
         e = IndexError 0 0)
    end.
Proof.
  intros F num im method Hrect. unfold extract_spectrum.
  destruct (String.eqb_spec method "average") as [-> | Ha].
  { split; [now rewrite length_map, length_seq | now left]. }
  destruct (String.eqb_spec method "median") as [-> | Hm].
  { split; [now rewrite length_map, length_seq | right; now left]. }
  destruct (String.eqb_spec method "center_row") as [-> | Hc].
  - destruct (Nat.eq_dec (img_height im) 0) as [H0 | Hpos].
    + unfold img_height in *. apply length_zero_iff_nil in H0.
      rewrite H0. cbn. right. auto.
    + destruct (center_row_exists im ltac:(lia)) as (row & -> & Hin).
      split; [now apply rectangular_row |]. right. right. split; [reflexivity | lia].
  - left. auto.
Qed.

Lemma extract_spectrum_outcome_witness :
  match extract_spectrum
          {| img_width := 3;
             img_rows := [[1; 2; 3]; [3; 4; 9]; [5; 9; 6]]%float |}
          "center_row" with
  | Return spectrum =>
      length spectrum = 3%nat /\
      ("center_row" = "average" \/ "center_row" = "median" \/
       ("center_row" = "center_row" /\ (1 <= 3)%nat))%string
  | Throw e =>
      ("center_row" <> "average" /\ "center_row" <> "median" /\
       "center_row" <> "center_row" /\
       e = Builtin (ValueError ("Unknown method: " ++ "center_row")))%string
      \/ ("center_row"%string = "center_row"%string /\ 3%nat = 0%nat /\
          e = IndexError 0 0)
  end.
Proof.
  apply (extract_spectrum_outcome float float_numeric
           {| img_width := 3;
              img_rows := [[1; 2; 3]; [3; 4; 9]; [5; 9; 6]]%float |}
           "center_row").
  reflexivity.
Defined.

(** *** A frame that is uniform along the slit, in binary64 *)

(** The median of an odd number of copies of one value is that value, NaN
    included. *)
Lemma np_median_repeat_odd (v : float) (h : nat) :
  Nat.odd h = true -> np_median (repeat v h) = v.
Proof.
  intros Hodd. unfold np_median. cbv zeta.
  rewrite repeat_length, sort_values_repeat, Hodd.
  assert (Hh : (1 <= h)%nat) by (destruct h; [discriminate Hodd | lia]).
  destruct (existsb isnan (repeat v h)) eqn:Hnan.
  - apply existsb_exists in Hnan as (x & Hx & Hnan).
    apply repeat_spec in Hx. subst x.
    cbn [orb]. rewrite (float_isnan_nan v Hnan). reflexivity.
  - destruct (h =? 0)%nat eqn:H0; [apply Nat.eqb_eq in H0; lia |].
    cbn [orb]. apply nth_repeat_lt, Nat.div_lt; lia.
Qed.

(** X2.  A binary64 frame whose rows are all the same row (a sample that
    is uniform along the entrance slit) is reduced to that row by
    "center_row" for every height from 1 up, and by "median" for every odd
    height, sample by sample the same number (a NaN stays a NaN).  The
    "average" is not exact: three rows of 0.1 average to
    0.10000000000000002. *)
Theorem extract_spectrum_uniform_frame :
  (forall (row : list float) (h : nat),
     (1 <= h)%nat ->
     extract_spectrum {| img_width := length row; img_rows := repeat row h |}
                      "center_row"
     = Return row) /\
  (forall (row : list float) (h : nat),
     Nat.odd h = true ->
     exists spectrum,
       extract_spectrum
         {| img_width := length row; img_rows := repeat row h |} "median"
       = Return spectrum /\
       length spectrum = length row /\
       forall j, (j < length row)%nat ->
         nth j spectrum zero = nth j row zero \/
         feq (nth j spectrum zero) (nth j row zero) = true) /\
  extract_spectrum
    {| img_width := 1; img_rows := repeat [0x1.999999999999ap-4%float] 3 |}
    "average"
  = Return [0x1.999999999999bp-4%float].
Proof.
  split; [| split].
  - intros row h Hh. unfold extract_spectrum. cbn [img_width].
    cbn [String.eqb Ascii.eqb Bool.eqb].
    unfold img_height. cbn [img_rows]. rewrite repeat_length.
    assert (Hlt : (h / 2 < h)%nat) by (apply Nat.div_lt; lia).
    rewrite (nth_error_nth' _ row) by now rewrite repeat_length.
    now rewrite nth_repeat_lt.
  - intros row h Hodd. unfold extract_spectrum. cbn [img_width].
    cbn [String.eqb Ascii.eqb Bool.eqb].
    eexists. split; [reflexivity |].
    split; [now rewrite length_map, length_seq |].
    intros j Hj. left.
    rewrite (nth_indep _ zero (np_median (column
               {| img_width := length row; img_rows := repeat row h |} 0)))
      by (now rewrite length_map, length_seq).
    rewrite (map_nth (fun j => np_median (column
               {| img_width := length row; img_rows := repeat row h |} j))),
      seq_nth by exact Hj.
    rewrite column_repeat. cbn [Nat.add].
    now apply np_median_repeat_odd.
  - vm_compute. reflexivity.
Qed.

Lemma extract_spectrum_uniform_frame_witness :
  extract_spectrum
    {| img_width := length [7; 1; 3]%float;
       img_rows := repeat [7; 1; 3]%float 4 |} "center_row"
  = Return [7; 1; 3]%float /\
  exists spectrum,
    extract_spectrum
      {| img_width := length [7; 1; 3]%float;
         img_rows := repeat [7; 1; 3]%float 5 |} "median"
    = Return spectrum /\
    length spectrum = length [7; 1; 3]%float /\
    forall j, (j < length [7; 1; 3]%float)%nat ->
      nth j spectrum zero = nth j [7; 1; 3]%float zero \/
      feq (nth j spectrum zero) (nth j [7; 1; 3]%float zero) = true.
Proof.
  split.
  - apply (proj1 extract_spectrum_uniform_frame [7; 1; 3]%float 4%nat). lia.
  - apply (proj1 (proj2 extract_spectrum_uniform_frame)
             [7; 1; 3]%float 5%nat).
    reflexivity.
Defined.

(** *** Reduced samples stay within the range of the frame *)

(** The median of an odd number of binary64 values that lie between two
    bounds is one of them. *)
Lemma np_median_odd_bounds (lo hi : float) (l : list float) :
  Nat.odd (length l) = true ->
  (forall v, In v l -> fle lo v = true /\ fle v hi = true) ->
  fle lo (np_median l) = true /\ fle (np_median l) hi = true.
Proof.
  intros Hodd Hb. unfold np_median. cbv zeta. rewrite Hodd.
  assert (Hlen : (1 <= length l)%nat)
    by (destruct l; [discriminate Hodd | cbn [length]; lia]).
  destruct (existsb isnan l) eqn:Hnan.
  - apply existsb_exists in Hnan as (x & Hx & Hnan).
    destruct (Hb x Hx) as [Hlo _].
    destruct (float_nan_unordered lo x Hnan) as [Hno _]. congruence.
  - destruct (length l =? 0)%nat eqn:H0; [apply Nat.eqb_eq in H0; lia |].
    cbn [orb]. apply Hb, nth_sorted_in, Nat.div_lt; lia.
Qed.

(** X3.  With "center_row", and with "median" on an odd number of rows,
    the binary64 spectrum stays within the range of the frame: if all
    samples of a rectangular frame with at least one row lie between [lo]
    and [hi], so do all samples of the extracted spectrum.  The "average"
    does not keep the range: three rows of 0.1 average to a value above
    0.1. *)
Theorem extract_spectrum_within_range :
  (forall (im : @image float) (method : string) (lo hi : float),
     rectangular im = true -> (1 <= img_height im)%nat ->
     method = "center_row"%string \/
     (method = "median"%string /\ Nat.odd (img_height im) = true) ->
     (forall row v, In row (img_rows im) -> In v row ->
        fle lo v = true /\ fle v hi = true) ->
     exists spectrum,
       extract_spectrum im method = Return spectrum /\
       forall v, In v spectrum -> fle lo v = true /\ fle v hi = true) /\
  (exists v,
     extract_spectrum
       {| img_width := 1;
          img_rows := repeat [0x1.999999999999ap-4%float] 3 |} "average"
     = Return [v] /\
     fle v 0x1.999999999999ap-4%float = false).
Proof.
  split.
  - intros im method lo hi Hrect Hh Hm Hb.
    unfold extract_spectrum.
    destruct Hm as [-> | [-> Hodd]]; cbn [String.eqb Ascii.eqb Bool.eqb].
    + destruct (center_row_exists im Hh) as (row & -> & Hin).
      exists row. split; [reflexivity |]. intros v Hv. now apply (Hb row).
    + eexists. split; [reflexivity |]. intros v Hv.
      apply in_map_iff in Hv as (j & <- & Hj). apply in_seq in Hj.
      apply np_median_odd_bounds; [now rewrite length_column |].
      intros v Hv.
      destruct (column_in im j v Hrect ltac:(lia) Hv) as (row & Hr & Hvr).
      now apply (Hb row).
  - eexists. split; vm_compute; reflexivity.
Qed.

Lemma extract_spectrum_within_range_witness :
  exists spectrum,
    extract_spectrum
      {| img_width := 2;
         img_rows := [[10; 4000]; [30; 0]; [20; 7]]%float |}
      "median"%string = Return spectrum /\
    forall v, In v spectrum ->
      fle 0%float v = true /\ fle v 4095%float = true.
Proof.
  apply (proj1 extract_spectrum_within_range
           {| img_width := 2;
              img_rows := [[10; 4000]; [30; 0]; [20; 7]]%float |}
           "median"%string 0%float 4095%float).
  - reflexivity.
  - cbn. lia.
  - right. split; reflexivity.
  - intros row v Hrow Hv.
    cbn in Hrow. destruct Hrow as [<- | [<- | [<- | []]]];
      cbn in Hv; destruct Hv as [<- | [<- | []]];
      split; vm_compute; reflexivity.
Defined.

(** ** Comparison of binary64 values

    What peak detection needs of [<] and [==] on floats, read off the
    specification of the primitive comparisons. *)

Lemma SFcompare_Eq (a v : spec_float) :
  SFcompare a v = Some Eq ->
  a = v \/ exists s s', a = S754_zero s /\ v = S754_zero s'.
Proof.
  destruct a as [sa | sa | | sa ma ea], v as [sv | sv | | sv mv ev];
    cbn; try discriminate.
  - intros _. right. eauto.
  - destruct sv; discriminate.
  - destruct sv; discriminate.
  - destruct sa; discriminate.
  - destruct sa, sv; try discriminate; auto.
  - destruct sa; discriminate.
  - destruct sa; discriminate.
  - destruct sv; discriminate.
  - destruct sa, sv; try discriminate;
      destruct (ea ?= ev)%Z eqn:He; try discriminate;
      apply Z.compare_eq in He; subst ev;
      change (PosDef.Pos.compare_cont Eq ma mv) with (ma ?= mv)%positive;
      destruct (ma ?= mv)%positive eqn:Hm; try discriminate;
      apply Pos.compare_eq in Hm; subst mv; auto.
Qed.

Lemma SFcompare_zero_l (s s' : bool) (c : spec_float) :
  SFcompare (S754_zero s) c = SFcompare (S754_zero s') c.
Proof. now destruct c. Qed.

Lemma SFcompare_zero_r (s s' : bool) (c : spec_float) :
  SFcompare c (S754_zero s) = SFcompare c (S754_zero s').
Proof. now destruct c. Qed.

Lemma SFcompare_Eq_l (a v c : spec_float) :
  SFcompare a v = Some Eq -> SFcompare a c = SFcompare v c.
Proof.
  intros H. destruct (SFcompare_Eq a v H) as [-> | (s & s' & -> & ->)];
    [reflexivity | apply SFcompare_zero_l].
Qed.

Lemma SFcompare_Eq_r (a v c : spec_float) :
  SFcompare a v = Some Eq -> SFcompare c a = SFcompare c v.
Proof.
  intros H. destruct (SFcompare_Eq a v H) as [-> | (s & s' & -> & ->)];
    [reflexivity | apply SFcompare_zero_r].
Qed.

Lemma SFcompare_Lt_asym (a b : spec_float) :
  SFcompare a b = Some Lt -> SFcompare b a = Some Gt.
Proof.
  destruct a as [sa | sa | | sa ma ea], b as [sb | sb | | sb mb eb];
    cbn; try discriminate;
    try (destruct sa; try discriminate; reflexivity);
    try (destruct sb; try discriminate; reflexivity);
    try (destruct sa, sb; try discriminate; reflexivity).
  destruct sa, sb; try discriminate; try reflexivity;
    rewrite (Z.compare_antisym ea eb);
    change (PosDef.Pos.compare_cont Eq mb ma) with (mb ?= ma)%positive;
    change (PosDef.Pos.compare_cont Eq ma mb) with (ma ?= mb)%positive;
    rewrite (Pos.compare_antisym ma mb);
    destruct (ea ?= eb)%Z; cbn; try discriminate; try reflexivity;
    destruct (ma ?= mb)%positive; cbn; try discriminate; reflexivity.
Qed.

Lemma float_ltb_compare (a b : float) :
  PrimFloat.ltb a b = true <->
  SFcompare (Prim2SF a) (Prim2SF b) = Some Lt.
Proof.
  rewrite FloatAxioms.ltb_spec. unfold SFltb.
  destruct (SFcompare (Prim2SF a) (Prim2SF b)) as [[| |] |];
    split; intros H; try discriminate; reflexivity.
Qed.

Lemma float_eqb_compare (a b : float) :
  PrimFloat.eqb a b = true <->
  SFcompare (Prim2SF a) (Prim2SF b) = Some Eq.
Proof.
  rewrite FloatAxioms.eqb_spec. unfold SFeqb.
  destruct (SFcompare (Prim2SF a) (Prim2SF b)) as [[| |] |];
    split; intros H; try discriminate; reflexivity.
Qed.

Lemma float_ltb_false (a b : float) (c : comparison) :
  SFcompare (Prim2SF a) (Prim2SF b) = Some c -> c <> Lt ->
  PrimFloat.ltb a b = false.
Proof.
  intros H Hc. apply not_true_is_false. intros Hlt.
  apply float_ltb_compare in Hlt. congruence.
Qed.

(** [a == v] and [b == v] rule out [a < b]. *)
Lemma float_equal_not_less (a b v : float) :
  PrimFloat.eqb a v = true -> PrimFloat.eqb b v = true ->
  PrimFloat.ltb a b = false.
Proof.
  intros Ha Hb. apply float_eqb_compare in Ha, Hb.
  apply (float_ltb_false a b Eq); [| discriminate].
  rewrite (SFcompare_Eq_l _ _ _ Ha), (SFcompare_Eq_r _ _ _ Hb).
  destruct (SFcompare_Eq _ _ Hb) as [E | (s & s' & E1 & E2)].
  - rewrite E in Hb. exact Hb.
  - rewrite E2. reflexivity.
Qed.

(** [b == v] rules out [v < b]. *)
Lemma float_equal_not_less_l (b v : float) :
  PrimFloat.eqb b v = true -> PrimFloat.ltb v b = false.
Proof.
  intros Hb. apply float_eqb_compare in Hb.
  apply (float_ltb_false v b Eq); [| discriminate].
  rewrite (SFcompare_Eq_r _ _ _ Hb).
  destruct (SFcompare_Eq _ _ Hb) as [E | (s & s' & E1 & E2)].
  - rewrite E in Hb. exact Hb.
  - rewrite E2. reflexivity.
Qed.

(** [c < v] and [a == v] rule out [a < c]. *)
Lemma float_below_equal (a c v : float) :
  PrimFloat.ltb c v = true -> PrimFloat.eqb a v = true ->
  PrimFloat.ltb a c = false.
Proof.
  intros Hc Ha. apply float_ltb_compare in Hc. apply float_eqb_compare in Ha.
  apply (float_ltb_false a c Gt); [| discriminate].
  rewrite (SFcompare_Eq_l _ _ _ Ha). now apply SFcompare_Lt_asym.
Qed.

Lemma float_ltb_asym (a b : float) :
  PrimFloat.ltb a b = true -> PrimFloat.ltb b a = false.
Proof.
  intros H. apply float_ltb_compare in H.
  apply (float_ltb_false b a Gt); [| discriminate].
  now apply SFcompare_Lt_asym.
Qed.

Lemma float_ltb_irrefl (a : float) : PrimFloat.ltb a a = false.
Proof.
  destruct (PrimFloat.ltb a a) eqn:H; [| reflexivity].
  pose proof (float_ltb_asym a a H). congruence.
Qed.

Lemma SFcompare_refl_of_compared (a b : spec_float) (c : comparison) :
  SFcompare a b = Some c -> SFcompare b b = Some Eq.
Proof.
  destruct a as [sa | sa | | sa ma ea], b as [sb | sb | | sb mb eb];
    cbn; try discriminate; intros _; try reflexivity;
    try (destruct sb; reflexivity);
    destruct sb; rewrite Z.compare_refl;
    change (PosDef.Pos.compare_cont Eq mb mb) with (mb ?= mb)%positive;
    rewrite Pos.compare_refl; reflexivity.
Qed.

(** A value some value is below is equal to itself (it is not a NaN). *)
Lemma float_above_self_equal (a b : float) :
  PrimFloat.ltb a b = true -> PrimFloat.eqb b b = true.
Proof.
  intros H. apply float_ltb_compare in H. apply float_eqb_compare.
  eapply SFcompare_refl_of_compared. exact H.
Qed.

Lemma float_equal_both (a b v : float) :
  PrimFloat.eqb a v = true -> PrimFloat.eqb b v = true ->
  PrimFloat.eqb a b = true.
Proof.
  intros Ha Hb. apply float_eqb_compare in Ha, Hb. apply float_eqb_compare.
  rewrite (SFcompare_Eq_l _ _ _ Ha), (SFcompare_Eq_r _ _ _ Hb).
  eapply SFcompare_refl_of_compared. exact Hb.
Qed.

(** [c < v] and [a == v] give [c < a]. *)
Lemma float_below_equal_below (a c v : float) :
  PrimFloat.ltb c v = true -> PrimFloat.eqb a v = true ->
  PrimFloat.ltb c a = true.
Proof.
  intros Hc Ha. apply float_ltb_compare in Hc. apply float_eqb_compare in Ha.
  apply float_ltb_compare. now rewrite (SFcompare_Eq_r _ _ _ Ha).
Qed.

(** ** [find_peaks] *)

Section PeakCandidates.
Context {F : Type} {num : Numeric F}.

Lemma run_length_le (v : F) (l : list F) :
  (run_length v l <= length l)%nat.
Proof.
  induction l as [| a l IH]; cbn [run_length length]; [lia |].
  destruct (feq a v); lia.
Qed.

Lemma run_length_equal (v d : F) (l : list F) (k : nat) :
  (k < run_length v l)%nat -> feq (nth k l d) v = true.
Proof.
  revert k. induction l as [| a l IH]; intros k Hk; cbn [run_length] in Hk;
    [lia |].
  destruct (feq a v) eqn:Ha; [| lia].
  destruct k as [| k]; [exact Ha |]. cbn [nth]. apply IH. lia.
Qed.

Lemma plateau_stop_bounds (x : list F) (i : nat) :
  (i + 2 <= length x)%nat ->
  (i + 1 <= plateau_stop x i <= length x - 1)%nat.
Proof.
  intros Hi. unfold plateau_stop.
  pose proof (run_length_le (sample x i)
                (firstn (length x - 2 - i) (skipn (i + 1) x))) as H.
  rewrite length_firstn, length_skipn in H. lia.
Qed.

Lemma plateau_equal (x : list F) (i k : nat) :
  (i < k < plateau_stop x i)%nat ->
  feq (sample x k) (sample x i) = true.
Proof.
  intros Hk. unfold plateau_stop in Hk.
  set (m := (length x - 2 - i)%nat) in *.
  pose proof (run_length_le (sample x i) (firstn m (skipn (i + 1) x))) as Hm.
  rewrite length_firstn in Hm.
  pose proof (run_length_equal (sample x i) zero
                (firstn m (skipn (i + 1) x)) (k - (i + 1)) ltac:(lia)) as H.
  rewrite nth_firstn in H.
  destruct (k - (i + 1) <? m)%nat eqn:Hlt;
    [| apply Nat.ltb_ge in Hlt; lia].
  rewrite nth_skipn in H.
  replace (i + 1 + (k - (i + 1)))%nat with k in H by lia. exact H.
Qed.

(** Every candidate is the middle of a flat peak. *)
Lemma local_maxima_flat_peak (x : list F) (p : nat) :
  In p (local_maxima_1d x) ->
  exists l r, flat_peak x l r /\ p = ((l + r) / 2)%nat.
Proof.
  unfold local_maxima_1d. rewrite in_flat_map.
  intros (l & Hl & Hp). apply in_seq in Hl.
  destruct (flt (sample x (l - 1)) (sample x l)) eqn:Hrise; [| destruct Hp].
  destruct (flt (sample x (plateau_stop x l)) (sample x l)) eqn:Hfall;
    [| destruct Hp].
  destruct Hp as [<- | []].
  pose proof (plateau_stop_bounds x l ltac:(lia)) as Hstop.
  exists l, (plateau_stop x l - 1)%nat. split.
  - unfold flat_peak. repeat split; try lia.
    + exact Hrise.
    + intros k Hk. apply plateau_equal. lia.
    + replace (plateau_stop x l - 1 + 1)%nat with (plateau_stop x l) by lia.
      exact Hfall.
  - reflexivity.
Qed.

Lemma flat_peak_middle (x : list F) (l r : nat) :
  flat_peak x l r ->
  (l <= (l + r) / 2 <= r)%nat /\ (1 <= (l + r) / 2)%nat /\
  ((l + r) / 2 + 1 < length x)%nat.
Proof.
  intros ((Hl & Hlr) & Hr & _).
  pose proof (Nat.div_mod_eq (l + r) 2).
  pose proof (Nat.mod_upper_bound (l + r) 2 ltac:(lia)).
  lia.
Qed.

Lemma scipy_find_peaks_subset (x : list F) (prominence : F) (p : nat) :
  In p (fst (scipy_find_peaks x prominence)) -> In p (local_maxima_1d x).
Proof.
  unfold scipy_find_peaks. cbn [fst]. intros H.
  now apply filter_In in H.
Qed.

End PeakCandidates.

(** *** Ascending, interior, local maxima (binary64) *)

Lemma plateau_all_equal (x : list float) (l r k : nat) :
  flat_peak x l r -> (l <= k <= r)%nat ->
  PrimFloat.eqb (sample x k) (sample x l) = true.
Proof.
  intros (_ & _ & Hrise & Heq & _) Hk.
  destruct (Nat.eq_dec k l) as [-> | Hne].
  - eapply float_above_self_equal. exact Hrise.
  - apply Heq. lia.
Qed.

Lemma rising_edge_after_peak (x : list float) (l r l' : nat) :
  flat_peak x l r -> (l < l')%nat ->
  PrimFloat.ltb (sample x (l' - 1)) (sample x l') = true ->
  (r + 2 <= l')%nat.
Proof.
  intros Hpeak Hl Hrise.
  destruct (le_lt_dec (r + 2) l') as [H | H]; [exact H | exfalso].
  destruct (Nat.eq_dec l' (r + 1)) as [-> | Hne].
  - destruct Hpeak as (Hlr & Hr & Hr0 & Heq & Hfall).
    replace (r + 1 - 1)%nat with r in Hrise by lia.
    assert (Hrl : PrimFloat.eqb (sample x r) (sample x l) = true).
    { destruct (Nat.eq_dec r l) as [-> | Hr'];
        [eapply float_above_self_equal; exact Hr0 | apply Heq; lia]. }
    pose proof (float_below_equal _ _ _ Hfall Hrl) as Hno.
    cbn [flt float_numeric] in *. congruence.
  - pose proof (plateau_all_equal x l r (l' - 1) Hpeak ltac:(lia)) as E1.
    pose proof (plateau_all_equal x l r l' Hpeak ltac:(lia)) as E2.
    pose proof (float_equal_not_less _ _ _ E1 E2). congruence.
Qed.

Lemma StronglySorted_filter (f : nat -> bool) (l : list nat) :
  StronglySorted lt l -> StronglySorted lt (filter f l).
Proof.
  induction 1 as [| a l Hs IH Hall]; [constructor |].
  cbn [filter]. destruct (f a); [| exact IH].
  constructor; [exact IH |].
  apply Forall_forall. intros b Hb. apply filter_In in Hb as [Hb _].
  rewrite Forall_forall in Hall. now apply Hall.
Qed.

Lemma local_maxima_ascending (x : list float) :
  StronglySorted lt (local_maxima_1d x).
Proof.
  unfold local_maxima_1d.
  set (g := fun i : nat =>
              if flt (sample x (i - 1)) (sample x i)
              then let i_ahead := plateau_stop x i in
                   if flt (sample x i_ahead) (sample x i)
                   then [((i + (i_ahead - 1)) / 2)%nat] else []
              else []).
  assert (Hg : forall i a, In a (g i) ->
             (1 <= i)%nat -> (i + 2 <= length x)%nat ->
             flat_peak x i (plateau_stop x i - 1) /\
             a = ((i + (plateau_stop x i - 1)) / 2)%nat).
  { intros i a Ha H1 H2. subst g. cbv beta zeta in Ha.
    destruct (flt (sample x (i - 1)) (sample x i)) eqn:Hrise; [| destruct Ha].
    destruct (flt (sample x (plateau_stop x i)) (sample x i)) eqn:Hfall;
      [| destruct Ha].
    destruct Ha as [<- | []]. split; [| reflexivity].
    pose proof (plateau_stop_bounds x i H2) as Hstop.
    unfold flat_peak. repeat split; try lia.
    - exact Hrise.
    - intros k Hk. apply plateau_equal. lia.
    - replace (plateau_stop x i - 1 + 1)%nat with (plateau_stop x i) by lia.
      exact Hfall. }
  assert (Hsorted : forall n s, (1 <= s)%nat -> (s + n + 1 <= length x)%nat
                    \/ n = 0%nat ->
                    StronglySorted lt (flat_map g (seq s n))).
  { induction n as [| n IH]; intros s Hs Hn; [constructor |].
    destruct Hn as [Hn | Hn]; [| lia].
    cbn [seq flat_map].
    assert (IH' : StronglySorted lt (flat_map g (seq (S s) n)))
      by (apply IH; [lia | left; lia]).
    destruct (g s) as [| a rest] eqn:Hgs; [exact IH' |].
    assert (Hrest : rest = []).
    { subst g. cbv beta zeta in Hgs.
      destruct (flt (sample x (s - 1)) (sample x s)); [| discriminate].
      destruct (flt (sample x (plateau_stop x s)) (sample x s));
        [| discriminate].
      now injection Hgs as _ <-. }
    subst rest. cbn [app]. constructor; [exact IH' |].
    destruct (Hg s a ltac:(rewrite Hgs; now left) Hs ltac:(lia))
      as [Hpeak ->].
    apply Forall_forall. intros b Hb.
    apply in_flat_map in Hb as (j & Hj & Hbj). apply in_seq in Hj.
    destruct (Hg j b Hbj ltac:(lia) ltac:(lia)) as [Hpeakj ->].
    assert (Hrise : PrimFloat.ltb (sample x (j - 1)) (sample x j) = true)
      by (destruct Hpeakj as (_ & _ & H & _); exact H).
    pose proof (rising_edge_after_peak x s _ j Hpeak ltac:(lia) Hrise).
    destruct (flat_peak_middle x _ _ Hpeak) as [[_ Hup] _].
    destruct (flat_peak_middle x _ _ Hpeakj) as [[Hlo _] _].
    lia. }
  destruct (le_lt_dec (length x) 2) as [Hshort | Hlong].
  - replace (length x - 2)%nat with 0%nat by lia. constructor.
  - apply Hsorted; [lia | left; lia].
Qed.

(** *** What [find_peaks] returns *)

Section PeakLookup.
Context {F : Type} {num : Numeric F}.

Lemma fancy_index_find (a : list F) (ind : list nat) :
  fancy_index a ind =
  match find (fun i => (length a <=? i)%nat) ind with
  | Some i => Throw (IndexError (Z.of_nat i) (Z.of_nat (length a)))
  | None => Return (map (sample a) ind)
  end.
Proof.
  induction ind as [| i ind IH]; [reflexivity |].
  cbn [fancy_index find map].
  destruct (nth_error a i) as [v |] eqn:Hv.
  - assert (Hi : (i < length a)%nat)
      by (apply nth_error_Some; congruence).
    destruct (length a <=? i)%nat eqn:Hle;
      [apply Nat.leb_le in Hle; lia |].
    rewrite IH.
    destruct (find (fun i0 => (length a <=? i0)%nat) ind); [reflexivity |].
    cbn [obind]. do 2 f_equal. symmetry. unfold sample.
    now apply nth_error_nth.
  - apply nth_error_None in Hv.
    destruct (length a <=? i)%nat eqn:Hle; [reflexivity |].
    apply Nat.leb_gt in Hle. lia.
Qed.

Lemma fancy_index_in_range (a : list F) (ind : list nat) :
  (forall i, In i ind -> (i < length a)%nat) ->
  fancy_index a ind = Return (map (sample a) ind).
Proof.
  intros Hin. rewrite fancy_index_find.
  destruct (find (fun i => (length a <=? i)%nat) ind) as [i |] eqn:Hf;
    [| reflexivity].
  apply find_some in Hf as [Hi Hle]. apply Nat.leb_le in Hle.
  specialize (Hin i Hi). lia.
Qed.

Lemma peaks_inside (x : list F) (prominence : F) (p : nat) :
  In p (fst (scipy_find_peaks x prominence)) ->
  (1 <= p)%nat /\ (p + 1 < length x)%nat.
Proof.
  intros Hp. apply scipy_find_peaks_subset in Hp.
  apply local_maxima_flat_peak in Hp as (l & r & Hpeak & ->).
  apply (flat_peak_middle x l r Hpeak).
Qed.

End PeakLookup.

Lemma find_peaks_cases {F : Type} {num : Numeric F}
    (wavelengths spectrum : list F) (prominence : F) :
  find_peaks wavelengths spectrum prominence =
  match find (fun i => (length wavelengths <=? i)%nat)
             (fst (scipy_find_peaks spectrum prominence)) with
  | Some i =>
      Throw (IndexError (Z.of_nat i) (Z.of_nat (length wavelengths)))
  | None =>
      Return (map (sample wavelengths)
                  (fst (scipy_find_peaks spectrum prominence)),
              map (sample spectrum)
                  (fst (scipy_find_peaks spectrum prominence)),
              snd (scipy_find_peaks spectrum prominence))
  end.
Proof.
  assert (Hs : fancy_index spectrum (fst (scipy_find_peaks spectrum prominence))
               = Return (map (sample spectrum)
                           (fst (scipy_find_peaks spectrum prominence)))).
  { apply fancy_index_in_range. intros i Hi.
    apply peaks_inside in Hi. lia. }
  unfold find_peaks.
  destruct (scipy_find_peaks spectrum prominence) as [peaks props] eqn:E.
  cbn [fst snd] in *.
  rewrite fancy_index_find.
  destruct (find (fun i => (length wavelengths <=? i)%nat) peaks);
    [reflexivity |].
  cbn [obind]. rewrite Hs. reflexivity.
Qed.

(** X4.  [find_peaks], whatever the arithmetic: the intensities are always
    found; the call raises [IndexError] exactly when a kept peak index lies
    beyond the wavelength array, and otherwise returns the wavelengths and
    the intensities at the kept indices together with the library's
    properties. *)
Theorem find_peaks_outcome {F : Type} {num : Numeric F}
    (wavelengths spectrum : list F) (prominence : F) :
  let peak_indices := fst (scipy_find_peaks spectrum prominence) in
  fancy_index spectrum peak_indices
  = Return (map (sample spectrum) peak_indices) /\
  find_peaks wavelengths spectrum prominence =
  match find (fun i => (length wavelengths <=? i)%nat) peak_indices with
  | Some i =>
      Throw (IndexError (Z.of_nat i) (Z.of_nat (length wavelengths)))
  | None =>
      Return (map (sample wavelengths) peak_indices,
              map (sample spectrum) peak_indices,
              snd (scipy_find_peaks spectrum prominence))
  end.
Proof.
  intros peak_indices. split.
  - apply fancy_index_in_range. intros i Hi.
    apply peaks_inside in Hi. lia.
  - apply find_peaks_cases.
Qed.

(** X5.  [find_peaks] on binary64 data: the reported peaks come in ascending
    order of position; each lies strictly inside the spectrum, on a run of
    equal samples whose two outer neighbours are strictly lower, at the
    middle of that run; no neighbour of a reported sample is higher than
    it. *)
Theorem find_peaks_ascending_local_maxima
    (wavelengths spectrum : list float) (prominence : float)
    (peak_wavelengths peak_intensities : list float)
    (properties : peak_properties) :
  find_peaks wavelengths spectrum prominence
  = Return (peak_wavelengths, peak_intensities, properties) ->
  exists peak_indices : list nat,
    StronglySorted lt peak_indices /\
    peak_wavelengths = map (sample wavelengths) peak_indices /\
    peak_intensities = map (sample spectrum) peak_indices /\
    length (prominences properties) = length peak_indices /\
    forall p, In p peak_indices ->
      (1 <= p)%nat /\ (p + 1 < length spectrum)%nat /\
      (p < length wavelengths)%nat /\
      fle (sample spectrum (p - 1)) (sample spectrum p) = true /\
      fle (sample spectrum (p + 1)) (sample spectrum p) = true /\
      exists l r, (l <= p <= r)%nat /\ flat_peak spectrum l r /\
                  p = ((l + r) / 2)%nat.
Proof.
  intros Hcall.
  pose proof (find_peaks_cases wavelengths spectrum prominence) as Hout.
  rewrite Hcall in Hout.
  set (peaks := fst (scipy_find_peaks spectrum prominence)) in *.
  destruct (find (fun i => (length wavelengths <=? i)%nat) peaks)
    as [i |] eqn:Hfind; [discriminate |].
  injection Hout as -> -> ->.
  exists peaks. split; [| split; [reflexivity | split; [reflexivity | split]]].
  - subst peaks. unfold scipy_find_peaks. cbn [fst].
    apply StronglySorted_filter, local_maxima_ascending.
  - subst peaks. unfold scipy_find_peaks.
    cbn [fst snd prominences]. now rewrite length_map.
  - intros p Hp.
    pose proof (peaks_inside spectrum prominence p Hp) as [H1 H2].
    assert (Hw : (p < length wavelengths)%nat).
    { pose proof (find_none _ _ Hfind p Hp) as Hn. cbv beta in Hn.
      now apply Nat.leb_gt in Hn. }
    apply scipy_find_peaks_subset in Hp.
    apply local_maxima_flat_peak in Hp as (l & r & Hpeak & ->).
    destruct (flat_peak_middle spectrum l r Hpeak) as [Hmid _].
    set (p := ((l + r) / 2)%nat) in *.
    pose proof (plateau_all_equal spectrum l r p Hpeak Hmid) as Ep.
    repeat split; try lia.
    + unfold fle. apply orb_true_iff.
      destruct (Nat.eq_dec p l) as [E | Hne].
      * left. rewrite E. now destruct Hpeak as (_ & _ & H & _).
      * right.
        pose proof (plateau_all_equal spectrum l r (p - 1) Hpeak
                      ltac:(lia)) as Eq.
        exact (float_equal_both _ _ _ Eq Ep).
    + unfold fle. apply orb_true_iff.
      destruct (Nat.eq_dec p r) as [E | Hne].
      * left. rewrite E at 1.
        destruct Hpeak as (_ & _ & _ & _ & Hfall).
        exact (float_below_equal_below _ _ _ Hfall Ep).
      * right.
        pose proof (plateau_all_equal spectrum l r (p + 1) Hpeak
                      ltac:(lia)) as Eq.
        exact (float_equal_both _ _ _ Eq Ep).
    + exists l, r. split; [lia | split; [exact Hpeak | reflexivity]].
Qed.

Lemma find_peaks_ascending_local_maxima_witness :
  exists peak_indices : list nat,
    StronglySorted lt peak_indices /\
    [101; 103]%float = map (sample [100; 101; 102; 103; 104]%float)
                           peak_indices /\
    [2; 3]%float = map (sample [0; 2; 1; 3; 0]%float) peak_indices /\
    length (prominences
              {| prominences := [1; 3]%float;
                 left_bases := [0; 0]%nat;
                 right_bases := [2; 4]%nat |}) = length peak_indices /\
    forall p, In p peak_indices ->
      (1 <= p)%nat /\ (p + 1 < 5)%nat /\ (p < 5)%nat /\
      fle (sample [0; 2; 1; 3; 0]%float (p - 1))
          (sample [0; 2; 1; 3; 0]%float p) = true /\
      fle (sample [0; 2; 1; 3; 0]%float (p + 1))
          (sample [0; 2; 1; 3; 0]%float p) = true /\
      exists l r, (l <= p <= r)%nat /\
                  flat_peak [0; 2; 1; 3; 0]%float l r /\
                  p = ((l + r) / 2)%nat.
Proof.
  apply (find_peaks_ascending_local_maxima
           [100; 101; 102; 103; 104]%float [0; 2; 1; 3; 0]%float 1%float).
  vm_compute. reflexivity.
Defined.

(** X6.  A binary64 spectrum that never rises from one sample to the next, or
    never falls, has no peaks: [find_peaks] returns empty arrays, however
    short the wavelength array is. *)
Theorem find_peaks_monotone_spectrum
    (wavelengths spectrum : list float) (prominence : float) :
  (forall k, (k + 1 < length spectrum)%nat ->
     flt (sample spectrum k) (sample spectrum (k + 1)) = false) \/
  (forall k, (k + 1 < length spectrum)%nat ->
     flt (sample spectrum (k + 1)) (sample spectrum k) = false) ->
  find_peaks wavelengths spectrum prominence
  = Return ([], [], {| prominences := []; left_bases := [];
                       right_bases := [] |}).
Proof.
  intros Hmono.
  assert (Hnone : local_maxima_1d spectrum = []).
  { destruct (local_maxima_1d spectrum) as [| p rest] eqn:E; [reflexivity |].
    exfalso.
    assert (Hp : In p (local_maxima_1d spectrum)) by (rewrite E; now left).
    apply local_maxima_flat_peak in Hp as (l & r & Hpeak & _).
    pose proof Hpeak as (Hlr & Hr & Hrise & _ & Hfall).
    destruct Hmono as [Hflat | Hflat].
    - specialize (Hflat (l - 1)%nat ltac:(lia)).
      replace (l - 1 + 1)%nat with l in Hflat by lia. congruence.
    - specialize (Hflat r ltac:(lia)).
      pose proof (plateau_all_equal spectrum l r r Hpeak ltac:(lia)) as Er.
      pose proof (float_below_equal_below _ _ _ Hfall Er) as Hlt.
      cbn [flt float_numeric] in Hflat. congruence. }
  unfold find_peaks, scipy_find_peaks. rewrite Hnone. reflexivity.
Qed.

Lemma find_peaks_monotone_spectrum_witness :
  find_peaks (F := float) [] [1; 2; 2; 5]%float 0%float
  = Return ([], [], {| prominences := []; left_bases := [];
                       right_bases := [] |}).
Proof.
  apply find_peaks_monotone_spectrum. right.
  intros [| [| [| k]]] Hk; try reflexivity.
  cbn [length] in Hk. lia.
Defined.

(** *** Bases and prominences (exact arithmetic) *)

Section BaseWalk.
Context {F : Type} {num : Numeric F}.

Lemma combine_seq_samples (x : list F) (s : nat) :
  combine (seq s (length x)) x
  = map (fun i => (i, nth (i - s) x zero)) (seq s (length x)).
Proof.
  revert s. induction x as [| a x IH]; intros s; [reflexivity |].
  cbn [length seq combine map]. rewrite Nat.sub_diag. cbn [nth].
  f_equal. rewrite IH. apply map_ext_in. intros i Hi. apply in_seq in Hi.
  replace (i - s)%nat with (S (i - S s)) by lia. reflexivity.
Qed.

Lemma indexed_samples (x : list F) :
  indexed x = map (fun i => (i, sample x i)) (seq 0 (length x)).
Proof.
  unfold indexed. rewrite combine_seq_samples. apply map_ext.
  intros i. now rewrite Nat.sub_0_r.
Qed.

Lemma left_side_samples (x : list F) (p : nat) :
  (p <= length x)%nat ->
  rev (firstn p (indexed x))
  = map (fun i => (i, sample x i)) (rev (seq 0 p)).
Proof.
  intros Hp. rewrite indexed_samples, firstn_map, firstn_seq_le, map_rev
    by exact Hp.
  reflexivity.
Qed.

Lemma right_side_samples (x : list F) (p : nat) :
  skipn (p + 1) (indexed x)
  = map (fun i => (i, sample x i)) (seq (p + 1) (length x - (p + 1))).
Proof.
  rewrite indexed_samples, skipn_map, skipn_seq. reflexivity.
Qed.

(** The walk returns a sample of [x] with its index, taken from the start
    or from the side walked. *)
Lemma descend_consistent (x : list F) (pv : F) (idx : list nat) :
  forall best,
    snd best = sample x (fst best) ->
    let b := descend pv (map (fun i => (i, sample x i)) idx) best in
    snd b = sample x (fst b) /\ (fst b = fst best \/ In (fst b) idx).
Proof.
  induction idx as [| i idx IH]; intros best Hbest; cbn [map descend].
  - split; [exact Hbest | now left].
  - destruct (fle (sample x i) pv); [| split; [exact Hbest | now left]].
    destruct (flt (sample x i) (snd best)).
    + destruct (IH (i, sample x i) eq_refl) as [H1 H2].
      split; [exact H1 |]. right. cbn [fst] in H2.
      destruct H2 as [-> | H2]; [now left | now right].
    + destruct (IH best Hbest) as [H1 H2].
      split; [exact H1 |]. destruct H2 as [H2 | H2];
        [now left | right; now right].
Qed.

End BaseWalk.

Lemma Qc_fle_le (a b : Qc) : fle a b = true <-> (a <= b)%Qc.
Proof.
  unfold fle. qc_ops. rewrite orb_true_iff, Qc_ltb_lt, Qc_eq_bool_eq.
  split.
  - intros [H | ->]; [now apply Qclt_le_weak | apply Qcle_refl].
  - apply Qcle_lt_or_eq.
Qed.

Lemma descend_le (pv : Qc) (side : list (nat * Qc)) :
  forall best, (snd (descend pv side best) <= snd best)%Qc.
Proof.
  induction side as [| [i v] side IH]; intros best; cbn [descend].
  - apply Qcle_refl.
  - destruct (fle v pv); [| apply Qcle_refl].
    destruct (flt v (snd best)) eqn:Hlt; [| apply IH].
    cbn [flt Qc_numeric] in Hlt. apply Qc_ltb_lt in Hlt.
    eapply Qcle_trans; [apply IH |]. cbn [snd]. now apply Qclt_le_weak.
Qed.

(** A sample reached over samples that are not above the peak bounds the
    base from above. *)
Lemma descend_reach (x : list Qc) (pv : Qc) (pre : list nat) (i : nat)
    (post : list nat) :
  forall best,
    (forall j, In j pre -> (sample x j <= pv)%Qc) ->
    (sample x i <= pv)%Qc ->
    (snd (descend pv (map (fun k => (k, sample x k)) (pre ++ i :: post))
            best) <= sample x i)%Qc.
Proof.
  induction pre as [| j pre IH]; intros best Hpre Hi.
  - cbn [app map descend].
    destruct (fle (sample x i) pv) eqn:Hle;
      [| apply Qc_fle_le in Hi; congruence].
    destruct (flt (sample x i) (snd best)) eqn:Hlt.
    + eapply Qcle_trans; [apply descend_le |]. apply Qcle_refl.
    + cbn [flt Qc_numeric] in Hlt. apply Qc_ltb_ge in Hlt.
      eapply Qcle_trans; [apply descend_le | exact Hlt].
  - cbn [app map descend].
    destruct (fle (sample x j) pv) eqn:Hle.
    + apply IH; [| exact Hi]. intros k Hk. apply Hpre. now right.
    + pose proof (Hpre j (or_introl eq_refl)) as Hj.
      apply Qc_fle_le in Hj. congruence.
Qed.

Lemma flat_peak_level (x : list Qc) (l r k : nat) :
  flat_peak x l r -> (l <= k <= r)%nat -> sample x k = sample x l.
Proof.
  intros (_ & _ & _ & Heq & _) Hk.
  destruct (Nat.eq_dec k l) as [-> | Hne]; [reflexivity |].
  specialize (Heq k ltac:(lia)). cbn [feq Qc_numeric] in Heq.
  now apply Qc_eq_bool_eq.
Qed.

(** Both bases of a candidate lie strictly below it, one on each side. *)
Lemma candidate_bases (x : list Qc) (l r p : nat) :
  flat_peak x l r -> (l <= p <= r)%nat ->
  (fst (left_base x p) < p)%nat /\
  snd (left_base x p) = sample x (fst (left_base x p)) /\
  (snd (left_base x p) < sample x p)%Qc /\
  (p < fst (right_base x p) < length x)%nat /\
  snd (right_base x p) = sample x (fst (right_base x p)) /\
  (snd (right_base x p) < sample x p)%Qc.
Proof.
  intros Hpeak Hp.
  pose proof Hpeak as (Hlr & Hr & Hrise & _ & Hfall).
  cbn [flt Qc_numeric] in Hrise, Hfall.
  apply Qc_ltb_lt in Hrise, Hfall.
  pose proof (flat_peak_level x l r p Hpeak Hp) as Elevel.
  assert (Hflat : forall j, (l <= j <= r)%nat -> (sample x j <= sample x p)%Qc).
  { intros j Hj. rewrite (flat_peak_level x l r j Hpeak Hj), Elevel.
    apply Qcle_refl. }
  (* left *)
  assert (Hleft : (snd (left_base x p) < sample x p)%Qc).
  { unfold left_base. rewrite left_side_samples by lia.
    assert (Hs : seq 0 p = seq 0 (l - 1) ++ (l - 1)%nat :: seq l (p - l)).
    { replace (seq 0 p) with (seq 0 ((l - 1) + S (p - l)))
        by (f_equal; lia).
      rewrite seq_app. cbn [seq Nat.add].
      now replace (S (l - 1)) with l by lia. }
    rewrite Hs, rev_app_distr. cbn [rev]. rewrite <- app_assoc.
    cbn [app].
    eapply Qcle_lt_trans.
    - apply descend_reach.
      + intros j Hj. apply in_rev, in_seq in Hj. apply Hflat. lia.
      + rewrite Elevel. now apply Qclt_le_weak.
    - now rewrite Elevel. }
  assert (Hright : (snd (right_base x p) < sample x p)%Qc).
  { unfold right_base. rewrite right_side_samples.
    assert (Hs : seq (p + 1) (length x - (p + 1))
                 = seq (p + 1) (r - p)
                   ++ (r + 1)%nat :: seq (r + 2) (length x - (r + 2))).
    { replace (length x - (p + 1))%nat
        with ((r - p) + S (length x - (r + 2)))%nat by lia.
      rewrite seq_app. cbn [seq].
      replace (p + 1 + (r - p))%nat with (r + 1)%nat by lia.
      now replace (S (r + 1)) with (r + 2)%nat by lia. }
    rewrite Hs.
    eapply Qcle_lt_trans.
    - apply descend_reach.
      + intros j Hj. apply in_seq in Hj. apply Hflat. lia.
      + rewrite Elevel. now apply Qclt_le_weak.
    - now rewrite Elevel. }
  pose proof (descend_consistent x (sample x p) (rev (seq 0 p))
                (p, sample x p) eq_refl) as [Hl1 Hl2].
  rewrite <- left_side_samples in Hl1, Hl2 by lia.
  fold (left_base x p) in Hl1, Hl2.
  pose proof (descend_consistent x (sample x p)
                (seq (p + 1) (length x - (p + 1)))
                (p, sample x p) eq_refl) as [Hr1 Hr2].
  rewrite <- right_side_samples in Hr1, Hr2.
  fold (right_base x p) in Hr1, Hr2.
  cbn [fst] in Hl2, Hr2.
  repeat split; try assumption.
  - destruct Hl2 as [E | Hin].
    + rewrite Hl1, E in Hleft. now apply Qclt_not_eq in Hleft.
    + apply in_rev, in_seq in Hin. lia.
  - destruct Hr2 as [E | Hin].
    + rewrite Hr1, E in Hright. now apply Qclt_not_eq in Hright.
    + apply in_seq in Hin. lia.
  - destruct Hr2 as [E | Hin].
    + rewrite Hr1, E in Hright. now apply Qclt_not_eq in Hright.
    + apply in_seq in Hin. lia.
Qed.

(** X7.  [find_peaks] in exact arithmetic: every reported peak comes with a
    left base before it and a right base after it, both strictly lower
    than the peak; its prominence is its height above the higher of the
    two bases, is positive, and is at least the requested prominence. *)
Theorem find_peaks_prominences
    (wavelengths spectrum : list Qc) (prominence : Qc)
    (peak_wavelengths peak_intensities : list Qc)
    (properties : peak_properties) :
  find_peaks wavelengths spectrum prominence
  = Return (peak_wavelengths, peak_intensities, properties) ->
  exists peak_indices : list nat,
    peak_intensities = map (sample spectrum) peak_indices /\
    length (prominences properties) = length peak_indices /\
    length (left_bases properties) = length peak_indices /\
    length (right_bases properties) = length peak_indices /\
    forall k, (k < length peak_indices)%nat ->
      let p := nth k peak_indices 0%nat in
      let lb := nth k (left_bases properties) 0%nat in
      let rb := nth k (right_bases properties) 0%nat in
      let drop := nth k (prominences properties) 0%Qc in
      (lb < p < rb)%nat /\ (rb < length spectrum)%nat /\
      (sample spectrum lb < sample spectrum p)%Qc /\
      (sample spectrum rb < sample spectrum p)%Qc /\
      (drop = sample spectrum p - sample spectrum lb \/
       drop = sample spectrum p - sample spectrum rb) /\
      (drop <= sample spectrum p - sample spectrum lb)%Qc /\
      (drop <= sample spectrum p - sample spectrum rb)%Qc /\
      (0 < drop)%Qc /\ (prominence <= drop)%Qc.
Proof.
  intros Hcall.
  pose proof (find_peaks_cases wavelengths spectrum prominence) as Hout.
  rewrite Hcall in Hout.
  set (peaks := fst (scipy_find_peaks spectrum prominence)) in *.
  destruct (find (fun i => (length wavelengths <=? i)%nat) peaks);
    [discriminate |].
  assert (Hi : peak_intensities = map (sample spectrum) peaks)
    by congruence.
  assert (Hprops : properties = snd (scipy_find_peaks spectrum prominence))
    by congruence.
  clear Hout Hcall. subst peak_intensities properties.
  exists peaks.
  assert (Ep : prominences (snd (scipy_find_peaks spectrum prominence))
               = map (peak_prominence spectrum) peaks) by reflexivity.
  assert (El : left_bases (snd (scipy_find_peaks spectrum prominence))
               = map (fun peak => fst (left_base spectrum peak)) peaks)
    by reflexivity.
  assert (Er : right_bases (snd (scipy_find_peaks spectrum prominence))
               = map (fun peak => fst (right_base spectrum peak)) peaks)
    by reflexivity.
  rewrite Ep, El, Er, !length_map.
  split; [reflexivity | split; [reflexivity | split; [reflexivity |
    split; [reflexivity |]]]].
  intros k Hk. cbv zeta.
  rewrite (nth_indep _ 0%Qc (peak_prominence spectrum 0%nat))
    by now rewrite length_map.
  rewrite (nth_indep (map (fun peak => fst (left_base spectrum peak)) _)
             0%nat (fst (left_base spectrum 0%nat)))
    by now rewrite length_map.
  rewrite (nth_indep (map (fun peak => fst (right_base spectrum peak)) _)
             0%nat (fst (right_base spectrum 0%nat)))
    by now rewrite length_map.
  rewrite (map_nth (peak_prominence spectrum)),
          (map_nth (fun peak => fst (left_base spectrum peak))),
          (map_nth (fun peak => fst (right_base spectrum peak))).
  assert (Hin : In (nth k peaks 0%nat) peaks) by (apply nth_In; exact Hk).
  generalize dependent (nth k peaks 0%nat). intros p Hin.
  unfold peaks, scipy_find_peaks in Hin. cbn [fst] in Hin.
  apply filter_In in Hin as [Hcand Hkeep].
  apply Qc_fle_le in Hkeep.
  apply local_maxima_flat_peak in Hcand as (l & r & Hpeak & Hmid).
  destruct (flat_peak_middle spectrum l r Hpeak) as [Hlr _].
  rewrite <- Hmid in Hlr.
  destruct (candidate_bases spectrum l r p Hpeak Hlr)
    as (Hl1 & Hl2 & Hl3 & Hr1 & Hr2 & Hr3).
  rewrite <- Hl2, <- Hr2.
  unfold peak_prominence in *. cbn [flt fsub Qc_numeric] in Hkeep |- *.
  set (lm := snd (left_base spectrum p)) in *.
  set (rm := snd (right_base spectrum p)) in *.
  set (h := sample spectrum p) in *.
  destruct (Qc_ltb lm rm) eqn:Hcmp.
  - apply Qc_ltb_lt in Hcmp.
    repeat split; try lia; try assumption.
    + now right.
    + unfold Qcminus. apply Qcplus_le_compat; [apply Qcle_refl |].
      apply Qcopp_le_compat. now apply Qclt_le_weak.
    + apply Qcle_refl.
    + exact (proj1 (Qclt_minus_iff rm h) Hr3).
  - apply Qc_ltb_ge in Hcmp.
    repeat split; try lia; try assumption.
    + now left.
    + apply Qcle_refl.
    + unfold Qcminus. apply Qcplus_le_compat; [apply Qcle_refl |].
      now apply Qcopp_le_compat.
    + exact (proj1 (Qclt_minus_iff lm h) Hl3).
Qed.

Lemma find_peaks_prominences_witness :
  let spectrum := Qc_of_ints [0; 2; 1; 3; 0]%Z in
  let properties :=
    {| prominences := Qc_of_ints [1; 3]%Z;
       left_bases := [0; 0]%nat;
       right_bases := [2; 4]%nat |} in
  exists peak_indices : list nat,
    Qc_of_ints [2; 3]%Z = map (sample spectrum) peak_indices /\
    length (prominences properties) = length peak_indices /\
    length (left_bases properties) = length peak_indices /\
    length (right_bases properties) = length peak_indices /\
    forall k, (k < length peak_indices)%nat ->
      let p := nth k peak_indices 0%nat in
      let lb := nth k (left_bases properties) 0%nat in
      let rb := nth k (right_bases properties) 0%nat in
      let drop := nth k (prominences properties) 0%Qc in
      (lb < p < rb)%nat /\ (rb < length spectrum)%nat /\
      (sample spectrum lb < sample spectrum p)%Qc /\
      (sample spectrum rb < sample spectrum p)%Qc /\
      (drop = sample spectrum p - sample spectrum lb \/
       drop = sample spectrum p - sample spectrum rb) /\
      (drop <= sample spectrum p - sample spectrum lb)%Qc /\
      (drop <= sample spectrum p - sample spectrum rb)%Qc /\
      (0 < drop)%Qc /\ (Q2Qc (inject_Z 1) <= drop)%Qc.
Proof.
  intros spectrum properties.
  apply (find_peaks_prominences
           (Qc_of_ints [100; 101; 102; 103; 104]%Z) spectrum
           (Q2Qc (inject_Z 1)) (Qc_of_ints [101; 103]%Z)).
  vm_compute. reflexivity.
Defined.

(** ** The rolling-minimum baseline on short spectra *)

Lemma vsub_self {F : Type} {num : Numeric F} (v : list F) :
  vsub v v = map (fun a => fsub a a) v.
Proof.
  induction v as [| a v IH]; [reflexivity |].
  cbn [vsub zip_with map]. fold (vsub v v). now rewrite IH.
Qed.

Lemma order_filter_single {F : Type} {num : Numeric F} (volume : list F) :
  order_filter volume 1 0 = volume.
Proof.
  unfold order_filter.
  transitivity (map (fun i => nth i volume zero) (seq 0 (length volume)));
    [| apply map_nth_seq].
  apply map_ext_in. intros i Hi. apply in_seq in Hi.
  unfold window_at. cbn [seq map Nat.div Nat.divmod fst Z.of_nat].
  rewrite Z.sub_0_r, Z.add_0_r.
  destruct (Z.of_nat i <? 0)%Z eqn:H1; [apply Z.ltb_lt in H1; lia |].
  destruct (Z.of_nat (length volume) <=? Z.of_nat i)%Z eqn:H2;
    [apply Z.leb_le in H2; lia |].
  cbn [orb sort_values fold_right insert_sorted nth].
  now rewrite Nat2Z.id.
Qed.

Lemma vsub_diag (y : list Qc) : vsub y y = repeat 0%Qc (length y).
Proof.
  induction y as [| a y IH]; [reflexivity |].
  cbn [vsub zip_with length repeat]. fold (vsub y y). rewrite IH.
  f_equal. qc_ops. ring.
Qed.

(** X10.  [baseline_correction], method 'rolling_minimum', on a spectrum of 20
    to 39 samples: the window is 1, the filtered baseline is the spectrum
    itself, and every corrected sample is the sample minus itself: zero in
    exact arithmetic, whatever the spectrum was. *)
Theorem rolling_minimum_short_spectrum :
  (forall (F : Type) (num : Numeric F) (spectrum : list F) (degree : Z),
     (20 <= length spectrum < 40)%nat ->
     baseline_correction spectrum "rolling_minimum" degree
     = Ok (map (fun v => fsub v v) spectrum)) /\
  (forall (spectrum : list Qc) (degree : Z),
     (20 <= length spectrum < 40)%nat ->
     baseline_correction spectrum "rolling_minimum" degree
     = Ok (repeat 0%Qc (length spectrum))).
Proof.
  assert (H : forall (F : Type) (num : Numeric F) (spectrum : list F)
                (degree : Z),
             (20 <= length spectrum < 40)%nat ->
             baseline_correction spectrum "rolling_minimum" degree
             = Ok (vsub spectrum spectrum)).
  { intros F num spectrum degree Hn. rewrite baseline_rolling_minimum.
    assert (Hw : (Z.of_nat (length spectrum) / 20 = 1)%Z).
    { symmetry. apply (Z.div_unique _ 20 1 (Z.of_nat (length spectrum) - 20));
        lia. }
    rewrite Hw. unfold medfilt. cbn [Z.modulo Z.div_eucl Z.pos_div_eucl snd
      Z.eqb negb Z.ltb Z.compare Z.to_nat Pos.to_nat Pos.iter_op Nat.add
      Nat.div Nat.divmod fst].
    cbn. now rewrite order_filter_single. }
  split.
  - intros F num spectrum degree Hn. rewrite H by exact Hn.
    now rewrite vsub_self.
  - intros spectrum degree Hn. rewrite H by exact Hn.
    now rewrite vsub_diag.
Qed.

Lemma rolling_minimum_short_spectrum_witness :
  baseline_correction (map float_of_Z (arange 20)) "rolling_minimum" 3
  = Ok (map (fun v => fsub v v) (map float_of_Z (arange 20))) /\
  baseline_correction (Qc_of_ints (arange 39)) "rolling_minimum" 3
  = Ok (repeat 0%Qc (length (Qc_of_ints (arange 39)))).
Proof.
  split.
  - apply (proj1 rolling_minimum_short_spectrum float float_numeric
             (map float_of_Z (arange 20)) 3%Z).
    cbn. lia.
  - apply (proj2 rolling_minimum_short_spectrum
             (Qc_of_ints (arange 39)) 3%Z).
    cbn. lia.
Defined.

(** ** Normalisation: which spectra are accepted *)

(** X11.  [normalize_spectrum] raises [ValueError] on an empty spectrum
    ([np.min] has nothing to reduce) and on nothing else: every spectrum
    with at least one sample, flat or holding NaN as it may be, is
    returned with one normalised sample per sample, in every arithmetic. *)
Theorem normalize_spectrum_outcome :
  forall (F : Type) (num : Numeric F),
    normalize_spectrum (@nil F) =
    Raise (ValueError
      "zero-size array to reduction operation minimum which has no identity")
    /\
    forall spectrum : list F,
      spectrum <> [] ->
      exists normalized,
        normalize_spectrum spectrum = Ok normalized /\
        length normalized = length spectrum.
Proof.
  intros F num. split; [reflexivity |].
  intros [| v rest] Hne; [congruence |].
  unfold normalize_spectrum, np_min, np_max. cbn [bind].
  eexists. split; [reflexivity |]. now rewrite !length_map.
Qed.

Lemma normalize_spectrum_outcome_witness :
  exists normalized,
    normalize_spectrum [3; 1; 5]%float = Ok normalized /\
    length normalized = length [3; 1; 5]%float.
Proof.
  apply (proj2 (normalize_spectrum_outcome float float_numeric)
           [3; 1; 5]%float).
  discriminate.
Defined.

(** ** [analyze_sample]: the processing chain as a whole *)

Section PipelineFacts.
Context {F : Type} {num : Numeric F}.

Lemma extract_average (im : @image F) :
  exists spectrum_raw,
    extract_spectrum im "average" = Return spectrum_raw /\
    length spectrum_raw = img_width im.
Proof.
  eexists. split; [reflexivity |]. now rewrite length_map, length_seq.
Qed.

Lemma apply_calibration_cases (self : @processor F) (spectrum_raw : list F) :
  (exists e, apply_calibration self spectrum_raw = Raise e) \/
  (exists wavelengths,
     apply_calibration self spectrum_raw = Ok (wavelengths, spectrum_raw) /\
     length wavelengths = length spectrum_raw).
Proof.
  unfold apply_calibration. destruct (calibration self) as [cal |].
  - right. eexists. split; [reflexivity |].
    unfold interp1d_call, arange. now rewrite !length_map, length_seq.
  - left. eexists. reflexivity.
Qed.

Lemma baseline_polynomial_length (spectrum corrected : list F) (degree : Z) :
  baseline_correction spectrum "polynomial" degree = Ok corrected ->
  length corrected = length spectrum.
Proof.
  rewrite baseline_polynomial. cbv zeta.
  destruct (np_polyfit _ spectrum degree) as [coeffs | e]; [| discriminate].
  cbn [bind]. intros H. injection H as <-.
  unfold vsub, np_polyval. rewrite length_zip_with;
    rewrite !length_map; unfold arange; rewrite !length_map, length_seq;
    reflexivity.
Qed.

Lemma smooth_short_spectrum (b : bool) (ev : list F -> Z -> Z -> list F)
    (spectrum : list F) :
  (length spectrum < 11)%nat ->
  smooth_spectrum b ev spectrum default_window_length
  = Raise (ValueError
      "If mode is 'interp', window_length must be less than or equal to the size of x.").
Proof.
  intros Hn. unfold smooth_spectrum, savgol_filter, default_window_length.
  cbn [Z.geb Z.compare Z.modulo Z.div_eucl Z.pos_div_eucl Z.eqb andb snd].
  cbn.
  destruct (11 >? Z.of_nat (length spectrum))%Z eqn:H;
    [reflexivity |].
  rewrite Z.gtb_ltb in H. apply Z.ltb_ge in H. lia.
Qed.

Lemma smooth_default_length (b : bool) (ev : list F -> Z -> Z -> list F)
    (spectrum smooth : list F) :
  smooth_spectrum b ev spectrum default_window_length = Ok smooth ->
  length smooth = length spectrum /\ (11 <= length spectrum)%nat.
Proof.
  unfold smooth_spectrum, savgol_filter, default_window_length.
  cbn [Z.geb Z.compare Z.modulo Z.div_eucl Z.pos_div_eucl Z.eqb andb snd].
  cbn.
  destruct (11 >? Z.of_nat (length spectrum))%Z eqn:H; [discriminate |].
  rewrite Z.gtb_ltb in H. apply Z.ltb_ge in H.
  destruct (forallb isfinite _); cbn [negb]; [| discriminate].
  intros E. injection E as <-.
  rewrite length_map, length_seq. split; [reflexivity | lia].
Qed.

End PipelineFacts.

(** X12.  [analyze_sample] on a frame narrower than the smoothing window (fewer
    than 11 columns), whatever its pixels and whatever the arithmetic:
    the call raises [ValueError] or [TypeError] before anything is
    logged; the application and the files are as they were. *)
Theorem analyze_sample_narrow_frame {F : Type} {num : Numeric F}
    (odd_window_required : bool)
    (savgol_even_values : list F -> Z -> Z -> list F)
    (writable : string -> bool) (savable : pyvalue F -> bool)
    (self : @SpectrometerApp F) (fs : @files F) (timestamp : F)
    (now : string) (image_2d : @image F) (sample_id : option string) :
  (img_width image_2d < 11)%nat ->
  exists e,
    analyze_sample odd_window_required savgol_even_values writable savable
      self fs timestamp now image_2d sample_id
    = ((self, fs), Throw (Builtin e)).
Proof.
  intros Hw. unfold analyze_sample.
  destruct (extract_average image_2d) as (raw & -> & Hraw).
  cbn [obind].
  destruct (apply_calibration_cases (app_processor self) raw)
    as [[e ->] | (wl & -> & Hwl)]; [eexists; reflexivity |].
  cbn [lift obind].
  destruct (baseline_correction raw "polynomial" default_degree)
    as [corrected | e] eqn:Hbase; [| eexists; reflexivity].
  apply baseline_polynomial_length in Hbase.
  cbn [lift obind].
  rewrite smooth_short_spectrum by lia.
  eexists. reflexivity.
Qed.

Lemma analyze_sample_narrow_frame_witness :
  exists e,
    analyze_sample true (fun x _ _ => x) (fun _ => true) (fun _ => true)
      {| app_processor := init (400, 700)%Z; app_logger := None |}
      [] 0%float "2025-06-01T10:00:00"%string
      {| img_width := 2; img_rows := [[1; 2]; [3; 4]]%float |} None
    = (({| app_processor := init (400, 700)%Z; app_logger := None |}, []),
       Throw (Builtin e)).
Proof.
  apply (analyze_sample_narrow_frame true (fun x _ _ => x)
           (fun _ => true) (fun _ => true)).
  cbn. lia.
Defined.

(** X13.  [analyze_sample] with logging off, in every arithmetic.  The
    application and the files are as they were.  The call either raises
    the [ValueError] or [TypeError] of a processing step, or returns; it
    never raises [IndexError], because the peak positions index a
    wavelength array of the frame's width.  When it returns, a calibration
    is loaded, the frame is at least 11 columns wide, and the result holds
    the wavelength of every pixel, a smoothed spectrum of the frame's
    width, the peaks (pixel positions strictly inside the frame), their
    number, and the classifier's verdict on them. *)
Theorem analyze_sample_outcome {F : Type} {num : Numeric F}
    (odd_window_required : bool)
    (savgol_even_values : list F -> Z -> Z -> list F)
    (writable : string -> bool) (savable : pyvalue F -> bool)
    (self : @SpectrometerApp F) (fs : @files F) (timestamp : F)
    (now : string) (image_2d : @image F) (sample_id : option string) :
  app_logger self = None ->
  let run := analyze_sample odd_window_required savgol_even_values
               writable savable self fs timestamp now image_2d sample_id in
  fst run = (self, fs) /\
  match snd run with
  | Throw e => exists raised, e = Builtin raised
  | Return results =>
      exists (cal : @interp1d F) (smooth : list F) (peak_indices : list nat),
        calibration (app_processor self) = Some cal /\
        (11 <= img_width image_2d)%nat /\
        length smooth = img_width image_2d /\
        (forall p, In p peak_indices ->
           (1 <= p)%nat /\ (p + 1 < img_width image_2d)%nat) /\
        let wavelengths := interp1d_call cal (arange (img_width image_2d)) in
        let peak_wl := map (sample wavelengths) peak_indices in
        let peak_int := map (sample smooth) peak_indices in
        results =
        PyDict
          [("timestamp", PyFloat timestamp);
           ("sample_id", py_sample_id sample_id);
           ("peaks_detected", PyInt (Z.of_nat (length peak_indices)));
           ("peak_wavelengths", tolist peak_wl);
           ("wavelengths", tolist wavelengths);
           ("spectrum", tolist smooth);
           ("raw_image", PyArray image_2d);
           ("biosignature_analysis",
            analysis_dict (detect_biosignatures peak_wl peak_int))]%string
  end.
Proof.
  intros Hlog run. subst run. unfold analyze_sample.
  destruct (extract_average image_2d) as (raw & -> & Hraw).
  cbn [obind]. unfold apply_calibration.
  destruct (calibration (app_processor self)) as [cal |] eqn:Hcal;
    [| split; [reflexivity | eexists; reflexivity]].
  cbn [lift obind].
  destruct (baseline_correction raw "polynomial" default_degree)
    as [corrected | e] eqn:Hbase;
    [| split; [reflexivity | eexists; reflexivity]].
  apply baseline_polynomial_length in Hbase.
  cbn [lift obind].
  destruct (smooth_spectrum odd_window_required savgol_even_values
              corrected default_window_length) as [smooth | e] eqn:Hsm;
    [| split; [reflexivity | eexists; reflexivity]].
  apply smooth_default_length in Hsm as [Hsmooth Hwide].
  cbn [lift obind].
  set (wavelengths := interp1d_call cal (arange (length raw))).
  assert (Hwl : length wavelengths = length raw).
  { subst wavelengths. unfold interp1d_call, arange.
    now rewrite !length_map, length_seq. }
  rewrite find_peaks_cases.
  set (peaks := fst (scipy_find_peaks smooth default_prominence)).
  assert (Hin : forall p, In p peaks ->
                  (1 <= p)%nat /\ (p + 1 < length smooth)%nat)
    by (intros p Hp; exact (peaks_inside smooth default_prominence p Hp)).
  destruct (find (fun i => (length wavelengths <=? i)%nat) peaks)
    as [i |] eqn:Hfind.
  { apply find_some in Hfind as [Hi Hle]. apply Nat.leb_le in Hle.
    specialize (Hin i Hi). lia. }
  cbn [obind]. rewrite Hlog. cbn [fst snd].
  split; [reflexivity |].
  exists cal, smooth, peaks.
  split; [reflexivity |]. split; [lia |]. split; [lia |].
  split; [intros p Hp; specialize (Hin p Hp); lia |].
  cbv zeta. rewrite <- Hraw. fold wavelengths.
  rewrite length_map. reflexivity.
Qed.

Lemma analyze_sample_outcome_witness :
  let self := {| app_processor :=
                   {| wavelength_range := (400, 700)%Z;
                      calibration :=
                        Some (built_map [(0%Z, 400%float);
                                         (14%Z, 470%float)]) |};
                 app_logger := None |} in
  let image_2d :=
    {| img_width := 15;
       img_rows := [[10; 10; 10; 10; 10; 110; 410; 910; 410; 110; 10; 10;
                     10; 10; 10];
                    [10; 10; 10; 10; 10; 110; 410; 910; 410; 110; 10; 10;
                     10; 10; 10]]%float |} in
  let run := analyze_sample true (fun x _ _ => x) (fun _ => true)
               (fun _ => true) self [] 0%float
               "2025-06-01T10:00:00"%string image_2d None in
  fst run = (self, []) /\
  match snd run with
  | Throw e => exists raised, e = Builtin raised
  | Return results =>
      exists (cal : @interp1d float) (smooth : list float)
             (peak_indices : list nat),
        calibration (app_processor self) = Some cal /\
        (11 <= img_width image_2d)%nat /\
        length smooth = img_width image_2d /\
        (forall p, In p peak_indices ->
           (1 <= p)%nat /\ (p + 1 < img_width image_2d)%nat) /\
        let wavelengths := interp1d_call cal (arange (img_width image_2d)) in
        let peak_wl := map (sample wavelengths) peak_indices in
        let peak_int := map (sample smooth) peak_indices in
        results =
        PyDict
          [("timestamp", PyFloat 0%float);
           ("sample_id", py_sample_id None);
           ("peaks_detected", PyInt (Z.of_nat (length peak_indices)));
           ("peak_wavelengths", tolist peak_wl);
           ("wavelengths", tolist wavelengths);
           ("spectrum", tolist smooth);
           ("raw_image", PyArray image_2d);
           ("biosignature_analysis",
            analysis_dict (detect_biosignatures peak_wl peak_int))]%string
  end.
Proof.
  intros self image_2d.
  apply (analyze_sample_outcome true (fun x _ _ => x)
           (fun _ => true) (fun _ => true) self [] 0%float
           "2025-06-01T10:00:00"%string image_2d None).
  reflexivity.
Defined.

(** ** The web dashboard's counters *)

Section DashboardFacts.
Context {F : Type}.

Lemma last_cons {A : Type} (l : list A) :
  forall (a d : A), last (a :: l) d = last l a.
Proof.
  induction l as [| b l IH]; intros a d; [reflexivity |].
  change (last (a :: b :: l) d) with (last (b :: l) d).
  now rewrite !IH.
Qed.

Lemma py_eq_str_exclusive (c : pyvalue F) (a b : string) :
  a <> b -> py_eq_str c a = Return true -> py_eq_str c b = Return false.
Proof.
  intros Hab. destruct c; cbn [py_eq_str]; try discriminate.
  - intros Ha. injection Ha as Ha. apply String.eqb_eq in Ha. subst s.
    f_equal. now apply String.eqb_neq.
  - destruct (array_size a0 =? 1)%nat; [discriminate |].
    destruct (array_size a0 =? 0)%nat; discriminate.
Qed.

(** A comparison that raises does so whatever the text compared with. *)
Lemma py_eq_str_raises (c : pyvalue F) (a b : string) (e : exception) :
  py_eq_str c a = Throw e ->
  py_eq_str c b = Throw e /\ exists msg, e = Builtin (ValueError msg).
Proof.
  destruct c; cbn [py_eq_str]; try discriminate.
  destruct (array_size a0 =? 1)%nat; [discriminate |].
  destruct (array_size a0 =? 0)%nat; intros H; injection H as <-;
    (split; [reflexivity | eexists; reflexivity]).
Qed.

Lemma update_results_step (d : dashboard F) (results : pyvalue F) :
  let d' := fst (update_results d results) in
  let bump := fun level => if reports level results then 1%Z else 0%Z in
  latest_results d' = results /\
  total_measurements (stats d') = (total_measurements (stats d) + 1)%Z /\
  high_confidence (stats d')
  = (high_confidence (stats d) + bump "high"%string)%Z /\
  medium_confidence (stats d')
  = (medium_confidence (stats d) + bump "medium"%string)%Z /\
  low_confidence (stats d')
  = (low_confidence (stats d) + bump "low"%string)%Z /\
  (bump "high"%string + bump "medium"%string + bump "low"%string <= 1)%Z.
Proof.
  cbv zeta. unfold update_results, reports, reported_confidence.
  destruct (py_get results "biosignature_analysis" (PyDict []))
    as [analysis | e]; cbn [obind fst]; [| cbn; repeat split; lia].
  destruct (py_get analysis "confidence" (PyStr "none")) as [c | e];
    cbn [obind fst]; [| cbn; repeat split; lia].
  unfold count_level.
  destruct (py_eq_str c "high") as [[|] | e] eqn:Hh; cbn [obind].
  - rewrite (py_eq_str_exclusive c "high" "medium") by
      (try discriminate; exact Hh).
    rewrite (py_eq_str_exclusive c "high" "low") by
      (try discriminate; exact Hh).
    cbn. repeat split; lia.
  - destruct (py_eq_str c "medium") as [[|] | e] eqn:Hm; cbn [obind].
    + rewrite (py_eq_str_exclusive c "medium" "low") by
        (try discriminate; exact Hm).
      cbn. repeat split; lia.
    + destruct (py_eq_str c "low") as [[|] | e]; cbn; repeat split; lia.
    + rewrite (proj1 (py_eq_str_raises c "medium" "low" e Hm)).
      cbn. repeat split; lia.
  - rewrite (proj1 (py_eq_str_raises c "high" "medium" e Hh)).
    rewrite (proj1 (py_eq_str_raises c "high" "low" e Hh)).
    cbn. repeat split; lia.
Qed.

(** A result whose confidence is a string is counted without raising. *)
Lemma update_results_returns (d : dashboard F) (results : pyvalue F)
    (level : string) :
  reported_confidence results = Return (PyStr level) ->
  snd (update_results d results) = Return tt.
Proof.
  unfold update_results, reported_confidence. intros Hc.
  destruct (py_get results "biosignature_analysis" (PyDict []))
    as [analysis | e]; cbn [obind] in Hc |- *; [| discriminate Hc].
  rewrite Hc. cbn [obind]. unfold count_level. cbn [py_eq_str obind].
  destruct (level =? "high")%string; [reflexivity |].
  destruct (level =? "medium")%string; [reflexivity |].
  destruct (level =? "low")%string; reflexivity.
Qed.

Lemma update_results_run (rs : list (pyvalue F)) :
  forall d : dashboard F,
    let d' := fold_left (fun d r => fst (update_results d r)) rs d in
    latest_results d' = last rs (latest_results d) /\
    total_measurements (stats d')
    = (total_measurements (stats d) + Z.of_nat (length rs))%Z /\
    high_confidence (stats d')
    = (high_confidence (stats d) + Z_count "high" rs)%Z /\
    medium_confidence (stats d')
    = (medium_confidence (stats d) + Z_count "medium" rs)%Z /\
    low_confidence (stats d')
    = (low_confidence (stats d) + Z_count "low" rs)%Z /\
    (Z_count "high" rs + Z_count "medium" rs + Z_count "low" rs
     <= Z.of_nat (length rs))%Z.
Proof.
  induction rs as [| r rs IH]; intros d.
  - cbn. unfold Z_count. cbn. repeat split; lia.
  - cbn [fold_left]. cbv zeta in IH |- *.
    destruct (IH (fst (update_results d r)))
      as (H1 & H2 & H3 & H4 & H5 & H6).
    destruct (update_results_step d r) as (S1 & S2 & S3 & S4 & S5 & S6).
    cbv zeta in S1, S2, S3, S4, S5, S6.
    rewrite H1, H2, H3, H4, H5, S1, S2, S3, S4, S5.
    unfold Z_count in *. cbn [filter length].
    split; [symmetry; apply last_cons |].
    destruct (reports "high" r), (reports "medium" r), (reports "low" r);
      cbn [length] in *; rewrite ?Nat2Z.inj_succ;
      repeat split; lia.
Qed.

End DashboardFacts.

(** X15.  [update_results] called on any sequence of results, starting from the
    module's initial state and going on after a call that raised:
    [total_measurements] is the number of calls; each of the three
    confidence counters is the number of results that reported that
    level; their sum never exceeds the total (results reporting "none",
    anything else, or nothing readable are counted in the total only);
    [latest_results] is the last result passed. *)
Theorem update_results_counters {F : Type} (rs : list (pyvalue F)) :
  let board :=
    fold_left (fun d r => fst (update_results d r)) rs dashboard_start in
  let s := stats board in
  total_measurements s = Z.of_nat (length rs) /\
  high_confidence s = Z_count "high" rs /\
  medium_confidence s = Z_count "medium" rs /\
  low_confidence s = Z_count "low" rs /\
  (0 <= high_confidence s)%Z /\ (0 <= medium_confidence s)%Z /\
  (0 <= low_confidence s)%Z /\
  (high_confidence s + medium_confidence s + low_confidence s
   <= total_measurements s)%Z /\
  latest_results board = last rs PyNone.
Proof.
  cbv zeta.
  destruct (update_results_run rs dashboard_start)
    as (H1 & H2 & H3 & H4 & H5 & H6).
  cbv zeta in H1, H2, H3, H4, H5.
  cbn [dashboard_start latest_results stats total_measurements
       high_confidence medium_confidence low_confidence] in H1, H2, H3, H4, H5.
  rewrite H2, H3, H4, H5, H1.
  unfold Z_count in *. repeat split; lia.
Qed.



(** ** The application with the dashboard *)

Section DashboardApp.
Context {F : Type} {num : Numeric F}.
Variable odd_window_required : bool.
Variable savgol_even_values : list F -> Z -> Z -> list F.
Variable writable : string -> bool.
Variable savable : pyvalue F -> bool.

(** What both [analyze_sample] methods compute before they log. *)
Lemma analyze_sample_results
    (self : RunWithDashboard.SpectrometerAppWithDashboard)
    (fs : @files F) (board : dashboard F) (timestamp : F) (now : string)
    (image_2d : @image F) (sample_id : option string) :
  (exists e,
     RunWithDashboard.analyze_sample odd_window_required savgol_even_values
       writable savable self fs board timestamp now image_2d sample_id
     = ((self, fs, board), Throw e) /\
     forall fs0 logger,
       analyze_sample odd_window_required savgol_even_values
         writable savable
         {| app_processor := RunWithDashboard.app_processor self;
            app_logger := logger |} fs0 timestamp now image_2d sample_id
       = (({| app_processor := RunWithDashboard.app_processor self;
              app_logger := logger |}, fs0), Throw e)) \/
  (exists peaks_detected peak_wavelengths wavelengths spectrum analysis,
     let results :=
       PyDict [("timestamp", PyFloat timestamp);
               ("sample_id", py_sample_id sample_id);
               ("peaks_detected", peaks_detected);
               ("peak_wavelengths", peak_wavelengths);
               ("wavelengths", wavelengths);
               ("spectrum", spectrum);
               ("raw_image", PyArray image_2d);
               ("biosignature_analysis", analysis_dict analysis)]%string in
     RunWithDashboard.analyze_sample odd_window_required savgol_even_values
       writable savable self fs board timestamp now image_2d sample_id
     = (let '(logger', fs', logged) :=
          log_measurement writable savable
            (RunWithDashboard.app_logger self) fs now results sample_id in
        let self' :=
          {| RunWithDashboard.app_processor :=
               RunWithDashboard.app_processor self;
             RunWithDashboard.app_logger := logger' |} in
        match logged with
        | Throw e => ((self', fs', board), Throw e)
        | Return _ =>
            ((self', fs', fst (update_results board results)),
             Return results)
        end) /\
     forall fs0 logger,
       analyze_sample odd_window_required savgol_even_values
         writable savable
         {| app_processor := RunWithDashboard.app_processor self;
            app_logger := Some logger |} fs0 timestamp now image_2d
         sample_id
       = (let '(logger', fs', logged) :=
            log_measurement writable savable logger fs0 now results
              sample_id in
          (({| app_processor := RunWithDashboard.app_processor self;
               app_logger := Some logger' |}, fs'),
           _ <~ logged ;; Return results))).
Proof.
  unfold RunWithDashboard.analyze_sample, analyze_sample.
  cbn [app_processor app_logger].
  destruct (extract_spectrum image_2d "average") as [raw | e];
    [| left; exists e; split; reflexivity].
  cbn [obind].
  destruct (apply_calibration (RunWithDashboard.app_processor self) raw)
    as [[wl spectrum] | e];
    [| left; eexists; split; reflexivity].
  cbn [lift obind].
  destruct (baseline_correction spectrum "polynomial" default_degree)
    as [corrected | e]; [| left; eexists; split; reflexivity].
  cbn [lift obind].
  destruct (smooth_spectrum odd_window_required savgol_even_values
              corrected default_window_length) as [smooth | e];
    [| left; eexists; split; reflexivity].
  cbn [lift obind].
  destruct (find_peaks wl smooth default_prominence)
    as [[[peak_wl peak_int] props] | e];
    [| left; eexists; split; reflexivity].
  cbn [obind]. right.
  exists (PyInt (Z.of_nat (length peak_wl))), (tolist peak_wl), (tolist wl),
    (tolist smooth), (detect_biosignatures peak_wl peak_int).
  cbv zeta. split.
  - destruct (log_measurement _ _ _ _ _ _ _) as [[logger' fs'] [id | e]];
      [| reflexivity].
    pose proof (update_results_returns board
                  (PyDict [("timestamp", PyFloat timestamp);
                           ("sample_id", py_sample_id sample_id);
                           ("peaks_detected",
                            PyInt (Z.of_nat (length peak_wl)));
                           ("peak_wavelengths", tolist peak_wl);
                           ("wavelengths", tolist wl);
                           ("spectrum", tolist smooth);
                           ("raw_image", PyArray image_2d);
                           ("biosignature_analysis",
                            analysis_dict
                              (detect_biosignatures peak_wl peak_int))]%string)
                  (confidence (detect_biosignatures peak_wl peak_int))
                  eq_refl) as Hret.
    destruct (update_results board _) as [board' updated].
    cbn [fst snd] in Hret |- *. rewrite Hret. reflexivity.
  - intros fs0 logger. reflexivity.
Qed.

End DashboardApp.

(** X17.  The application with the dashboard does what [SpectrometerApp] with
    logging does, and then updates the dashboard: its copy of
    [detect_biosignatures] returns what the original returns, and for the
    same processor, logger, files, clock readings, frame and sample id
    both [analyze_sample] methods return or raise the same, leave the
    same logger and the same files, and the dashboard is updated with
    the result exactly when the call returns. *)
Theorem dashboard_app_same_results {F : Type} {num : Numeric F}
    (odd_window_required : bool)
    (savgol_even_values : list F -> Z -> Z -> list F)
    (writable : string -> bool) (savable : pyvalue F -> bool)
    (self : RunWithDashboard.SpectrometerAppWithDashboard)
    (fs : @files F) (board : dashboard F) (timestamp : F) (now : string)
    (image_2d : @image F) (sample_id : option string) :
  let dash :=
    RunWithDashboard.analyze_sample odd_window_required savgol_even_values
      writable savable self fs board timestamp now image_2d sample_id in
  let plain :=
    analyze_sample odd_window_required savgol_even_values writable savable
      {| app_processor := RunWithDashboard.app_processor self;
         app_logger := Some (RunWithDashboard.app_logger self) |}
      fs timestamp now image_2d sample_id in
  (forall peak_wavelengths peak_intensities : list F,
     RunWithDashboard.detect_biosignatures peak_wavelengths peak_intensities
     = detect_biosignatures peak_wavelengths peak_intensities) /\
  snd dash = snd plain /\
  snd (fst (fst dash)) = snd (fst plain) /\
  app_processor (fst (fst plain))
  = RunWithDashboard.app_processor (fst (fst (fst dash))) /\
  app_logger (fst (fst plain))
  = Some (RunWithDashboard.app_logger (fst (fst (fst dash)))) /\
  snd (fst dash)
  = match snd plain with
    | Return results => fst (update_results board results)
    | Throw _ => board
    end.
Proof.
  cbv zeta. split; [reflexivity |].
  destruct (analyze_sample_results odd_window_required savgol_even_values
              writable savable self fs board timestamp now image_2d
              sample_id)
    as [(e & -> & Hplain)
       | (pd & pw & wl & sp & an & Hdash & Hplain)].
  - rewrite Hplain. cbn. destruct self. repeat split; reflexivity.
  - cbv zeta in Hdash, Hplain. rewrite Hdash, Hplain.
    destruct (log_measurement _ _ _ _ _ _ _) as [[logger' fs'] [id | e]];
      cbn; repeat split; reflexivity.
Qed.

(** X18.  After a call of [analyze_sample] of the application with the
    dashboard has returned, the dashboard holds the result, which
    contains the raw frame as a numpy array: [get_latest] (the handler of
    [/api/latest]) then raises [TypeError] instead of answering, while
    [get_stats] answers. *)
Theorem dashboard_cannot_serve_latest {F : Type} {num : Numeric F}
    (odd_window_required : bool)
    (savgol_even_values : list F -> Z -> Z -> list F)
    (writable : string -> bool) (savable : pyvalue F -> bool)
    (self self' : RunWithDashboard.SpectrometerAppWithDashboard)
    (fs fs' : @files F) (board board' : dashboard F) (timestamp : F)
    (now : string) (image_2d : @image F) (sample_id : option string)
    (results : pyvalue F) :
  RunWithDashboard.analyze_sample odd_window_required savgol_even_values
    writable savable self fs board timestamp now image_2d sample_id
  = ((self', fs', board'), Return results) ->
  latest_results board' = results /\
  dict_get (match results with PyDict d => d | _ => [] end) "raw_image"
  = Some (PyArray image_2d) /\
  get_latest board' = Throw not_serializable /\
  returns (get_stats board') = true /\
  total_measurements (stats board')
  = (total_measurements (stats board) + 1)%Z.
Proof.
  intros Hcall.
  destruct (analyze_sample_results odd_window_required savgol_even_values
              writable savable self fs board timestamp now image_2d
              sample_id)
    as [(e & Hdash & _) | (pd & pw & wl & sp & an & Hdash & _)].
  - rewrite Hdash in Hcall. discriminate Hcall.
  - cbv zeta in Hdash. rewrite Hdash in Hcall. clear Hdash.
    destruct (log_measurement _ _ _ _ _ _ _) as [[logger' fs1] [id | e]];
      [| discriminate Hcall].
    injection Hcall as <- <- <- <-.
    destruct (update_results_step board
                (PyDict [("timestamp", PyFloat timestamp);
                         ("sample_id", py_sample_id sample_id);
                         ("peaks_detected", pd);
                         ("peak_wavelengths", pw);
                         ("wavelengths", wl);
                         ("spectrum", sp);
                         ("raw_image", PyArray image_2d);
                         ("biosignature_analysis", analysis_dict an)]%string))
      as (S1 & S2 & _).
    cbv zeta in S1, S2.
    split; [exact S1 |]. split; [reflexivity |].
    split; [| split; [reflexivity | exact S2]].
    unfold get_latest. rewrite ?S1. unfold jsonify. cbn.
    now rewrite ?andb_false_r.
Qed.

Lemma dashboard_cannot_serve_latest_witness :
  let self :=
    {| RunWithDashboard.app_processor :=
         {| wavelength_range := (400, 700)%Z;
            calibration :=
              Some (built_map [(0%Z, Q2Qc (inject_Z 400));
                               (10%Z, Q2Qc (inject_Z 500))]) |};
       RunWithDashboard.app_logger :=
         logger_init "spectroscopy_logs" "20250601_100000"
                     "2025-06-01T10:00:00" |} in
  let image_2d :=
    {| img_width := 11;
       img_rows := [Qc_of_ints [7; 7; 7; 7; 7; 7; 7; 7; 7; 7; 7]%Z] |} in
  let out :=
    RunWithDashboard.analyze_sample true (fun x _ _ => x)
      (fun _ => true) (fun _ => true) self [] dashboard_start 0%Qc
      "2025-06-01T10:00:05" image_2d None in
  let board' := snd (fst out) in
  let results := match snd out with Return r => r | Throw _ => PyNone end in
  latest_results board' = results /\
  dict_get (match results with PyDict d => d | _ => [] end) "raw_image"
  = Some (PyArray image_2d) /\
  get_latest board' = Throw not_serializable /\
  returns (get_stats board') = true /\
  total_measurements (stats board') = (0 + 1)%Z.
Proof.
  intros self image_2d out board' results.
  apply (dashboard_cannot_serve_latest true (fun x _ _ => x)
           (fun _ => true) (fun _ => true) self (fst (fst (fst out)))
           [] (snd (fst (fst out))) dashboard_start board' 0%Qc
           "2025-06-01T10:00:05" image_2d None results).
  vm_compute. reflexivity.
Defined.

(** ** The data logger *)

Section LoggerFacts.
Context {F : Type}.
Variable writable : string -> bool.
Variable savable : pyvalue F -> bool.

Lemma dict_get_set_other (d : dict F) (key other : string) (v : pyvalue F) :
  other <> key -> dict_get (dict_set d key v) other = dict_get d other.
Proof.
  intros Hne. induction d as [| [k w] d IH]; cbn [dict_set dict_get].
  - destruct (key =? other)%string eqn:E; [| reflexivity].
    apply String.eqb_eq in E. congruence.
  - destruct (k =? key)%string eqn:E; cbn [dict_get].
    + apply String.eqb_eq in E. subst k.
      destruct (key =? other)%string eqn:E'; [| reflexivity].
      apply String.eqb_eq in E'. congruence.
    + now rewrite IH.
Qed.

(** What a call of [log_measurement] leaves: the logger unchanged, or one
    record more, whose 'measurement_id' is the new length and whose
    'peaks_detected' and 'biosignature_analysis' come from the data. *)
Lemma log_measurement_cases (self : @SpectroscopyLogger F) (fs : @files F)
    (now : string) (measurement_data : pyvalue F)
    (sample_id : option string) :
  let out := log_measurement writable savable self fs now measurement_data
               sample_id in
  let self' := fst (fst out) in
  (self' = self /\ returns (snd out) = false) \/
  (exists data record,
     measurement_data = PyDict data /\
     self' = with_measurement self record /\
     dict_get record "measurement_id"
     = Some (PyInt (Z.of_nat (length (measurements (session_log self)) + 1)))
     /\
     dict_get record "sample_id"
     = Some (PyStr match sample_id with
                   | Some s => s
                   | None =>
                       ("sample_" ++ format_03d
                          (length (measurements (session_log self)) + 1))%string
                   end) /\
     dict_get record "peaks_detected"
     = Some (dict_get_default data "peaks_detected" (PyInt 0)) /\
     dict_get record "biosignature_analysis"
     = Some (dict_get_default data "biosignature_analysis" (PyDict [])) /\
     ((exists fs2,
         _save_session_log writable self' fs2 = (snd (fst out), Return tt) /\
         snd out
         = Return (length (measurements (session_log self)) + 1)%nat) \/
      returns (snd out) = false)).
Proof.
  cbv zeta. unfold log_measurement.
  destruct measurement_data as [| | | | | | data |];
    try (left; split; reflexivity).
  set (sid := match sample_id with Some s => s | None => _ end).
  set (n1 := (length (measurements (session_log self)) + 1)%nat).
  set (record := [("measurement_id"%string, PyInt (Z.of_nat n1)); _; _; _; _]).
  assert (Hrec : forall r : dict F,
            dict_get r "measurement_id" = dict_get record "measurement_id" ->
            dict_get r "sample_id" = dict_get record "sample_id" ->
            dict_get r "peaks_detected" = dict_get record "peaks_detected" ->
            dict_get r "biosignature_analysis"
            = dict_get record "biosignature_analysis" ->
            forall fs2,
            let out :=
              (let self' := with_measurement self r in
               let '(fs3, r0) := _save_session_log writable self' fs2 in
               match r0 with
               | Throw e => ((self', fs3), Throw e)
               | Return _ => ((self', fs3), Return n1)
               end) in
            exists data0 record0,
              PyDict data = PyDict data0 /\
              fst (fst out) = with_measurement self record0 /\
              dict_get record0 "measurement_id" = Some (PyInt (Z.of_nat n1)) /\
              dict_get record0 "sample_id" = Some (PyStr sid) /\
              dict_get record0 "peaks_detected"
              = Some (dict_get_default data0 "peaks_detected" (PyInt 0)) /\
              dict_get record0 "biosignature_analysis"
              = Some (dict_get_default data0 "biosignature_analysis"
                        (PyDict [])) /\
              ((exists fs0,
                  _save_session_log writable (fst (fst out)) fs0
                  = (snd (fst out), Return tt) /\
                  snd out = Return n1) \/
               returns (snd out) = false)).
  { intros r H1 H2 H3 H4 fs2. cbv zeta.
    exists data, r.
    destruct (_save_session_log writable (with_measurement self r) fs2)
      as [fs3 [u | e]] eqn:Hsave; cbn [fst snd returns];
      (split; [reflexivity |]); (split; [reflexivity |]);
      rewrite H1, H2, H3, H4; repeat split; auto.
    left. exists fs2. destruct u. split; [exact Hsave | reflexivity]. }
  destruct (dict_get data "wavelengths") as [wl |].
  - destruct (dict_get data "spectrum") as [sp |].
    + destruct (np_save writable savable fs _ _ _) as [fs1 [u | e]];
        [| left; split; reflexivity].
      destruct (dict_get data "raw_image") as [raw |].
      * destruct (np_save writable savable fs1 _ _ _) as [fs2 [u2 | e]];
          [| left; split; reflexivity].
        right. apply Hrec;
          rewrite !dict_get_set_other by discriminate; reflexivity.
      * right. apply Hrec;
          rewrite !dict_get_set_other by discriminate; reflexivity.
    + destruct (dict_get data "raw_image") as [raw |].
      * destruct (np_save writable savable fs _ _ _) as [fs2 [u2 | e]];
          [| left; split; reflexivity].
        right. apply Hrec;
          rewrite !dict_get_set_other by discriminate; reflexivity.
      * right. apply Hrec; reflexivity.
  - destruct (dict_get data "raw_image") as [raw |].
    + destruct (np_save writable savable fs _ _ _) as [fs2 [u2 | e]];
        [| left; split; reflexivity].
      right. apply Hrec;
        rewrite !dict_get_set_other by discriminate; reflexivity.
    + right. apply Hrec; reflexivity.
Qed.

Lemma add_note_measurements (self : @SpectroscopyLogger F) (fs : @files F)
    (now : string) (note : pyvalue F) :
  measurements (session_log (fst (fst (add_note writable self fs now note))))
  = measurements (session_log self).
Proof.
  unfold add_note.
  destruct (dict_get _ "notes") as [[| | | | | notes | |] |];
    try reflexivity.
  destruct (_save_session_log _ _ _) as [fs1 r]. reflexivity.
Qed.

Lemma end_session_measurements (self : @SpectroscopyLogger F)
    (fs : @files F) (now : string) :
  measurements (session_log (fst (fst (end_session writable self fs now))))
  = measurements (session_log self).
Proof.
  unfold end_session.
  destruct (_save_session_log _ _ _) as [fs1 r]. reflexivity.
Qed.

Lemma perform_ids (state : @SpectroscopyLogger F * @files F)
    (call : logger_call) :
  let n := length (measurements (session_log (fst state))) in
  let state' := perform writable savable state call in
  let n' := length (measurements (session_log (fst state'))) in
  measurement_ids (fst state)
  = map (fun k => Some (PyInt (Z.of_nat k))) (seq 1 n) ->
  measurement_ids (fst state')
  = map (fun k => Some (PyInt (Z.of_nat k))) (seq 1 n') /\
  (n <= n' <= n + 1)%nat /\
  (n' = n \/ exists now data sample_id,
               call = LogMeasurement now (PyDict data) sample_id).
Proof.
  cbv zeta. intros Hids. unfold measurement_ids in *.
  destruct call as [now data sid | now note | now]; cbn [perform].
  - destruct (log_measurement_cases (fst state) (snd state) now data sid)
      as [[-> _] | (d & record & -> & -> & Hid & _)].
    + split; [exact Hids |]. split; [lia | left; reflexivity].
    + cbn [with_measurement session_log measurements].
      rewrite map_app, length_app. cbn [map length].
      rewrite seq_app, map_app, Hids, Hid. cbn [seq map].
      replace (1 + length (measurements (session_log (fst state))))%nat
        with (length (measurements (session_log (fst state))) + 1)%nat by lia.
      split; [reflexivity |]. split; [lia |]. right. eauto.
  - rewrite add_note_measurements.
    split; [exact Hids |]. split; [lia | left; reflexivity].
  - rewrite end_session_measurements.
    split; [exact Hids |]. split; [lia | left; reflexivity].
Qed.

Lemma unserializable_session (self : @SpectroscopyLogger F) :
  unserializable_log self = true ->
  json_serializable (session_dict (session_log self)) = false.
Proof.
  unfold unserializable_log, session_dict. intros H.
  cbn [json_serializable app forallb snd].
  assert (Hm : forallb json_serializable
                 (map PyDict (measurements (session_log self))) = false).
  { induction (measurements (session_log self)) as [| m ms IH];
      [discriminate H |].
    cbn [existsb map forallb] in H |- *.
    destruct (json_serializable (PyDict m)); cbn [negb orb andb] in H |- *;
      [now apply IH | reflexivity]. }
  rewrite Hm. reflexivity.
Qed.

Lemma save_unserializable (self : @SpectroscopyLogger F) (fs : @files F) :
  unserializable_log self = true ->
  returns (snd (_save_session_log writable self fs)) = false.
Proof.
  intros H. unfold _save_session_log.
  rewrite (unserializable_session self H).
  destruct (writable _); reflexivity.
Qed.

End LoggerFacts.

(** X19.  [SpectroscopyLogger]: after any sequence of calls of
    [log_measurement], [add_note] and [end_session] on a new logger,
    whatever they were given and whether they returned or raised, the
    logged records carry the measurement ids 1, 2, ..., n in this order,
    and there are at most as many records as calls. *)
Theorem logger_ids_sequential {F : Type}
    (writable : string -> bool) (savable : pyvalue F -> bool)
    (log_dir stamp now : string) (calls : list (@logger_call F)) :
  let final :=
    fold_left (perform writable savable) calls
              (logger_init log_dir stamp now, []) in
  let n := length (measurements (session_log (fst final))) in
  measurement_ids (fst final)
  = map (fun k => Some (PyInt (Z.of_nat k))) (seq 1 n) /\
  (n <= length calls)%nat.
Proof.
  cbv zeta.
  assert (H : forall (calls : list (@logger_call F)) state,
             measurement_ids (fst state)
             = map (fun k => Some (PyInt (Z.of_nat k)))
                   (seq 1 (length (measurements (session_log (fst state)))))
             ->
             let final := fold_left (perform writable savable) calls state in
             measurement_ids (fst final)
             = map (fun k => Some (PyInt (Z.of_nat k)))
                   (seq 1 (length (measurements (session_log (fst final)))))
             /\
             (length (measurements (session_log (fst final)))
              <= length (measurements (session_log (fst state)))
                 + length calls)%nat).
  { clear calls. induction calls as [| call calls IH]; intros state Hinv.
    - cbn [fold_left]. split; [exact Hinv | cbn; lia].
    - cbn [fold_left length].
      destruct (perform_ids writable savable state call Hinv)
        as (Hinv' & Hlen & _).
      destruct (IH _ Hinv') as [H1 H2]. cbv zeta in H1, H2.
      split; [exact H1 | lia]. }
  destruct (H calls (logger_init log_dir stamp now, [])) as [H1 H2];
    [reflexivity |].
  cbv zeta in H1, H2. split; [exact H1 |]. cbn in H2. exact H2.
Qed.

(** X20.  [log_measurement] returns only after it has appended exactly one
    record and written the whole session log: the id it returns is the
    new number of records and the record's 'measurement_id'; the record's
    'sample_id' is the one given, or "sample_" and the id in at least
    three digits; the last file written is the session log, complete. *)
Theorem log_measurement_returns_id {F : Type}
    (writable : string -> bool) (savable : pyvalue F -> bool)
    (self self' : @SpectroscopyLogger F) (fs fs' : @files F)
    (now : string) (measurement_data : pyvalue F)
    (sample_id : option string) (id : nat) :
  log_measurement writable savable self fs now measurement_data sample_id
  = ((self', fs'), Return id) ->
  id = length (measurements (session_log self')) /\
  exists record,
    measurements (session_log self')
    = measurements (session_log self) ++ [record] /\
    dict_get record "measurement_id" = Some (PyInt (Z.of_nat id)) /\
    dict_get record "sample_id"
    = Some (PyStr match sample_id with
                  | Some s => s
                  | None => ("sample_" ++ format_03d id)%string
                  end) /\
    exists earlier,
      fs' = earlier
            ++ [(path_join (session_dir self') ["session_log.json"%string],
                 Written (session_dict (session_log self')))].
Proof.
  intros Hcall.
  pose proof (log_measurement_cases writable savable self fs now
                measurement_data sample_id) as Hc.
  cbv zeta in Hc. rewrite Hcall in Hc. cbn [fst snd returns] in Hc.
  destruct Hc as [[_ Hc] | (data & record & _ & -> & H1 & H2 & _ & _ & Hc)];
    [discriminate Hc |].
  destruct Hc as [(fs2 & Hsave & Hid) | Hc]; [| discriminate Hc].
  injection Hid as ->.
  cbn [with_measurement session_log measurements].
  split; [now rewrite length_app |].
  exists record. split; [reflexivity |]. split; [exact H1 |].
  split; [exact H2 |].
  unfold _save_session_log in Hsave.
  destruct (writable _); cbn [negb] in Hsave; [| discriminate Hsave].
  destruct (json_serializable _); [| discriminate Hsave].
  injection Hsave as <-. exists fs2. reflexivity.
Qed.

Lemma log_measurement_returns_id_witness :
  let out :=
    log_measurement (fun _ => true) (fun _ => true)
      (logger_init "spectroscopy_logs" "20250601_100000"
                   "2025-06-01T10:00:00")
      [] "2025-06-01T10:00:05"
      (PyDict [("peaks_detected", @PyInt float 2);
               ("wavelengths", PyList [PyFloat 400%float]);
               ("spectrum", PyList [PyFloat 7%float])]%string)
      None in
  let self' := fst (fst out) in
  let fs' := snd (fst out) in
  1%nat = length (measurements (session_log self')) /\
  exists record,
    measurements (session_log self') = [] ++ [record] /\
    dict_get record "measurement_id" = Some (PyInt (Z.of_nat 1)) /\
    dict_get record "sample_id"
    = Some (PyStr ("sample_" ++ format_03d 1)%string) /\
    exists earlier,
      fs' = earlier
            ++ [(path_join (session_dir self') ["session_log.json"%string],
                 Written (session_dict (session_log self')))].
Proof.
  intros out self' fs'.
  apply (log_measurement_returns_id (fun _ => true) (fun _ => true)
           (logger_init "spectroscopy_logs" "20250601_100000"
                        "2025-06-01T10:00:00")
           self' [] fs' "2025-06-01T10:00:05"
           (PyDict [("peaks_detected", @PyInt float 2);
                    ("wavelengths", PyList [PyFloat 400%float]);
                    ("spectrum", PyList [PyFloat 7%float])]%string)
           None 1%nat).
  vm_compute. reflexivity.
Defined.

(** X21.  A record that cannot be encoded as JSON (a numpy array under
    'peaks_detected', say) is appended to the session log before the
    log is saved.  From then on every call of [log_measurement],
    [add_note] and [end_session] raises, although [log_measurement]
    keeps appending: the session log on disk is never complete again. *)
Theorem unserializable_measurement_blocks_logging {F : Type}
    (writable : string -> bool) (savable : pyvalue F -> bool)
    (self : @SpectroscopyLogger F) (fs : @files F) :
  (forall now (a : @image F) sample_id,
     let out :=
       log_measurement writable savable self fs now
         (PyDict [("peaks_detected", PyArray a)]%string) sample_id in
     returns (snd out) = false /\
     unserializable_log (fst (fst out)) = true /\
     length (measurements (session_log (fst (fst out))))
     = S (length (measurements (session_log self)))) /\
  (unserializable_log self = true ->
   (forall now measurement_data sample_id,
      let out := log_measurement writable savable self fs now
                   measurement_data sample_id in
      returns (snd out) = false /\
      unserializable_log (fst (fst out)) = true) /\
   (forall now note,
      let out := add_note writable self fs now note in
      returns (snd out) = false /\
      unserializable_log (fst (fst out)) = true) /\
   (forall now,
      let out := end_session writable self fs now in
      returns (snd out) = false /\
      unserializable_log (fst (fst out)) = true)).
Proof.
  split.
  - intros now a sample_id. cbv zeta.
    unfold log_measurement. cbn [dict_get String.eqb Ascii.eqb Bool.eqb].
    cbn.
    set (self' := with_measurement self _).
    assert (Hbad : unserializable_log self' = true).
    { subst self'. unfold unserializable_log.
      cbn [with_measurement session_log measurements].
      rewrite existsb_app. cbn. now rewrite orb_true_r. }
    pose proof (save_unserializable writable self' fs Hbad) as Hsave.
    destruct (_save_session_log writable self' fs) as [fs3 [u | e]];
      [discriminate Hsave |].
    cbn [fst snd returns]. split; [reflexivity |]. split; [exact Hbad |].
    subst self'. cbn [with_measurement session_log measurements].
    rewrite length_app. cbn. lia.
  - intros Hbad. split; [| split].
    + intros now data sample_id. cbv zeta.
      destruct (log_measurement_cases writable savable self fs now data
                  sample_id)
        as [[-> Hr] | (d & record & _ & -> & _ & _ & _ & _ & Hr)].
      * split; [exact Hr | exact Hbad].
      * assert (Hbad' : unserializable_log (with_measurement self record)
                        = true).
        { unfold unserializable_log in *.
          cbn [with_measurement session_log measurements].
          rewrite existsb_app. apply orb_true_iff. left. exact Hbad. }
        split; [| exact Hbad'].
        destruct Hr as [(fs2 & Hsave & _) | Hr]; [| exact Hr].
        pose proof (save_unserializable writable _ fs2 Hbad') as Hs.
        rewrite Hsave in Hs. discriminate Hs.
    + intros now note. cbv zeta. unfold add_note.
      destruct (dict_get _ "notes") as [[| | | | | notes | |] |];
        try (split; [reflexivity | exact Hbad]).
      set (self' := with_later_keys self _).
      assert (Hbad' : unserializable_log self' = true) by exact Hbad.
      pose proof (save_unserializable writable self' fs Hbad') as Hs.
      destruct (_save_session_log writable self' fs) as [fs1 r].
      cbn [fst snd] in *. split; [exact Hs | exact Hbad'].
    + intros now. cbv zeta. unfold end_session.
      set (self' := with_later_keys self _).
      assert (Hbad' : unserializable_log self' = true) by exact Hbad.
      pose proof (save_unserializable writable self' fs Hbad') as Hs.
      destruct (_save_session_log writable self' fs) as [fs1 r].
      cbn [fst snd] in *. split; [exact Hs | exact Hbad'].
Qed.

Lemma unserializable_measurement_blocks_logging_witness :
  let self :=
    fst (fst (log_measurement (fun _ => true) (fun _ => true)
                (logger_init "spectroscopy_logs" "20250601_100000"
                             "2025-06-01T10:00:00")
                [] "2025-06-01T10:00:05"
                (PyDict [("peaks_detected",
                          PyArray {| img_width := 1;
                                     img_rows := [[1%float]] |})]%string)
                None)) in
  unserializable_log self = true /\
  (let out := end_session (fun _ => true) self [] "2025-06-01T10:00:09" in
   returns (snd out) = false /\
   unserializable_log (fst (fst out)) = true).
Proof.
  intros self.
  assert (H : unserializable_log self = true) by reflexivity.
  split; [exact H |].
  apply (proj2 (proj2 (proj2 (unserializable_measurement_blocks_logging
                                (fun _ => true) (fun _ => true) self [])
                             H))).
Defined.

(** *** Sample ids given by default *)

Lemma string_length_append (s t : string) :
  String.length (s ++ t) = (String.length s + String.length t)%nat.
Proof.
  induction s as [| c s IH]; [reflexivity |].
  cbn [String.append String.length]. now rewrite IH.
Qed.

Lemma string_app_inv_head (p s t : string) :
  (p ++ s)%string = (p ++ t)%string -> s = t.
Proof.
  induction p as [| c p IH]; [auto |].
  cbn [String.append]. intros H. injection H as H. now apply IH.
Qed.

Lemma string_app_inv_tail (s t tail : string) :
  (s ++ tail)%string = (t ++ tail)%string -> s = t.
Proof.
  revert t. induction s as [| c s IH]; intros [| d t] H.
  - reflexivity.
  - apply (f_equal String.length) in H.
    cbn [String.append String.length] in H.
    rewrite string_length_append in H. lia.
  - apply (f_equal String.length) in H.
    cbn [String.append String.length] in H.
    rewrite string_length_append in H. lia.
  - cbn [String.append] in H. injection H as -> H. f_equal. now apply IH.
Qed.

(** The number a string of digits stands for. *)
Lemma decode_str_of_nat (n : nat) :
  option_map Nat.of_uint
    (DecimalString.NilEmpty.uint_of_string (str_of_nat n)) = Some n.
Proof.
  unfold str_of_nat. rewrite DecimalString.NilEmpty.usu.
  cbn [option_map]. now rewrite DecimalNat.Unsigned.of_to.
Qed.

Lemma decode_zero_head (t : string) :
  option_map Nat.of_uint
    (DecimalString.NilEmpty.uint_of_string ("0" ++ t))
  = option_map Nat.of_uint (DecimalString.NilEmpty.uint_of_string t).
Proof.
  cbn [String.append DecimalString.NilEmpty.uint_of_string].
  unfold DecimalString.uint_of_char.
  destruct (DecimalString.NilEmpty.uint_of_string t); reflexivity.
Qed.

Lemma decode_zeros (k : nat) (s : string) :
  option_map Nat.of_uint
    (DecimalString.NilEmpty.uint_of_string (zeros k ++ s))
  = option_map Nat.of_uint (DecimalString.NilEmpty.uint_of_string s).
Proof.
  induction k as [| k IH]; [reflexivity |].
  change (zeros (S k) ++ s)%string with ("0" ++ (zeros k ++ s))%string.
  now rewrite decode_zero_head.
Qed.

Lemma format_03d_injective (n m : nat) :
  format_03d n = format_03d m -> n = m.
Proof.
  intros H.
  apply (f_equal (fun s => option_map Nat.of_uint
                   (DecimalString.NilEmpty.uint_of_string s))) in H.
  unfold format_03d in H. cbv zeta in H.
  rewrite !decode_zeros, !decode_str_of_nat in H. now injection H.
Qed.

Lemma join_step_injective (p b1 b2 : string) :
  starts_with_sep b1 = false -> starts_with_sep b2 = false ->
  join_step p b1 = join_step p b2 -> b1 = b2.
Proof.
  intros H1 H2. unfold join_step. rewrite H1, H2.
  destruct ((p =? "")%string || ends_with_sep p); intros H.
  - now apply string_app_inv_head in H.
  - apply string_app_inv_head in H.
    now apply (string_app_inv_head "/") in H.
Qed.

(** X22.  The sample id [log_measurement] makes up when none is given,
    "sample_" and the measurement id in at least three digits, is
    different for different measurement ids (three digits exactly below
    1000), and so are the paths of the spectrum and image files named
    after it: records logged without a sample id never share a file. *)
Theorem default_sample_ids_distinct :
  (forall n m, format_03d n = format_03d m -> n = m) /\
  (forall n, (n < 1000)%nat -> String.length (format_03d n) = 3%nat) /\
  (forall (session_dir folder suffix : string) (n m : nat),
     n <> m ->
     path_join session_dir
       [folder; ("sample_" ++ format_03d n ++ suffix)%string]
     <> path_join session_dir
       [folder; ("sample_" ++ format_03d m ++ suffix)%string]).
Proof.
  split; [exact format_03d_injective | split].
  - intros n Hn.
    assert (H : forallb (fun k => (String.length (format_03d k) =? 3)%nat)
                        (seq 0 1000) = true) by (vm_compute; reflexivity).
    rewrite forallb_forall in H.
    apply Nat.eqb_eq. apply H. apply in_seq. lia.
  - intros session_dir folder suffix n m Hnm H. apply Hnm.
    unfold path_join in H. cbn [fold_left] in H.
    apply join_step_injective in H; [| reflexivity | reflexivity].
    apply (string_app_inv_head "sample_") in H.
    apply string_app_inv_tail in H.
    now apply format_03d_injective.
Qed.

Lemma default_sample_ids_distinct_witness :
  String.length (format_03d 42) = 3%nat /\
  path_join "spectroscopy_logs/session_20250601_100000"
    ["spectra"; ("sample_" ++ format_03d 1 ++ "_spectrum.npz")]%string
  <> path_join "spectroscopy_logs/session_20250601_100000"
       ["spectra"; ("sample_" ++ format_03d 2 ++ "_spectrum.npz")]%string.
Proof.
  split.
  - apply (proj1 (proj2 default_sample_ids_distinct) 42%nat). lia.
  - apply (proj2 (proj2 default_sample_ids_distinct)
             "spectroscopy_logs/session_20250601_100000"%string
             "spectra"%string "_spectrum.npz"%string 1%nat 2%nat).
    discriminate.
Defined.

(** ** The logger's summary and the dashboard's counters *)

Lemma count_confidence_snoc {F : Type} (level : string)
    (ms : list (dict F)) (m : dict F) (n : nat) (hit : bool) :
  count_confidence level ms = Return n ->
  has_confidence level m = Return hit ->
  count_confidence level (ms ++ [m])
  = Return (n + if hit then 1 else 0)%nat.
Proof.
  revert n. induction ms as [| a ms IH]; intros n Hn Hm.
  - cbn in Hn. injection Hn as <-. cbn [app count_confidence].
    rewrite Hm. cbn [obind]. f_equal. destruct hit; reflexivity.
  - cbn [app count_confidence] in Hn |- *.
    destruct (has_confidence level a) as [b |]; [| discriminate Hn].
    cbn [obind] in Hn |- *.
    destruct (count_confidence level ms) as [k |] eqn:Hk;
      [| discriminate Hn].
    cbn [obind] in Hn. injection Hn as <-.
    rewrite (IH k eq_refl Hm). cbn [obind]. f_equal. lia.
Qed.

(** X23.  The application with the dashboard keeps the logger and the
    dashboard in step: they start equal (no records, all counters zero),
    and every call of [analyze_sample] that returns adds one record and
    one measurement, and counts a "high" or "medium" verdict on both
    sides.  So the totals in [get_summary]'s text are the dashboard's
    counters as long as every call returns. *)
Theorem dashboard_counts_match_log {F : Type} {num : Numeric F}
    (odd_window_required : bool)
    (savgol_even_values : list F -> Z -> Z -> list F)
    (writable : string -> bool) (savable : pyvalue F -> bool) :
  (forall log_dir stamp now,
     counts_agree (logger_init log_dir stamp now) (@dashboard_start F)) /\
  (forall (self self' : RunWithDashboard.SpectrometerAppWithDashboard)
          (fs fs' : @files F) (board board' : dashboard F) (timestamp : F)
          (now : string) (image_2d : @image F) (sample_id : option string)
          (results : pyvalue F),
     counts_agree (RunWithDashboard.app_logger self) board ->
     RunWithDashboard.analyze_sample odd_window_required savgol_even_values
       writable savable self fs board timestamp now image_2d sample_id
     = ((self', fs', board'), Return results) ->
     counts_agree (RunWithDashboard.app_logger self') board') /\
  (forall (self : @SpectroscopyLogger F) (board : dashboard F),
     counts_agree self board ->
     (0 < total_measurements (stats board))%Z ->
     get_summary self
     = Return (newline
               ++ "Session Summary:" ++ newline
               ++ "- Total measurements: "
               ++ str_of_nat (Z.to_nat (total_measurements (stats board)))
               ++ newline
               ++ "- High confidence biosignatures: "
               ++ str_of_nat (Z.to_nat (high_confidence (stats board)))
               ++ newline
               ++ "- Medium confidence biosignatures: "
               ++ str_of_nat (Z.to_nat (medium_confidence (stats board)))
               ++ newline
               ++ "- Session ID: " ++ session_id self ++ newline
               ++ "- Log directory: " ++ session_dir self ++ newline
               ++ "        ")%string).
Proof.
  split; [| split].
  - intros log_dir stamp now. unfold counts_agree. cbn.
    split; [reflexivity |]. split; exists 0%nat; split; reflexivity.
  - intros self self' fs fs' board board' timestamp now image_2d sample_id
      results (Htotal & (h & Hh & Hhz) & (m & Hm & Hmz)) Hcall.
    destruct (analyze_sample_results odd_window_required savgol_even_values
                writable savable self fs board timestamp now image_2d
                sample_id)
      as [(e & Hdash & _) | (pd & pw & wl & sp & an & Hdash & _)].
    { rewrite Hdash in Hcall. discriminate Hcall. }
    cbv zeta in Hdash. rewrite Hdash in Hcall. clear Hdash.
    set (res := PyDict _) in Hcall.
    pose proof (log_measurement_cases writable savable
                  (RunWithDashboard.app_logger self) fs now res sample_id)
      as Hc.
    cbv zeta in Hc.
    destruct (log_measurement writable savable
                (RunWithDashboard.app_logger self) fs now res sample_id)
      as [[logger' fs1] [id | e]]; [| discriminate Hcall].
    cbn [fst snd returns] in Hc.
    destruct Hc as [[_ Hc] | (data & record & Hdata & -> & _ & _ & _ & Han & _)];
      [discriminate Hc |].
    assert (Hb : board' = fst (update_results board res)) by congruence.
    assert (Hs : RunWithDashboard.app_logger self'
                 = with_measurement (RunWithDashboard.app_logger self) record)
      by (injection Hcall as <- _ _ _; reflexivity).
    clear Hcall. rewrite Hb, Hs. clear Hb Hs.
    unfold res in Hdata. injection Hdata as <-.
    cbn in Han.
    assert (Hhit : forall level,
              has_confidence level record
              = Return (confidence an =? level)%string).
    { intros level. unfold has_confidence. rewrite Han. reflexivity. }
    destruct (update_results_step board res) as (_ & S2 & S3 & S4 & _).
    cbv zeta in S2, S3, S4.
    change (reports "high" res) with (confidence an =? "high")%string in S3.
    change (reports "medium" res)
      with (confidence an =? "medium")%string in S4.
    unfold counts_agree. cbv zeta.
    cbn [with_measurement session_log measurements].
    rewrite length_app. cbn [length].
    split; [| split].
    + rewrite S2. lia.
    + eexists. split; [apply (count_confidence_snoc _ _ _ _ _ Hh (Hhit _)) |].
      rewrite S3. destruct (confidence an =? "high")%string; lia.
    + eexists. split; [apply (count_confidence_snoc _ _ _ _ _ Hm (Hhit _)) |].
      rewrite S4. destruct (confidence an =? "medium")%string; lia.
  - intros self board (Htotal & (h & Hh & Hhz) & (m & Hm & Hmz)) Hpos.
    unfold get_summary.
    destruct (length (measurements (session_log self)) =? 0)%nat eqn:E;
      [apply Nat.eqb_eq in E; lia |].
    rewrite Hh, Hm. cbn [obind].
    rewrite <- Htotal, <- Hhz, <- Hmz, !Nat2Z.id. reflexivity.
Qed.

Lemma dashboard_counts_match_log_witness :
  let self :=
    {| RunWithDashboard.app_processor :=
         {| wavelength_range := (400, 700)%Z;
            calibration :=
              Some (built_map [(0%Z, Q2Qc (inject_Z 400));
                               (10%Z, Q2Qc (inject_Z 500))]) |};
       RunWithDashboard.app_logger :=
         logger_init "spectroscopy_logs" "20250601_100000"
                     "2025-06-01T10:00:00" |} in
  let image_2d :=
    {| img_width := 11;
       img_rows := [Qc_of_ints [7; 7; 7; 7; 7; 7; 7; 7; 7; 7; 7]%Z] |} in
  let out :=
    RunWithDashboard.analyze_sample true (fun x _ _ => x)
      (fun _ => true) (fun _ => true) self [] dashboard_start 0%Qc
      "2025-06-01T10:00:05" image_2d None in
  counts_agree (RunWithDashboard.app_logger (fst (fst (fst out))))
               (snd (fst out)).
Proof.
  intros self image_2d out.
  apply (proj1 (proj2 (dashboard_counts_match_log true (fun x _ _ => x)
                         (fun _ => true) (fun _ => true)))
           self (fst (fst (fst out))) [] (snd (fst (fst out)))
           dashboard_start (snd (fst out)) 0%Qc "2025-06-01T10:00:05"%string
           image_2d None
           (match snd out with Return r => r | Throw _ => PyNone end)).
  - apply (proj1 (dashboard_counts_match_log true (fun x _ _ => x)
                    (fun _ => true) (fun _ => true))).
  - vm_compute. reflexivity.
Defined.

(** ** The classifier and the peak list *)

Section ClassifierPeaks.
Context {F : Type} {num : Numeric F}.

Lemma existsb_incl (f : F -> bool) (a b : list F) :
  incl a b -> existsb f a = true -> existsb f b = true.
Proof.
  intros Hincl H. apply existsb_exists in H as (p & Hp & Hf).
  apply existsb_exists. exists p. split; [now apply Hincl | exact Hf].
Qed.

Lemma existsb_same_elements (f : F -> bool) (a b : list F) :
  (forall p, In p a <-> In p b) -> existsb f a = existsb f b.
Proof.
  intros H.
  destruct (existsb f a) eqn:Ha.
  - symmetry. apply (existsb_incl f a b); [| exact Ha].
    intros p Hp. now apply H.
  - destruct (existsb f b) eqn:Hb; [| reflexivity].
    rewrite <- Ha. apply (existsb_incl f b a); [| exact Hb].
    intros p Hp. now apply H.
Qed.

Lemma flags_determine (a b ia ib : list F) :
  has_chlorophyll a = has_chlorophyll b ->
  has_carotenoids a = has_carotenoids b ->
  has_organics a = has_organics b ->
  detect_biosignatures a ia = detect_biosignatures b ib.
Proof.
  intros H1 H2 H3. unfold detect_biosignatures.
  rewrite !indicators_count, H1, H2, H3. reflexivity.
Qed.

End ClassifierPeaks.

(** X24.  [detect_biosignatures] depends on the set of peak wavelengths only:
    two peak lists with the same members, in any order and with any
    repetitions, get the same answer, whatever the intensities passed
    along. *)
Theorem detect_biosignatures_peak_set {F : Type} {num : Numeric F}
    (peaks peaks' intensities intensities' : list F) :
  (forall p, In p peaks <-> In p peaks') ->
  detect_biosignatures peaks intensities
  = detect_biosignatures peaks' intensities'.
Proof.
  intros H. apply flags_determine.
  - unfold has_chlorophyll.
    now rewrite (existsb_same_elements _ peaks peaks' H),
                (existsb_same_elements (between 655 665) peaks peaks' H).
  - unfold has_carotenoids. now apply existsb_same_elements.
  - unfold has_organics. now apply existsb_same_elements.
Qed.

Lemma detect_biosignatures_peak_set_witness :
  detect_biosignatures [430; 500; 430]%float [1; 2; 3]%float
  = detect_biosignatures [500; 430]%float [].
Proof.
  apply (detect_biosignatures_peak_set
           [430; 500; 430]%float [500; 430]%float [1; 2; 3]%float []).
  intros p. cbn. tauto.
Defined.

(** X25.  More peaks never lower the verdict: when every peak of one list
    occurs in another, every flag set for the first is set for the
    second, the second counts at least as many indicators, and a "high"
    for the first is a "high" for the second, a "none" for the second a
    "none" for the first. *)
Theorem detect_biosignatures_more_peaks {F : Type} {num : Numeric F}
    (peaks peaks' intensities intensities' : list F) :
  incl peaks peaks' ->
  let r := detect_biosignatures peaks intensities in
  let r' := detect_biosignatures peaks' intensities' in
  (chlorophyll r = true -> chlorophyll r' = true) /\
  (carotenoids r = true -> carotenoids r' = true) /\
  (organics r = true -> organics r' = true) /\
  (indicators peaks <= indicators peaks')%Z /\
  (confidence r = "high"%string -> confidence r' = "high"%string) /\
  (confidence r' = "none"%string -> confidence r = "none"%string).
Proof.
  intros Hincl r r'. subst r r'.
  assert (Hc : has_chlorophyll peaks = true -> has_chlorophyll peaks' = true).
  { unfold has_chlorophyll. rewrite !orb_true_iff.
    intros [H | H]; [left | right]; now apply (existsb_incl _ peaks). }
  assert (Hk : has_carotenoids peaks = true -> has_carotenoids peaks' = true)
    by (unfold has_carotenoids; now apply existsb_incl).
  assert (Ho : has_organics peaks = true -> has_organics peaks' = true)
    by (unfold has_organics; now apply existsb_incl).
  pose proof (detect_verdict peaks intensities) as Hv.
  pose proof (detect_verdict peaks' intensities') as Hv'.
  flags_norm. rewrite !indicators_count in *.
  destruct (has_chlorophyll peaks), (has_carotenoids peaks),
    (has_organics peaks);
    try specialize (Hc eq_refl); try specialize (Hk eq_refl);
    try specialize (Ho eq_refl);
    destruct (has_chlorophyll peaks'), (has_carotenoids peaks'),
      (has_organics peaks');
    try discriminate;
    cbn in Hv, Hv' |- *; injection Hv as -> _; injection Hv' as -> _;
    repeat split; auto; try lia; try discriminate.
Qed.

Lemma detect_biosignatures_more_peaks_witness :
  let r := detect_biosignatures [430]%float [] in
  let r' := detect_biosignatures [500; 430]%float [] in
  (chlorophyll r = true -> chlorophyll r' = true) /\
  (carotenoids r = true -> carotenoids r' = true) /\
  (organics r = true -> organics r' = true) /\
  (indicators [430]%float <= indicators [500; 430]%float)%Z /\
  (confidence r = "high"%string -> confidence r' = "high"%string) /\
  (confidence r' = "none"%string -> confidence r = "none"%string).
Proof.
  apply (detect_biosignatures_more_peaks [430]%float [500; 430]%float [] []).
  intros p Hp. cbn in Hp |- *. tauto.
Defined.

(** X26.  On binary64 peaks: the carotenoid window (450, 550) and the organics
    window (400, 450) share no wavelength, so "high" needs two different
    peaks, one below 450 nm and one above; a single peak gives at most
    "medium". *)
Theorem high_confidence_needs_two_peaks
    (peaks intensities : list float) :
  confidence (detect_biosignatures peaks intensities) = "high"%string ->
  (exists p q, In p peaks /\ In q peaks /\
               flt p (of_int 450) = true /\ flt (of_int 450) q = true /\
               p <> q) /\
  (2 <= length peaks)%nat.
Proof.
  intros Hhigh.
  pose proof (detect_verdict peaks intensities) as Hv.
  rewrite Hhigh, indicators_count in Hv.
  assert (Hk : has_carotenoids peaks = true /\ has_organics peaks = true).
  { destruct (has_chlorophyll peaks), (has_carotenoids peaks),
      (has_organics peaks); cbn in Hv; try discriminate Hv; auto. }
  destruct Hk as [Hk Ho].
  unfold has_carotenoids in Hk. unfold has_organics in Ho.
  apply existsb_exists in Hk as (q & Hq & Hqb).
  apply existsb_exists in Ho as (p & Hp & Hpb).
  unfold between in Hqb, Hpb.
  apply andb_true_iff in Hqb as [Hq1 _].
  apply andb_true_iff in Hpb as [_ Hp2].
  assert (Hne : p <> q).
  { intros ->. cbn [flt float_numeric] in Hq1, Hp2.
    pose proof (float_ltb_asym _ _ Hq1). congruence. }
  split; [exists p, q; auto |].
  destruct peaks as [| a [| b rest]]; [destruct Hp | | cbn; lia].
  destruct Hp as [<- | []], Hq as [<- | []]. now contradiction Hne.
Qed.

Lemma high_confidence_needs_two_peaks_witness :
  (exists p q, In p [430; 500]%float /\ In q [430; 500]%float /\
               flt p (of_int 450) = true /\ flt (of_int 450) q = true /\
               p <> q) /\
  (2 <= length [430; 500]%float)%nat.
Proof.
  apply (high_confidence_needs_two_peaks [430; 500]%float []).
  vm_compute. reflexivity.
Defined.

(** ** The wavelength axis of the default calibration *)

Lemma nth_firstn_lt {A : Type} (l : list A) (n p : nat) (d : A) :
  (p < n)%nat -> nth p (firstn n l) d = nth p l d.
Proof.
  revert n p. induction l as [| a l IH]; intros [| n] [| p] Hp;
    try reflexivity; try lia.
  cbn [firstn nth]. apply IH. lia.
Qed.

(** The axis of a narrower frame starts the axis of a wider one. *)
Lemma interp1d_call_prefix {F : Type} {num : Numeric F}
    (cal : @interp1d F) (n m : nat) :
  (n <= m)%nat ->
  interp1d_call cal (arange n) = firstn n (interp1d_call cal (arange m)).
Proof.
  intros Hn. unfold interp1d_call, arange.
  now rewrite !firstn_map, firstn_seq_le by exact Hn.
Qed.

(** X27.  With the default calibration (pixel 0 at 400 nm, 640 at 550 nm,
    1279 at 700 nm) every spectrum of up to 1280 samples, the sensor's
    width, gets a binary64 wavelength axis with one wavelength per sample
    that increases strictly from each pixel to the next and stays between
    400 and 700 nm. *)
Theorem default_axis_increasing :
  forall (self : @SpectrometerApp float) (spectrum : list float),
    (length spectrum <= 1280)%nat ->
    exists (calibrated : @SpectrometerApp float) (wavelengths : list float),
      load_default_calibration self = Ok calibrated /\
      app_logger calibrated = app_logger self /\
      apply_calibration (app_processor calibrated) spectrum
      = Ok (wavelengths, spectrum) /\
      length wavelengths = length spectrum /\
      (forall p, (p + 1 < length spectrum)%nat ->
         flt (nth p wavelengths zero) (nth (p + 1) wavelengths zero) = true) /\
      (forall p, (p < length spectrum)%nat ->
         fle 400%float (nth p wavelengths zero) = true /\
         fle (nth p wavelengths zero) 700%float = true).
Proof.
  intros self spectrum Hn.
  set (cal := built_map (@calibration_points float float_numeric)).
  assert (Hrise :
    let axis := interp1d_call cal (arange 1280) in
    forallb (fun p => flt (nth p axis zero) (nth (p + 1) axis zero))
            (seq 0 1279) = true) by (vm_compute; reflexivity).
  assert (Hrange :
    let axis := interp1d_call cal (arange 1280) in
    forallb (fun v => fle 400%float v && fle v 700%float) axis = true)
    by (vm_compute; reflexivity).
  cbv zeta in Hrise, Hrange. rewrite forallb_forall in Hrise, Hrange.
  exists {| app_processor :=
              {| wavelength_range := wavelength_range (app_processor self);
                 calibration := Some cal |};
            app_logger := app_logger self |},
         (interp1d_call cal (arange (length spectrum))).
  split; [reflexivity |]. split; [reflexivity |]. split; [reflexivity |].
  assert (Hlen : length (interp1d_call cal (arange 1280)) = 1280%nat)
    by (unfold interp1d_call, arange; now rewrite !length_map, length_seq).
  split; [unfold interp1d_call, arange; now rewrite !length_map, length_seq |].
  rewrite (interp1d_call_prefix cal (length spectrum) 1280 Hn).
  split.
  - intros p Hp. rewrite !nth_firstn_lt by lia.
    apply Hrise. apply in_seq. lia.
  - intros p Hp. rewrite nth_firstn_lt by lia.
    specialize (Hrange (nth p (interp1d_call cal (arange 1280)) zero)
                  ltac:(apply nth_In; lia)).
    now apply andb_true_iff in Hrange.
Qed.

Lemma default_axis_increasing_witness :
  let self := {| app_processor := init (400, 700)%Z; app_logger := None |} in
  let spectrum := repeat 100%float 1280 in
  exists (calibrated : @SpectrometerApp float) (wavelengths : list float),
    load_default_calibration self = Ok calibrated /\
    app_logger calibrated = app_logger self /\
    apply_calibration (app_processor calibrated) spectrum
    = Ok (wavelengths, spectrum) /\
    length wavelengths = length spectrum /\
    (forall p, (p + 1 < length spectrum)%nat ->
       flt (nth p wavelengths zero) (nth (p + 1) wavelengths zero) = true) /\
    (forall p, (p < length spectrum)%nat ->
       fle 400%float (nth p wavelengths zero) = true /\
       fle (nth p wavelengths zero) 700%float = true).
Proof.
  intros self spectrum.
  apply (default_axis_increasing self spectrum).
  subst spectrum. rewrite repeat_length. lia.
Defined.
